(** * Prototype subsystem: resource cloning, prototype registry, resource store

    A shallow embedding of the Prototype-pattern core of the cloud
    infrastructure API:

    - [app/domain/abstractions/prototype.py]  (CloneableResource, PrototypeMetadata)
    - [app/domain/abstractions/products.py]   (ResourceStatus, CloudResource)
    - [app/domain/products/*_products.py]     (the per-class [clone] overrides)
    - [app/domain/services/prototype_service.py] (PrototypeManager)
    - [app/infrastructure/repository.py]      (VMRepository)
    - [app/api/prototype_controller.py]       (the clone endpoint)

    Python objects are mutable and held by reference, so the embedding is
    store-passing: resource instances and the list/dict objects they point to
    live in two heaps indexed by addresses, and every method is a function
    from a state to an outcome carrying the next state.  The two sources of
    non-determinism, [uuid.uuid4()] and [datetime.now()], are read from
    oracles that are part of the state.  [print] and [logger] calls only
    write diagnostics and are left out.

    Beyond the cloning core the development covers the constructors of the
    AWS classes, the life cycle of an EC2 instance, the targets of a load
    balancer, the security groups of a network interface, the objects of a
    bucket, the listing, search, category and statistics queries of the
    registry, [save] and [save_product] of the store, and the create,
    details and delete endpoints. *)

From stdpp Require Import gmap strings list fin_maps pretty.
From Stdlib Require Import ZArith Lia Ascii.

Local Open Scope Z_scope.

(** ** Python strings *)

Module PyStr.

(** [s.split('-')[0]]: the characters before the first dash. *)
Fixpoint split_head (s : string) : string :=
  match s with
  | EmptyString => EmptyString
  | String c rest =>
      if Ascii.eqb c "-"%char then EmptyString else String c (split_head rest)
  end.

Fixpoint drop (n : nat) (s : string) : string :=
  match n, s with
  | O, _ => s
  | S n', String _ rest => drop n' rest
  | S _, EmptyString => EmptyString
  end.

(** [s[-8:]]: the last eight characters, or all of [s] when it is shorter. *)
Definition last8 (s : string) : string :=
  drop (String.length s - 8)%nat s.

(** Truth value of a [str]: only the empty string is falsy. *)
Definition truthy (s : string) : bool :=
  match s with EmptyString => false | _ => true end.

End PyStr.

(** ** Python dicts, insertion ordered

    Iteration order is observable ([get_statistics] breaks ties by it), so a
    [dict] with string keys is an association list in insertion order.
    Assigning to an existing key keeps its position. *)

Module PyDict.

Section Ops.
Context {V : Type}.

(** [d.get(k)] *)
Fixpoint get (k : string) (d : list (string * V)) : option V :=
  match d with
  | [] => None
  | (k', v) :: rest => if decide (k = k') then Some v else get k rest
  end.

(** [k in d] *)
Definition mem (k : string) (d : list (string * V)) : bool :=
  match get k d with Some _ => true | None => false end.

(** [d[k] = v] *)
Fixpoint set (k : string) (v : V) (d : list (string * V)) : list (string * V) :=
  match d with
  | [] => [(k, v)]
  | (k', v') :: rest =>
      if decide (k = k') then (k, v) :: rest else (k', v') :: set k v rest
  end.

(** [del d[k]] (the callers test membership first) *)
Fixpoint del (k : string) (d : list (string * V)) : list (string * V) :=
  match d with
  | [] => []
  | (k', v') :: rest =>
      if decide (k = k') then rest else (k', v') :: del k rest
  end.

(** [d.keys()], [d.values()] *)
Definition keys (d : list (string * V)) : list string := d.*1.
Definition values (d : list (string * V)) : list V := d.*2.

(** [d.update(other)] *)
Definition update (other d : list (string * V)) : list (string * V) :=
  foldl (λ acc kv, set kv.1 kv.2 acc) d other.

End Ops.

End PyDict.

(** ** Values and container objects *)

Definition addr := nat.

(** What a container slot or a dynamically typed attribute may hold: an
    immutable scalar, or a reference to a list or dict object. *)
Inductive value :=
| VStr (s : string)
| VInt (n : Z)
| VBool (b : bool)
| VNone
| VRef (a : addr).

Inductive container :=
| ListObj (items : list value)
| DictObj (entries : list (string * value)).

#[global] Instance value_eq_dec : EqDecision value.
Proof. solve_decision. Defined.

#[global] Instance container_eq_dec : EqDecision container.
Proof. solve_decision. Defined.

#[global] Instance container_inhabited : Inhabited container := populate (ListObj []).

(** ** [copy.deepcopy]

    The library routine walks the object graph, keeps a memo from the
    identity of each object already copied to its copy (which preserves
    sharing and ties cycles), and allocates a new object for every list and
    dict it meets; scalars are returned as they are.  The walk only reads
    objects that existed before the call and only writes the copies, so the
    originals are read from the snapshot [h0] of the heap taken on entry.
    Each descent memoises one more original object: [fuel] bounds the depth
    of the walk and [S (size h0)] always suffices ([deepcopy_enough_fuel]). *)

Module Deepcopy.

Definition copy_state : Type := gmap addr container * gmap addr addr.

(** Copy the elements of a list left to right, threading the state. *)
Fixpoint copy_items (f : value → copy_state → option (value * copy_state))
    (xs : list value) (s : copy_state) : option (list value * copy_state) :=
  match xs with
  | [] => Some ([], s)
  | x :: rest =>
      match f x s with
      | None => None
      | Some (y, s1) =>
          match copy_items f rest s1 with
          | None => None
          | Some (ys, s2) => Some (y :: ys, s2)
          end
      end
  end.

(** Copy the values of a dict in insertion order (keys are strings). *)
Fixpoint copy_entries (f : value → copy_state → option (value * copy_state))
    (kvs : list (string * value)) (s : copy_state)
    : option (list (string * value) * copy_state) :=
  match kvs with
  | [] => Some ([], s)
  | (k, x) :: rest =>
      match f x s with
      | None => None
      | Some (y, s1) =>
          match copy_entries f rest s1 with
          | None => None
          | Some (ys, s2) => Some ((k, y) :: ys, s2)
          end
      end
  end.

Fixpoint copy_value (fuel : nat) (h0 : gmap addr container)
    (v : value) (s : copy_state) : option (value * copy_state) :=
  match v with
  | VRef a =>
      match s.2 !! a with
      | Some a' => Some (VRef a', s)                   (* already copied *)
      | None =>
          match h0 !! a with
          | None => Some (v, s)                         (* not a container *)
          | Some c =>
              match fuel with
              | O => None
              | S fuel' =>
                  let a' := fresh (dom s.1) in
                  match c with
                  | ListObj xs =>
                      let s1 := (<[a' := ListObj []]> s.1, <[a := a']> s.2) in
                      match copy_items (copy_value fuel' h0) xs s1 with
                      | None => None
                      | Some (ys, s2) =>
                          Some (VRef a', (<[a' := ListObj ys]> s2.1, s2.2))
                      end
                  | DictObj kvs =>
                      let s1 := (<[a' := DictObj []]> s.1, <[a := a']> s.2) in
                      match copy_entries (copy_value fuel' h0) kvs s1 with
                      | None => None
                      | Some (ys, s2) =>
                          Some (VRef a', (<[a' := DictObj ys]> s2.1, s2.2))
                      end
                  end
              end
          end
      end
  | _ => Some (v, s)
  end.

(** [deepcopy] of one value, with the fuel that always suffices. *)
Definition run (h0 : gmap addr container) (v : value) (s : copy_state)
    : value * copy_state :=
  default (v, s) (copy_value (S (size h0)) h0 v s).

(** A field holding a reference to a container. *)
Definition run_ref (h0 : gmap addr container) (a : addr) (s : copy_state)
    : addr * copy_state :=
  match run h0 (VRef a) s with
  | (VRef a', s') => (a', s')
  | (_, s') => (a, s')
  end.

(** A bag of dynamically typed attributes, in attribute order. *)
Definition run_attrs (h0 : gmap addr container) (kvs : list (string * value))
    (s : copy_state) : list (string * value) * copy_state :=
  default (kvs, s) (copy_entries (copy_value (S (size h0)) h0) kvs s).

End Deepcopy.

(** ** Resources ([abstractions/products.py], [products/*_products.py]) *)

(** [class ResourceStatus(str, Enum)] *)
Inductive ResourceStatus := CREATING | RUNNING | STOPPED | DELETING | ERROR.

#[global] Instance ResourceStatus_eq_dec : EqDecision ResourceStatus.
Proof. solve_decision. Defined.

(** The attributes each AWS class adds in its [__init__]. *)
Record EC2InstanceAttrs := {
  ec2_instance_type : string;
  ec2_ami : string;
  ec2_vpc_id : string;
  ec2_security_groups : addr;       (* List[str] *)
  ec2_key_pair : string;
  ec2_private_ip : string;
  ec2_public_ip : string
}.

Record RDSDatabaseAttrs := {
  rds_engine : string;
  rds_instance_class : string;
  rds_allocated_storage : Z;
  rds_endpoint : string;
  rds_port : Z
}.

Record ApplicationLoadBalancerAttrs := {
  alb_vpc_id : string;
  alb_scheme : string;
  alb_targets : addr;               (* List[str] *)
  alb_listeners : addr;             (* List[Dict[str, Any]] *)
  alb_dns_name : string
}.

Record S3StorageAttrs := {
  s3_bucket_name : string;
  s3_storage_class : string;
  s3_objects : addr;                (* Dict[str, Dict[str, Any]] *)
  s3_versioning_enabled : bool
}.

Record EC2NetworkInterfaceAttrs := {
  eni_instance_id : string;
  eni_security_groups : addr;       (* List[str] *)
  eni_public_ip : string
}.

(** The GCP and on-premise classes take their attributes from an untyped
    [config] dict; they are kept as a bag of attribute values. *)
Inductive ConfigClass :=
| ComputeEngineInstance | CloudSQLDatabase | CloudLoadBalancer | CloudStorage
| OnPremiseVirtualMachine | OnPremiseDatabase | OnPremiseLoadBalancer
| OnPremiseStorage.

Inductive Specific :=
| EC2Instance (x : EC2InstanceAttrs)
| RDSDatabase (x : RDSDatabaseAttrs)
| ApplicationLoadBalancer (x : ApplicationLoadBalancerAttrs)
| S3Storage (x : S3StorageAttrs)
| EC2NetworkInterface (x : EC2NetworkInterfaceAttrs)
| ConfigResource (cls : ConfigClass) (attrs : list (string * value)).

(** An instance of a concrete [CloudResource] class: the attributes of
    [CloneableResource.__init__], then those of [CloudResource.__init__],
    then the subclass's own.  Timestamps ([datetime]) are integers. *)
Record Resource := {
  prototype_id : string;
  is_prototype : bool;
  cloned_from : option string;
  clone_count : Z;
  created_at : Z;
  last_cloned_at : option Z;
  resource_id : string;
  name : string;
  region : string;
  status : ResourceStatus;
  tags : addr;                      (* Dict[str, str] *)
  specific : Specific
}.

#[global] Instance Resource_inhabited : Inhabited Resource :=
  populate {| prototype_id := ""; is_prototype := false; cloned_from := None;
              clone_count := 0; created_at := 0; last_cloned_at := None;
              resource_id := ""; name := ""; region := ""; status := CREATING;
              tags := 0%nat; specific := ConfigResource ComputeEngineInstance [] |}.

(** Attribute assignment, one function per attribute that the code assigns. *)
Definition set_prototype_id (v : string) (r : Resource) : Resource :=
  {| prototype_id := v; is_prototype := is_prototype r;
     cloned_from := cloned_from r; clone_count := clone_count r;
     created_at := created_at r; last_cloned_at := last_cloned_at r;
     resource_id := resource_id r; name := name r; region := region r;
     status := status r; tags := tags r; specific := specific r |}.

Definition set_is_prototype (v : bool) (r : Resource) : Resource :=
  {| prototype_id := prototype_id r; is_prototype := v;
     cloned_from := cloned_from r; clone_count := clone_count r;
     created_at := created_at r; last_cloned_at := last_cloned_at r;
     resource_id := resource_id r; name := name r; region := region r;
     status := status r; tags := tags r; specific := specific r |}.

Definition set_cloned_from (v : option string) (r : Resource) : Resource :=
  {| prototype_id := prototype_id r; is_prototype := is_prototype r;
     cloned_from := v; clone_count := clone_count r;
     created_at := created_at r; last_cloned_at := last_cloned_at r;
     resource_id := resource_id r; name := name r; region := region r;
     status := status r; tags := tags r; specific := specific r |}.

Definition set_clone_count (v : Z) (r : Resource) : Resource :=
  {| prototype_id := prototype_id r; is_prototype := is_prototype r;
     cloned_from := cloned_from r; clone_count := v;
     created_at := created_at r; last_cloned_at := last_cloned_at r;
     resource_id := resource_id r; name := name r; region := region r;
     status := status r; tags := tags r; specific := specific r |}.

Definition set_created_at (v : Z) (r : Resource) : Resource :=
  {| prototype_id := prototype_id r; is_prototype := is_prototype r;
     cloned_from := cloned_from r; clone_count := clone_count r;
     created_at := v; last_cloned_at := last_cloned_at r;
     resource_id := resource_id r; name := name r; region := region r;
     status := status r; tags := tags r; specific := specific r |}.

Definition set_last_cloned_at (v : option Z) (r : Resource) : Resource :=
  {| prototype_id := prototype_id r; is_prototype := is_prototype r;
     cloned_from := cloned_from r; clone_count := clone_count r;
     created_at := created_at r; last_cloned_at := v;
     resource_id := resource_id r; name := name r; region := region r;
     status := status r; tags := tags r; specific := specific r |}.

Definition set_resource_id (v : string) (r : Resource) : Resource :=
  {| prototype_id := prototype_id r; is_prototype := is_prototype r;
     cloned_from := cloned_from r; clone_count := clone_count r;
     created_at := created_at r; last_cloned_at := last_cloned_at r;
     resource_id := v; name := name r; region := region r;
     status := status r; tags := tags r; specific := specific r |}.

Definition set_name (v : string) (r : Resource) : Resource :=
  {| prototype_id := prototype_id r; is_prototype := is_prototype r;
     cloned_from := cloned_from r; clone_count := clone_count r;
     created_at := created_at r; last_cloned_at := last_cloned_at r;
     resource_id := resource_id r; name := v; region := region r;
     status := status r; tags := tags r; specific := specific r |}.

Definition set_tags (v : addr) (r : Resource) : Resource :=
  {| prototype_id := prototype_id r; is_prototype := is_prototype r;
     cloned_from := cloned_from r; clone_count := clone_count r;
     created_at := created_at r; last_cloned_at := last_cloned_at r;
     resource_id := resource_id r; name := name r; region := region r;
     status := status r; tags := v; specific := specific r |}.

Definition set_specific (v : Specific) (r : Resource) : Resource :=
  {| prototype_id := prototype_id r; is_prototype := is_prototype r;
     cloned_from := cloned_from r; clone_count := clone_count r;
     created_at := created_at r; last_cloned_at := last_cloned_at r;
     resource_id := resource_id r; name := name r; region := region r;
     status := status r; tags := tags r; specific := v |}.

(** Subclass attributes, read and assigned by name as Python does: reading
    an attribute the instance does not have is an [AttributeError] ([None]
    here). *)
Definition get_security_groups (r : Resource) : option addr :=
  match specific r with
  | EC2Instance x => Some (ec2_security_groups x)
  | EC2NetworkInterface x => Some (eni_security_groups x)
  | _ => None
  end.

Definition get_listeners (r : Resource) : option addr :=
  match specific r with
  | ApplicationLoadBalancer x => Some (alb_listeners x)
  | _ => None
  end.

Definition set_private_ip (v : string) (r : Resource) : Resource :=
  match specific r with
  | EC2Instance x =>
      set_specific (EC2Instance
        {| ec2_instance_type := ec2_instance_type x; ec2_ami := ec2_ami x;
           ec2_vpc_id := ec2_vpc_id x;
           ec2_security_groups := ec2_security_groups x;
           ec2_key_pair := ec2_key_pair x; ec2_private_ip := v;
           ec2_public_ip := ec2_public_ip x |}) r
  | _ => r
  end.

Definition set_public_ip (v : string) (r : Resource) : Resource :=
  match specific r with
  | EC2Instance x =>
      set_specific (EC2Instance
        {| ec2_instance_type := ec2_instance_type x; ec2_ami := ec2_ami x;
           ec2_vpc_id := ec2_vpc_id x;
           ec2_security_groups := ec2_security_groups x;
           ec2_key_pair := ec2_key_pair x; ec2_private_ip := ec2_private_ip x;
           ec2_public_ip := v |}) r
  | EC2NetworkInterface x =>
      set_specific (EC2NetworkInterface
        {| eni_instance_id := eni_instance_id x;
           eni_security_groups := eni_security_groups x;
           eni_public_ip := v |}) r
  | _ => r
  end.

Definition set_security_groups (v : addr) (r : Resource) : Resource :=
  match specific r with
  | EC2Instance x =>
      set_specific (EC2Instance
        {| ec2_instance_type := ec2_instance_type x; ec2_ami := ec2_ami x;
           ec2_vpc_id := ec2_vpc_id x; ec2_security_groups := v;
           ec2_key_pair := ec2_key_pair x; ec2_private_ip := ec2_private_ip x;
           ec2_public_ip := ec2_public_ip x |}) r
  | EC2NetworkInterface x =>
      set_specific (EC2NetworkInterface
        {| eni_instance_id := eni_instance_id x; eni_security_groups := v;
           eni_public_ip := eni_public_ip x |}) r
  | _ => r
  end.

Definition set_endpoint (v : string) (r : Resource) : Resource :=
  match specific r with
  | RDSDatabase x =>
      set_specific (RDSDatabase
        {| rds_engine := rds_engine x; rds_instance_class := rds_instance_class x;
           rds_allocated_storage := rds_allocated_storage x;
           rds_endpoint := v; rds_port := rds_port x |}) r
  | _ => r
  end.

Definition set_targets (v : addr) (r : Resource) : Resource :=
  match specific r with
  | ApplicationLoadBalancer x =>
      set_specific (ApplicationLoadBalancer
        {| alb_vpc_id := alb_vpc_id x; alb_scheme := alb_scheme x;
           alb_targets := v; alb_listeners := alb_listeners x;
           alb_dns_name := alb_dns_name x |}) r
  | _ => r
  end.

Definition set_listeners (v : addr) (r : Resource) : Resource :=
  match specific r with
  | ApplicationLoadBalancer x =>
      set_specific (ApplicationLoadBalancer
        {| alb_vpc_id := alb_vpc_id x; alb_scheme := alb_scheme x;
           alb_targets := alb_targets x; alb_listeners := v;
           alb_dns_name := alb_dns_name x |}) r
  | _ => r
  end.

Definition set_dns_name (v : string) (r : Resource) : Resource :=
  match specific r with
  | ApplicationLoadBalancer x =>
      set_specific (ApplicationLoadBalancer
        {| alb_vpc_id := alb_vpc_id x; alb_scheme := alb_scheme x;
           alb_targets := alb_targets x; alb_listeners := alb_listeners x;
           alb_dns_name := v |}) r
  | _ => r
  end.

Definition set_objects (v : addr) (r : Resource) : Resource :=
  match specific r with
  | S3Storage x =>
      set_specific (S3Storage
        {| s3_bucket_name := s3_bucket_name x;
           s3_storage_class := s3_storage_class x; s3_objects := v;
           s3_versioning_enabled := s3_versioning_enabled x |}) r
  | _ => r
  end.

Definition set_bucket_name (v : string) (r : Resource) : Resource :=
  match specific r with
  | S3Storage x =>
      set_specific (S3Storage
        {| s3_bucket_name := v; s3_storage_class := s3_storage_class x;
           s3_objects := s3_objects x;
           s3_versioning_enabled := s3_versioning_enabled x |}) r
  | _ => r
  end.

(** ** Registry-side metadata ([class PrototypeMetadata]) *)

Module PrototypeMetadata.
Record t := {
  name : string;
  description : string;
  category : string;
  tags : addr;                    (* Dict[str, str] *)
  created_at : Z;
  usage_count : Z
}.

Definition set_usage_count (v : Z) (m : t) : t :=
  {| name := name m; description := description m; category := category m;
     tags := tags m; created_at := created_at m; usage_count := v |}.

End PrototypeMetadata.

(** ** The state of the process *)

(** The two oracles.  [uuid_src k] is the eight hexadecimal characters
    [uuid.uuid4().hex[:8]] of the [k]-th call, [clock_src k] the reading of
    the [k]-th call of [datetime.now()]; the cursors count the calls made. *)
Record World := {
  uuid_src : nat → string;
  uuid_pos : nat;
  clock_src : nat → Z;
  clock_pos : nat
}.

(** The singleton [PrototypeManager]: three dicts in insertion order. *)
Record PrototypeManager := {
  _prototypes : list (string * addr);
  _metadata : list (string * PrototypeMetadata.t);
  _categories : list (string * list string)
}.

Record State := {
  world : World;
  objects : gmap addr Resource;     (* the resource instances *)
  cells : gmap addr container;      (* the list and dict objects *)
  manager : PrototypeManager
}.

Definition set_world (w : World) (st : State) : State :=
  {| world := w; objects := objects st; cells := cells st;
     manager := manager st |}.

Definition set_heap_objects (o : gmap addr Resource) (st : State) : State :=
  {| world := world st; objects := o; cells := cells st;
     manager := manager st |}.

Definition set_cells (c : gmap addr container) (st : State) : State :=
  {| world := world st; objects := objects st; cells := c;
     manager := manager st |}.

Definition set_manager (m : PrototypeManager) (st : State) : State :=
  {| world := world st; objects := objects st; cells := cells st;
     manager := m |}.

(** Exceptions, and the outcome of a call on a state of type [S]: a value
    or a raised exception, with the state as the call left it. *)
Inductive exn :=
| AttributeError (msg : string)
| KeyError (msg : string)
| ValueError (msg : string).

(** The message of the [AttributeError] of a failed attribute lookup. *)
Definition no_attribute (cls attr : string) : exn :=
  AttributeError ("'" +:+ cls +:+ "' object has no attribute '" +:+ attr +:+ "'").

Inductive outcome (S A : Type) :=
| Return (a : A) (st : S)
| Raise (e : exn) (st : S).

Arguments Return {S A} a st.
Arguments Raise {S A} e st.

Definition state_of {S A} (o : outcome S A) : S :=
  match o with Return _ st => st | Raise _ st => st end.

(** [uuid.uuid4().hex[:8]] *)
Definition uuid4_hex8 (st : State) : string * State :=
  let w := world st in
  (uuid_src w (uuid_pos w),
   set_world {| uuid_src := uuid_src w; uuid_pos := S (uuid_pos w);
                clock_src := clock_src w; clock_pos := clock_pos w |} st).

(** [datetime.now()] *)
Definition now (st : State) : Z * State :=
  let w := world st in
  (clock_src w (clock_pos w),
   set_world {| uuid_src := uuid_src w; uuid_pos := uuid_pos w;
                clock_src := clock_src w; clock_pos := S (clock_pos w) |} st).

(** The instance behind a reference. *)
Definition deref (st : State) (a : addr) : Resource := objects st !!! a.

(** Attribute assignment on the instance at [a]. *)
Definition modify (a : addr) (f : Resource → Resource) (st : State) : State :=
  set_heap_objects (<[a := f (deref st a)]> (objects st)) st.

(** A new list or dict object. *)
Definition alloc_cell (c : container) (st : State) : addr * State :=
  let a := fresh (dom (cells st)) in
  (a, set_cells (<[a := c]> (cells st)) st).

(** [x.copy()] on a list or dict: a new container with the same slots. *)
Definition shallow_copy (a : addr) (st : State) : addr * State :=
  alloc_cell (cells st !!! a) st.

(** Truth value of a list or dict. *)
Definition container_truthy (c : container) : bool :=
  match c with
  | ListObj [] | DictObj [] => false
  | _ => true
  end.

(** ** [CloneableResource] ([abstractions/prototype.py]) *)

(** [copy.deepcopy(self)]: a new instance whose attributes are deep copies
    of [self]'s, taken with one memo in the order of [__dict__] (for the AWS
    classes: the tags dict, then the containers of the class itself). *)
Definition deepcopy_specific (h0 : gmap addr container) (sp : Specific)
    (s : Deepcopy.copy_state) : Specific * Deepcopy.copy_state :=
  match sp with
  | EC2Instance x =>
      let '(sg, s) := Deepcopy.run_ref h0 (ec2_security_groups x) s in
      (EC2Instance
         {| ec2_instance_type := ec2_instance_type x; ec2_ami := ec2_ami x;
            ec2_vpc_id := ec2_vpc_id x; ec2_security_groups := sg;
            ec2_key_pair := ec2_key_pair x;
            ec2_private_ip := ec2_private_ip x;
            ec2_public_ip := ec2_public_ip x |}, s)
  | RDSDatabase x => (RDSDatabase x, s)
  | ApplicationLoadBalancer x =>
      let '(tg, s) := Deepcopy.run_ref h0 (alb_targets x) s in
      let '(ls, s) := Deepcopy.run_ref h0 (alb_listeners x) s in
      (ApplicationLoadBalancer
         {| alb_vpc_id := alb_vpc_id x; alb_scheme := alb_scheme x;
            alb_targets := tg; alb_listeners := ls;
            alb_dns_name := alb_dns_name x |}, s)
  | S3Storage x =>
      let '(ob, s) := Deepcopy.run_ref h0 (s3_objects x) s in
      (S3Storage
         {| s3_bucket_name := s3_bucket_name x;
            s3_storage_class := s3_storage_class x; s3_objects := ob;
            s3_versioning_enabled := s3_versioning_enabled x |}, s)
  | EC2NetworkInterface x =>
      let '(sg, s) := Deepcopy.run_ref h0 (eni_security_groups x) s in
      (EC2NetworkInterface
         {| eni_instance_id := eni_instance_id x; eni_security_groups := sg;
            eni_public_ip := eni_public_ip x |}, s)
  | ConfigResource cls attrs =>
      let '(attrs', s) := Deepcopy.run_attrs h0 attrs s in
      (ConfigResource cls attrs', s)
  end.

Definition deepcopy_instance (self : addr) (st : State) : addr * State :=
  let r := deref st self in
  let h0 := cells st in
  let '(tg, s) := Deepcopy.run_ref h0 (tags r) (h0, ∅) in
  let '(sp, s) := deepcopy_specific h0 (specific r) s in
  let a := fresh (dom (objects st)) in
  (a, set_cells s.1
        (set_heap_objects
           (<[a := set_specific sp (set_tags tg r)]> (objects st)) st)).

(** [CloneableResource.clone]: the copy gets new identifiers and zeroed
    lineage counters, then the original's counter and timestamp are
    updated. There is no status check in this method. *)
Definition CloneableResource_clone (self : addr) (st : State) : addr * State :=
  let '(cloned, st) := deepcopy_instance self st in
  let '(u, st) := uuid4_hex8 st in
  let st := modify cloned
              (set_resource_id
                 (PyStr.split_head (resource_id (deref st self)) +:+ "-" +:+ u))
              st in
  let '(u, st) := uuid4_hex8 st in
  let st := modify cloned (set_prototype_id ("proto-" +:+ u)) st in
  let st := modify cloned (set_is_prototype false) st in
  let st := modify cloned (set_cloned_from (Some (prototype_id (deref st self)))) st in
  let st := modify cloned (set_clone_count 0) st in
  let '(t, st) := now st in
  let st := modify cloned (set_created_at t) st in
  let st := modify cloned (set_last_cloned_at None) st in
  let st := modify self (λ r, set_clone_count (clone_count r + 1) r) st in
  let '(t, st) := now st in
  let st := modify self (set_last_cloned_at (Some t)) st in
  (cloned, st).

(** [CloneableResource.mark_as_prototype] *)
Definition mark_as_prototype (self : addr) (prototype_name : option string)
    (st : State) : State :=
  let st := modify self (set_is_prototype true) st in
  match prototype_name with
  | Some n => if PyStr.truthy n then modify self (set_name n) st else st
  | None => st
  end.

(** [CloudResource.can_be_cloned], which overrides the base method for
    every concrete class. *)
Definition can_be_cloned (r : Resource) : bool :=
  bool_decide (status r ∈ [RUNNING; STOPPED; CREATING]).

(** ** The [clone] overrides of the concrete classes *)

(** [EC2Instance.clone] ([aws_products.py]) *)
Definition EC2Instance_clone (self : addr) (st : State) : outcome State addr :=
  let '(cloned, st) := CloneableResource_clone self st in
  let st := modify cloned (set_private_ip "") st in
  let st := modify cloned (set_public_ip "") st in
  match get_security_groups (deref st self) with
  | None => Raise (no_attribute "EC2Instance" "security_groups") st
  | Some sgs =>
      let '(l, st) := shallow_copy sgs st in
      Return cloned (modify cloned (set_security_groups l) st)
  end.

(** [RDSDatabase.clone] *)
Definition RDSDatabase_clone (self : addr) (st : State) : outcome State addr :=
  let '(cloned, st) := CloneableResource_clone self st in
  let c := deref st cloned in
  Return cloned
    (modify cloned
       (set_endpoint (name c +:+ "." +:+ region c +:+ ".rds.amazonaws.com")) st).

(** [ApplicationLoadBalancer.clone] *)
Definition ApplicationLoadBalancer_clone (self : addr) (st : State)
    : outcome State addr :=
  let '(cloned, st) := CloneableResource_clone self st in
  let '(empty, st) := alloc_cell (ListObj []) st in
  let st := modify cloned (set_targets empty) st in
  match get_listeners (deref st self) with
  | None => Raise (no_attribute "ApplicationLoadBalancer" "listeners") st
  | Some ls =>
      let '(l, st) := shallow_copy ls st in
      let st := modify cloned (set_listeners l) st in
      let c := deref st cloned in
      Return cloned
        (modify cloned
           (set_dns_name
              (name c +:+ "-" +:+ PyStr.last8 (resource_id c) +:+ "." +:+
               region c +:+ ".elb.amazonaws.com")) st)
  end.

(** [S3Storage.clone] *)
Definition S3Storage_clone (self : addr) (st : State) : outcome State addr :=
  let '(cloned, st) := CloneableResource_clone self st in
  let '(empty, st) := alloc_cell (DictObj []) st in
  let st := modify cloned (set_objects empty) st in
  Return cloned (modify cloned (set_bucket_name (name (deref st cloned))) st).

(** [EC2NetworkInterface.clone] *)
Definition EC2NetworkInterface_clone (self : addr) (st : State)
    : outcome State addr :=
  let '(cloned, st) := CloneableResource_clone self st in
  let st := modify cloned (set_public_ip "") st in
  match get_security_groups (deref st self) with
  | None => Raise (no_attribute "EC2NetworkInterface" "security_groups") st
  | Some sgs =>
      let '(l, st) := shallow_copy sgs st in
      Return cloned (modify cloned (set_security_groups l) st)
  end.

(** The eight [clone] methods of [gcp_products.py] and [onprem_products.py]
    all start with [if not self._prepare_for_cloning():].  No class of the
    hierarchy defines [_prepare_for_cloning] (nor [_generate_clone_id],
    [_update_clone_metadata], [_prototype_metadata] or [id], which the rest
    of these methods use), so the attribute lookup raises before anything
    is read or written and the rest of the body is never reached. *)
Definition class_name (cls : ConfigClass) : string :=
  match cls with
  | ComputeEngineInstance => "ComputeEngineInstance"
  | CloudSQLDatabase => "CloudSQLDatabase"
  | CloudLoadBalancer => "CloudLoadBalancer"
  | CloudStorage => "CloudStorage"
  | OnPremiseVirtualMachine => "OnPremiseVirtualMachine"
  | OnPremiseDatabase => "OnPremiseDatabase"
  | OnPremiseLoadBalancer => "OnPremiseLoadBalancer"
  | OnPremiseStorage => "OnPremiseStorage"
  end.

Definition ConfigResource_clone (cls : ConfigClass) (self : addr) (st : State)
    : outcome State addr :=
  Raise (no_attribute (class_name cls) "_prepare_for_cloning") st.

(** [resource.clone()], dispatched on the class of the instance. *)
Definition clone (self : addr) (st : State) : outcome State addr :=
  match specific (deref st self) with
  | EC2Instance _ => EC2Instance_clone self st
  | RDSDatabase _ => RDSDatabase_clone self st
  | ApplicationLoadBalancer _ => ApplicationLoadBalancer_clone self st
  | S3Storage _ => S3Storage_clone self st
  | EC2NetworkInterface _ => EC2NetworkInterface_clone self st
  | ConfigResource cls _ => ConfigResource_clone cls self st
  end.

(** ** [PrototypeManager] ([services/prototype_service.py]) *)

Definition set_prototypes (v : list (string * addr)) (m : PrototypeManager)
    : PrototypeManager :=
  {| _prototypes := v; _metadata := _metadata m; _categories := _categories m |}.

Definition set_metadata (v : list (string * PrototypeMetadata.t)) (m : PrototypeManager)
    : PrototypeManager :=
  {| _prototypes := _prototypes m; _metadata := v; _categories := _categories m |}.

Definition set_categories (v : list (string * list string))
    (m : PrototypeManager) : PrototypeManager :=
  {| _prototypes := _prototypes m; _metadata := _metadata m; _categories := v |}.

(** The manager as [__init__] leaves it. *)
Definition empty_manager : PrototypeManager :=
  {| _prototypes := []; _metadata := []; _categories := [] |}.

(** [PrototypeMetadata(name, description, category, tags)] *)
Definition PrototypeMetadata_init (name description category : string)
    (tags : option addr) (st : State) : PrototypeMetadata.t * State :=
  let '(tg, st) :=                                   (* tags or {} *)
    match tags with
    | Some a =>
        if container_truthy (cells st !!! a) then (a, st)
        else alloc_cell (DictObj []) st
    | None => alloc_cell (DictObj []) st
    end in
  let '(t, st) := now st in
  ({| PrototypeMetadata.name := name; PrototypeMetadata.description := description;
      PrototypeMetadata.category := category; PrototypeMetadata.tags := tg; PrototypeMetadata.created_at := t;
      PrototypeMetadata.usage_count := 0 |}, st).

(** [register_prototype] *)
Definition register_prototype (prototype : addr)
    (name description category : string) (tags : option addr) (st : State)
    : string * State :=
  let '(u, st) := uuid4_hex8 st in
  let prototype_id := "proto-" +:+ u in
  let st := mark_as_prototype prototype (Some name) st in
  let '(metadata, st) :=
    PrototypeMetadata_init name description category tags st in
  let m := manager st in
  let m := set_prototypes (PyDict.set prototype_id prototype (_prototypes m)) m in
  let m := set_metadata (PyDict.set prototype_id metadata (_metadata m)) m in
  let m :=
    if PyDict.mem category (_categories m) then m
    else set_categories (PyDict.set category [] (_categories m)) m in
  let ids := default [] (PyDict.get category (_categories m)) in
  let m :=
    set_categories (PyDict.set category (ids ++ [prototype_id]) (_categories m)) m in
  (prototype_id, set_manager m st).

(** [get_prototype] *)
Definition get_prototype (prototype_id : string) (st : State) : option addr :=
  PyDict.get prototype_id (_prototypes (manager st)).

(** [clone_prototype].  A resource instance is always truthy, so
    [if not prototype] tests the lookup only. *)
Definition clone_prototype (prototype_id : string) (new_name : option string)
    (st : State) : outcome State (option addr) :=
  match get_prototype prototype_id st with
  | None => Return None st
  | Some prototype =>
      if negb (can_be_cloned (deref st prototype)) then Return None st
      else
        match clone prototype st with
        | Raise e st => Raise e st
        | Return cloned st =>
            let st :=
              match new_name with
              | Some n => if PyStr.truthy n then modify cloned (set_name n) st else st
              | None => st
              end in
            let m := manager st in
            let st :=
              match PyDict.get prototype_id (_metadata m) with
              | Some md =>
                  set_manager
                    (set_metadata
                       (PyDict.set prototype_id
                          (PrototypeMetadata.set_usage_count (PrototypeMetadata.usage_count md + 1) md)
                          (_metadata m)) m) st
              | None => st
              end in
            Return (Some cloned) st
        end
  end.

(** [remove_prototype] *)
Definition remove_prototype (prototype_id : string) (st : State) : bool * State :=
  let m := manager st in
  if negb (PyDict.mem prototype_id (_prototypes m)) then (false, st)
  else
    let m :=
      match PyDict.get prototype_id (_metadata m) with
      | Some metadata =>
          let category := PrototypeMetadata.category metadata in
          match PyDict.get category (_categories m) with
          | Some ids =>
              set_categories
                (PyDict.set category
                   (filter (λ pid, pid ≠ prototype_id) ids) (_categories m)) m
          | None => m
          end
      | None => m
      end in
    let m := set_prototypes (PyDict.del prototype_id (_prototypes m)) m in
    let m :=
      if PyDict.mem prototype_id (_metadata m)
      then set_metadata (PyDict.del prototype_id (_metadata m)) m
      else m in
    (true, set_manager m st).

(** [get_statistics] *)
Record CategoryStats := {
  count : Z;
  total_clones : Z
}.

Record MostUsed := {
  mu_prototype_id : string;
  mu_name : string;
  mu_usage_count : Z
}.

Record Statistics := {
  total_prototypes : Z;
  total_clones_created : Z;
  categories : list (string * CategoryStats);
  most_used_prototype : option MostUsed
}.

(** Python's [sum]: a left fold from 0. *)
Definition py_sum (xs : list Z) : Z := foldl Z.add 0 xs.

(** One turn of the loop over [self._metadata.items()]; the accumulator is
    [(most_used, max_usage)]. *)
Definition most_used_step (acc : option MostUsed * Z) (item : string * PrototypeMetadata.t)
    : option MostUsed * Z :=
  let '(pid, metadata) := item in
  if PrototypeMetadata.usage_count metadata >? acc.2
  then (Some {| mu_prototype_id := pid; mu_name := PrototypeMetadata.name metadata;
                mu_usage_count := PrototypeMetadata.usage_count metadata |},
        PrototypeMetadata.usage_count metadata)
  else acc.

Definition get_statistics (st : State) : Statistics :=
  let m := manager st in
  {| total_prototypes := Z.of_nat (length (_prototypes m));
     total_clones_created :=
       py_sum (map (λ p, clone_count (deref st p)) (PyDict.values (_prototypes m)));
     categories :=
       map (λ '(category, prototype_ids),
              (category,
               {| count := Z.of_nat (length prototype_ids);
                  total_clones :=
                    py_sum
                      (omap (λ pid, (λ p, clone_count (deref st p)) <$>
                                      PyDict.get pid (_prototypes m))
                         prototype_ids) |}))
           (_categories m);
     most_used_prototype := (foldl most_used_step (None, 0) (_metadata m)).1 |}.

(** ** [VMRepository] ([infrastructure/repository.py])

    Two dicts keyed by resource id.  What they hold ([VMDTO] objects, whose
    class is declared outside these sources, and product instances) is the
    type [Obj]; [truthy] is the Python truth value of such an object. *)

Record VMRepository (Obj : Type) := {
  _store : gmap string Obj;
  _products_store : gmap string Obj
}.

Arguments _store {Obj} _.
Arguments _products_store {Obj} _.

Section Repository.
Context {Obj : Type}.
Variable truthy : Obj → bool.

(** [store_resource] *)
Definition store_resource (resource_id : string) (resource : Obj)
    (repo : VMRepository Obj) : outcome (VMRepository Obj) unit :=
  if negb (PyStr.truthy resource_id)
  then Raise (ValueError "resource_id es requerido") repo
  else Return tt {| _store := _store repo;
                    _products_store :=
                      <[resource_id := resource]> (_products_store repo) |}.

(** [get] *)
Definition VMRepository_get (vm_id : string) (repo : VMRepository Obj)
    : outcome (VMRepository Obj) Obj :=
  match _products_store repo !! vm_id with
  | Some product => Return product repo
  | None =>
      match _store repo !! vm_id with
      | Some vm =>
          if negb (truthy vm) then Raise (KeyError "VM not found") repo
          else Return vm repo
      | None => Raise (KeyError "VM not found") repo
      end
  end.

(** [delete] *)
Definition VMRepository_delete (vm_id : string) (repo : VMRepository Obj)
    : outcome (VMRepository Obj) unit :=
  let removed := false in
  let '(repo, removed) :=
    if bool_decide (is_Some (_store repo !! vm_id))
    then ({| _store := delete vm_id (_store repo);
             _products_store := _products_store repo |}, true)
    else (repo, removed) in
  let '(repo, removed) :=
    if bool_decide (is_Some (_products_store repo !! vm_id))
    then ({| _store := _store repo;
             _products_store := delete vm_id (_products_store repo) |}, true)
    else (repo, removed) in
  if negb removed then Raise (KeyError "VM not found") repo
  else Return tt repo.

End Repository.

(** ** The clone endpoint ([api/prototype_controller.py]) *)

Record ClonePrototypeRequest := {
  req_prototype_id : string;
  req_new_name : option string;
  req_custom_tags : option (list (string * string))
}.

(** What the client sees: the HTTP status with the [detail] of the
    [HTTPException] or the [message] of the [CloneResponse], and on success
    the clone the response describes (the serialised views of it are not
    modelled). *)
Record HTTPResult := {
  status_code : Z;
  detail : string;
  cloned_resource : option addr
}.

Definition exn_str (e : exn) : string :=
  match e with
  | AttributeError msg => msg
  | KeyError msg => "'" +:+ msg +:+ "'"
  | ValueError msg => msg
  end.

(** [cloned_resource.tags.update(custom_tags)] *)
Definition tags_update (custom_tags : list (string * string)) (a : addr)
    (st : State) : outcome State unit :=
  match cells st !!! a with
  | DictObj kvs =>
      Return tt
        (set_cells
           (<[a := DictObj (PyDict.update (prod_map id VStr <$> custom_tags) kvs)]>
              (cells st)) st)
  | ListObj _ => Raise (no_attribute "list" "update") st
  end.

Section Controller.
Context {Obj : Type}.
(** A product instance as an object of the repository. *)
Variable of_resource : addr → Obj.

Definition clone_prototype_endpoint (prototype_id : string)
    (request : ClonePrototypeRequest) (app : State * VMRepository Obj)
    : HTTPResult * (State * VMRepository Obj) :=
  let failed e st repo :=
    ({| status_code := 500;
        detail := "Failed to clone prototype: " +:+ exn_str e;
        cloned_resource := None |}, (st, repo)) in
  let '(st, repo) := app in
  if bool_decide (prototype_id ≠ req_prototype_id request)
  then ({| status_code := 400;
           detail := "Prototype ID in URL does not match request body";
           cloned_resource := None |}, (st, repo))
  else
    match clone_prototype prototype_id (req_new_name request) st with
    | Raise e st => failed e st repo
    | Return None st =>
        ({| status_code := 404;
            detail := "Prototype with ID " +:+ prototype_id +:+
                      " not found or cannot be cloned";
            cloned_resource := None |}, (st, repo))
    | Return (Some cloned) st =>
        let tagged :=
          match req_custom_tags request with
          | Some (kv :: kvs) =>
              tags_update (kv :: kvs) (tags (deref st cloned)) st
          | _ => Return tt st
          end in
        match tagged with
        | Raise e st => failed e st repo
        | Return _ st =>
            match store_resource (resource_id (deref st cloned))
                    (of_resource cloned) repo with
            | Raise e repo => failed e st repo
            | Return _ repo =>
                ({| status_code := 201;
                    detail := "Prototype cloned successfully as '" +:+
                              name (deref st cloned) +:+ "'";
                    cloned_resource := Some cloned |}, (st, repo))
            end
        end
    end.

End Controller.

(** ** Histories of the registry *)

(** The three mutating operations of the manager, with their arguments. *)
Inductive op :=
| Register (prototype : addr) (name description category : string)
    (tags : option addr)
| Clone (prototype_id : string) (new_name : option string)
| Remove (prototype_id : string).

(** The state an operation leaves behind; an exception raised by [clone]
    ends the request, not the process. *)
Definition step (st : State) (o : op) : State :=
  match o with
  | Register prototype name description category tags =>
      (register_prototype prototype name description category tags st).2
  | Clone prototype_id new_name =>
      state_of (clone_prototype prototype_id new_name st)
  | Remove prototype_id => (remove_prototype prototype_id st).2
  end.

Definition run (ops : list op) (st : State) : State := foldl step st ops.

(** A process that has just started: any heap, the manager empty. *)
Definition initial (w : World) (o : gmap addr Resource)
    (c : gmap addr container) : State :=
  {| world := w; objects := o; cells := c; manager := empty_manager |}.

(** ** Properties used in the statements *)

(** How often [pid] occurs in a list of ids. *)
Definition occurrences (pid : string) (ids : list string) : nat :=
  length (filter (λ x, x = pid) ids).

(** The invariant of the registry as the specification words it: a key of
    the id→resource dict has metadata and sits in the list of exactly one
    category, once. *)
Definition registry_consistent (m : PrototypeManager) : Prop :=
  ∀ pid, pid ∈ PyDict.keys (_prototypes m) →
    is_Some (PyDict.get pid (_metadata m)) ∧
    ∃ c ids,
      PyDict.get c (_categories m) = Some ids ∧
      occurrences pid ids = 1%nat ∧
      ∀ c' ids', PyDict.get c' (_categories m) = Some ids' →
                 pid ∈ ids' → c' = c.

(** [pid] is a registry id that [register_prototype] has handed out. *)
Definition minted (w : World) (pid : string) : Prop :=
  ∃ i, (i < uuid_pos w)%nat ∧ pid = "proto-" +:+ uuid_src w i.

(** [uuid4] never repeats itself. *)
Definition uuid_unique (w : World) : Prop :=
  ∀ i j, uuid_src w i = uuid_src w j → i = j.

(** No token that [uuid4] has yet to hand out ends the identifier [id]:
    the generator does not collide with an identifier in use. *)
Definition uuid_unused (w : World) (id : string) : Prop :=
  ∀ k p, (uuid_pos w ≤ k)%nat → id ≠ p +:+ uuid_src w k.

(** The clock does not run backwards. *)
Definition clock_monotone (w : World) : Prop :=
  ∀ i j, (i ≤ j)%nat → clock_src w i ≤ clock_src w j.

(** [t] is a reading the clock gave before now. *)
Definition read_earlier (w : World) (t : Z) : Prop :=
  ∃ i, (i < clock_pos w)%nat ∧ t = clock_src w i.

(** The classes whose [clone] is built on [CloneableResource.clone]. *)
Definition aws_class (r : Resource) : bool :=
  match specific r with
  | ConfigResource _ _ => false
  | _ => true
  end.

(** The per-class resets of the AWS overrides, as a relation between the
    source [r] in the heap [h], and the class attributes [sp] of its clone
    (whose new resource id is [rid]) in the heap [h'] after the call.  A
    list or dict "is a new object" when its address was not allocated in
    [h]. *)
Definition reset_policy (r : Resource) (h : gmap addr container) (rid : string)
    (sp : Specific) (h' : gmap addr container) : Prop :=
  match specific r, sp with
  | EC2Instance x, EC2Instance y =>
      ec2_private_ip y = "" ∧ ec2_public_ip y = "" ∧
      (ec2_security_groups y ∉ dom h) ∧
      (ec2_security_groups x ∈ dom h →
       h' !! ec2_security_groups y = h !! ec2_security_groups x)
  | RDSDatabase x, RDSDatabase y =>
      rds_endpoint y = name r +:+ "." +:+ region r +:+ ".rds.amazonaws.com"
  | ApplicationLoadBalancer x, ApplicationLoadBalancer y =>
      (alb_targets y ∉ dom h) ∧
      h' !! alb_targets y = Some (ListObj []) ∧
      (alb_listeners y ∉ dom h) ∧
      (alb_listeners x ∈ dom h →
       h' !! alb_listeners y = h !! alb_listeners x) ∧
      alb_dns_name y =
        name r +:+ "-" +:+ PyStr.last8 rid +:+ "." +:+ region r +:+
        ".elb.amazonaws.com"
  | S3Storage x, S3Storage y =>
      (s3_objects y ∉ dom h) ∧
      h' !! s3_objects y = Some (DictObj []) ∧
      s3_bucket_name y = name r
  | EC2NetworkInterface x, EC2NetworkInterface y =>
      eni_public_ip y = "" ∧
      (eni_security_groups y ∉ dom h) ∧
      (eni_security_groups x ∈ dom h →
       h' !! eni_security_groups y = h !! eni_security_groups x)
  | _, _ => True
  end.

(** What one call of a copier [f] guarantees on every state whose memo
    leaves at most [bound] objects of the snapshot [h0] uncopied: it
    returns, the memo only grows, and the objects already in the heap are
    untouched. *)
Definition copies_well (h0 : gmap addr container)
    (f : value → Deepcopy.copy_state → option (value * Deepcopy.copy_state))
    (bound : nat) : Prop :=
  ∀ v s, (size (dom h0 ∖ dom s.2) ≤ bound)%nat →
    ∃ v' s', f v s = Some (v', s') ∧ dom s.2 ⊆ dom s'.2 ∧
             ∀ a, a ∈ dom s.1 → s'.1 !! a = s.1 !! a.

(** Two bags of class attributes belong to the same class. *)
Definition same_class (a b : Specific) : Prop :=
  match a, b with
  | EC2Instance _, EC2Instance _
  | RDSDatabase _, RDSDatabase _
  | ApplicationLoadBalancer _, ApplicationLoadBalancer _
  | S3Storage _, S3Storage _
  | EC2NetworkInterface _, EC2NetworkInterface _ => True
  | ConfigResource c _, ConfigResource c' _ => c = c'
  | _, _ => False
  end.

(** The sum of a list of integers, head first. *)
(** [l.remove(k)] on a list of keys: drop the first occurrence. *)
Fixpoint list_remove_first (k : string) (l : list string) : list string :=
  match l with
  | [] => []
  | x :: rest => if decide (k = x) then rest else x :: list_remove_first k rest
  end.

Fixpoint sum_list (xs : list Z) : Z :=
  match xs with
  | [] => 0
  | x :: rest => x + sum_list rest
  end.

(** What every operation of the manager preserves, given that [uuid4] never
    repeats itself: the two id-keyed dicts have the same keys in the same
    order, every id in a category list was handed out by
    [register_prototype], and a registered id sits once in the list of its
    metadata's category and in no other list. *)
Record registry_inv (st : State) : Prop := {
  inv_unique : uuid_unique (world st);
  inv_nodup : NoDup (PyDict.keys (_prototypes (manager st)));
  inv_keys :
    PyDict.keys (_metadata (manager st)) = PyDict.keys (_prototypes (manager st));
  inv_minted : ∀ c ids pid,
    PyDict.get c (_categories (manager st)) = Some ids → pid ∈ ids →
    minted (world st) pid;
  inv_listed : ∀ pid md,
    PyDict.get pid (_metadata (manager st)) = Some md →
    ∃ ids, PyDict.get (PrototypeMetadata.category md) (_categories (manager st)) = Some ids ∧
           occurrences pid ids = 1%nat;
  inv_single : ∀ pid md c ids,
    PyDict.get pid (_metadata (manager st)) = Some md →
    PyDict.get c (_categories (manager st)) = Some ids → pid ∈ ids →
    c = PrototypeMetadata.category md
}.

(** What a call that does not touch the registry leaves alone. *)
Definition registry_untouched (st st' : State) : Prop :=
  manager st' = manager st ∧
  uuid_src (world st') = uuid_src (world st) ∧
  (uuid_pos (world st) ≤ uuid_pos (world st'))%nat.

(** Entry [i] of the metadata dict is the most used one: no entry has a
    higher usage count and every entry before it has a lower one. *)
Definition first_highest (items : list (string * PrototypeMetadata.t)) (i : nat)
    (pid : string) (md : PrototypeMetadata.t) : Prop :=
  items !! i = Some (pid, md) ∧
  (∀ j item, items !! j = Some item →
             PrototypeMetadata.usage_count item.2 ≤ PrototypeMetadata.usage_count md) ∧
  (∀ j item, (j < i)%nat → items !! j = Some item →
             PrototypeMetadata.usage_count item.2 < PrototypeMetadata.usage_count md).

(** What the loop of [get_statistics] has established after the entries
    [items]: [acc.2] bounds every usage count seen, and [acc.1] names the
    first entry that reaches it, if it is positive. *)
Definition most_used_inv (items : list (string * PrototypeMetadata.t))
    (acc : option MostUsed * Z) : Prop :=
  0 ≤ acc.2 ∧
  (∀ j item, items !! j = Some item → PrototypeMetadata.usage_count item.2 ≤ acc.2) ∧
  match acc.1 with
  | None => acc.2 = 0
  | Some mu =>
      0 < acc.2 ∧
      ∃ i md, first_highest items i (mu_prototype_id mu) md ∧
              mu_name mu = PrototypeMetadata.name md ∧
              mu_usage_count mu = PrototypeMetadata.usage_count md ∧
              PrototypeMetadata.usage_count md = acc.2
  end.

(** ** Concrete scenarios *)

Module Scenario.

(** A generator and a clock for the examples. *)
Definition uuids (k : nat) : string :=
  match k with
  | 0%nat => "1a2b3c4d"
  | 1%nat => "5e6f7a8b"
  | 2%nat => "9c0d1e2f"
  | 3%nat => "0a1b2c3d"
  | _ => "ffffffff"
  end.

Definition clock (k : nat) : Z := Z.of_nat k.

Definition world0 : World :=
  {| uuid_src := uuids; uuid_pos := 0; clock_src := clock; clock_pos := 5 |}.

(** The EC2 instance [i-abc123] of the specification's example. *)
Definition web (s : ResourceStatus) : Resource :=
  {| prototype_id := "proto-0badf00d"; is_prototype := false;
     cloned_from := None; clone_count := 0; created_at := 0;
     last_cloned_at := None; resource_id := "i-abc123"; name := "web";
     region := "us-east-1"; status := s; tags := 0%nat;
     specific :=
       EC2Instance
         {| ec2_instance_type := "t3.micro"; ec2_ami := "ami-1";
            ec2_vpc_id := "vpc-1"; ec2_security_groups := 1%nat;
            ec2_key_pair := ""; ec2_private_ip := "10.0.0.4";
            ec2_public_ip := "54.1.2.3" |} |}.

Definition web_cells : gmap addr container :=
  <[0%nat := DictObj [("env", VStr "prod")]]>
    (<[1%nat := ListObj [VStr "sg-web"]]> ∅).

Definition with_web (s : ResourceStatus) : State :=
  {| world := world0; objects := <[0%nat := web s]> ∅; cells := web_cells;
     manager := empty_manager |}.

(** A load balancer with one target and one listener. *)
Definition alb : Resource :=
  {| prototype_id := "proto-0badcafe"; is_prototype := false;
     cloned_from := None; clone_count := 0; created_at := 0;
     last_cloned_at := None; resource_id := "alb-0000aaaa"; name := "front";
     region := "us-east-1"; status := RUNNING; tags := 0%nat;
     specific :=
       ApplicationLoadBalancer
         {| alb_vpc_id := "vpc-1"; alb_scheme := "internet-facing";
            alb_targets := 1%nat; alb_listeners := 2%nat;
            alb_dns_name := "front-0000aaaa.us-east-1.elb.amazonaws.com" |} |}.

Definition alb_cells : gmap addr container :=
  <[0%nat := DictObj []]>
    (<[1%nat := ListObj [VStr "i-abc123"]]>
       (<[2%nat := ListObj [VRef 3%nat]]>
          (<[3%nat := DictObj [("port", VInt 80)]]> ∅))).

Definition with_alb : State :=
  {| world := world0; objects := <[0%nat := alb]> ∅; cells := alb_cells;
     manager := empty_manager |}.

(** A running Compute Engine instance. *)
Definition gce : Resource :=
  {| prototype_id := "proto-0badbeef"; is_prototype := false;
     cloned_from := None; clone_count := 0; created_at := 0;
     last_cloned_at := None; resource_id := "gcp-vm-0000bbbb";
     name := "gcp-instance-1"; region := "us-central1"; status := RUNNING;
     tags := 0%nat;
     specific :=
       ConfigResource ComputeEngineInstance
         [("zone", VStr "us-central1-a");
          ("machine_type", VStr "e2-standard-2");
          ("boot_disk_size", VInt 20);
          ("project_id", VStr "my-gcp-project")] |}.

Definition with_gce : State :=
  {| world := world0; objects := <[0%nat := gce]> ∅;
     cells := <[0%nat := DictObj []]> ∅; manager := empty_manager |}.

(** [d[k] = v] on the dict object at [a]. *)
Definition dict_setitem (a : addr) (k : string) (v : value) (st : State)
    : State :=
  match cells st !!! a with
  | DictObj kvs => set_cells (<[a := DictObj (PyDict.set k v kvs)]> (cells st)) st
  | ListObj _ => st
  end.

(** [l[i]] on the list object at [a]. *)
Definition list_getitem (a : addr) (i : nat) (st : State) : option value :=
  match cells st !!! a with
  | ListObj xs => xs !! i
  | DictObj _ => None
  end.

(** [d[k]] on the dict object at [a]. *)
Definition dict_getitem (a : addr) (k : string) (st : State) : option value :=
  match cells st !!! a with
  | DictObj kvs => PyDict.get k kvs
  | ListObj _ => None
  end.

(** [r.listeners[0]["port"]] *)
Definition listener_port (r : addr) (st : State) : option value :=
  match get_listeners (deref st r) with
  | Some ls =>
      match list_getitem ls 0 st with
      | Some (VRef d) => dict_getitem d "port" st
      | _ => None
      end
  | None => None
  end.

(** [r.listeners[0]["port"] = v] *)
Definition set_listener_port (r : addr) (v : value) (st : State) : State :=
  match get_listeners (deref st r) with
  | Some ls =>
      match list_getitem ls 0 st with
      | Some (VRef d) => dict_setitem d "port" v st
      | _ => st
      end
  | None => st
  end.

(** The example of the specification: [i-abc123] registered as
    "web-template" in category "vm", then cloned as "web-prod-01". *)
Definition registered (s : ResourceStatus) : string * State :=
  register_prototype 0%nat "web-template" "" "vm" None (with_web s).


(** [i-abc123] cloned directly, once and twice. *)
Definition cloned_once : State := state_of (clone 0%nat (with_web RUNNING)).
Definition cloned_twice : State := state_of (clone 0%nat cloned_once).

(** [i-abc123] cloned directly while it is being deleted. *)
Definition deleting_clone : outcome State addr :=
  clone 0%nat (with_web DELETING).

(** The load balancer after [clone()]. *)
Definition alb_cloned : State := state_of (clone 0%nat with_alb).

(** The Compute Engine instance registered as a prototype. *)
Definition gce_registered : string * State :=
  register_prototype 0%nat "gce-template" "" "vm" None with_gce.

(** A generator that counts: token [k] is the decimal numeral of [k]. *)
Definition counting_world : World :=
  {| uuid_src := pretty; uuid_pos := 0; clock_src := clock; clock_pos := 0 |}.

(** A small history: register twice, clone, remove, register again. *)
Definition history : list op :=
  [Register 0%nat "web-template" "" "vm" None;
   Register 0%nat "web-template-2" "" "vm" None;
   Clone "proto-0" (Some "web-prod-01");
   Remove "proto-0";
   Register 0%nat "general-template" "" "general" None].

(** A repository holding a DTO and a product under the same id. *)
Definition repo : VMRepository string :=
  {| _store := <["i-abc123" := "dto"]> ∅;
     _products_store := <["i-abc123" := "product"]> ∅ |}.

(** The clone endpoint asked for [pid] while the only registered
    prototype, [proto-1a2b3c4d], is in state [error]. *)
Definition ask (pid : string) : HTTPResult :=
  (clone_prototype_endpoint (λ _ : addr, "product") pid
     {| req_prototype_id := pid; req_new_name := None;
        req_custom_tags := None |} ((registered ERROR).2, repo)).1.

End Scenario.

(** ** Scenarios in which the generator repeats itself or the clock is set
    back *)

Module Unlucky.

(** An EC2 instance whose two ids end in the tokens [Scenario.world0] hands
    out next. *)
Definition twin : Resource :=
  {| prototype_id := "proto-5e6f7a8b"; is_prototype := false;
     cloned_from := None; clone_count := 0; created_at := 0;
     last_cloned_at := None; resource_id := "i-1a2b3c4d"; name := "web";
     region := "us-east-1"; status := RUNNING; tags := 0%nat;
     specific :=
       EC2Instance
         {| ec2_instance_type := "t3.micro"; ec2_ami := "ami-1";
            ec2_vpc_id := "vpc-1"; ec2_security_groups := 1%nat;
            ec2_key_pair := ""; ec2_private_ip := "10.0.0.4";
            ec2_public_ip := "54.1.2.3" |} |}.

Definition with_twin : State :=
  {| world := Scenario.world0; objects := <[0%nat := twin]> ∅;
     cells := Scenario.web_cells; manager := empty_manager |}.

Definition twin_cloned : State := state_of (clone 0%nat with_twin).

(** A clock that is set back an hour after its second reading, as local
    time is at the end of summer time. *)
Definition clock_set_back (k : nat) : Z :=
  if (k <? 2)%nat then 3600 + Z.of_nat k else Z.of_nat k.

Definition set_back : State :=
  {| world := {| uuid_src := Scenario.uuids; uuid_pos := 0;
                 clock_src := clock_set_back; clock_pos := 0 |};
     objects := <[0%nat := Scenario.web RUNNING]> ∅;
     cells := Scenario.web_cells; manager := empty_manager |}.

Definition set_back_once : State := state_of (clone 0%nat set_back).
Definition set_back_twice : State := state_of (clone 0%nat set_back_once).

(** A generator that hands out the same token twice, and [i-abc123]
    registered twice under it, in two categories. *)
Definition echo_world : World :=
  {| uuid_src := λ _, "1a2b3c4d"; uuid_pos := 0;
     clock_src := Scenario.clock; clock_pos := 0 |}.

Definition registered_twice : State :=
  run [Register 0%nat "web-template" "" "vm" None;
       Register 0%nat "web-general" "" "general" None]
    (initial echo_world (objects (Scenario.with_web RUNNING))
       (cells (Scenario.with_web RUNNING))).

End Unlucky.

(** * The rest of the product classes and of the registry *)

(** ** Python lists *)

Module PyList.

(** [l.remove(x)]: drop the first element equal to [x] (the callers test
    membership first). *)
Fixpoint remove (x : value) (l : list value) : list value :=
  match l with
  | [] => []
  | y :: rest => if decide (x = y) then rest else y :: remove x rest
  end.

End PyList.

(** ** Constructors ([CloneableResource.__init__], [CloudResource.__init__]
    and the [__init__] of the AWS classes) *)

Definition set_status (v : ResourceStatus) (r : Resource) : Resource :=
  {| prototype_id := prototype_id r; is_prototype := is_prototype r;
     cloned_from := cloned_from r; clone_count := clone_count r;
     created_at := created_at r; last_cloned_at := last_cloned_at r;
     resource_id := resource_id r; name := name r; region := region r;
     status := v; tags := tags r; specific := specific r |}.

Definition get_targets (r : Resource) : option addr :=
  match specific r with
  | ApplicationLoadBalancer x => Some (alb_targets x)
  | _ => None
  end.

(** [CloudResource.__init__(resource_id, name, region)], which starts with
    [CloneableResource.__init__]: the attributes every resource has, still
    waiting for the attributes of the concrete class. *)
Definition CloudResource_init (rid nm rg : string) (st : State)
    : (Specific → Resource) * State :=
  let '(u, st) := uuid4_hex8 st in
  let '(t, st) := now st in
  let '(tg, st) := alloc_cell (DictObj []) st in
  (λ sp,
     {| prototype_id := "proto-" +:+ u; is_prototype := false;
        cloned_from := None; clone_count := 0; created_at := t;
        last_cloned_at := None; resource_id := rid; name := nm;
        region := rg; status := CREATING; tags := tg; specific := sp |},
   st).

(** The instance under construction becomes an object of the heap. *)
Definition new_instance (r : Resource) (st : State) : addr * State :=
  let a := fresh (dom (objects st)) in
  (a, set_heap_objects (<[a := r]> (objects st)) st).

(** [EC2Instance(name, region, instance_type, ami, vpc_id)]: the resource
    id is an argument of [super().__init__], so its token is drawn first. *)
Definition EC2Instance_init (nm rg instance_type ami vpc_id : string)
    (st : State) : addr * State :=
  let '(u, st) := uuid4_hex8 st in
  let '(base, st) := CloudResource_init ("i-" +:+ u) nm rg st in
  let '(sg, st) := alloc_cell (ListObj []) st in
  new_instance
    (base (EC2Instance
       {| ec2_instance_type := instance_type; ec2_ami := ami;
          ec2_vpc_id := vpc_id; ec2_security_groups := sg;
          ec2_key_pair := ""; ec2_private_ip := ""; ec2_public_ip := "" |}))
    st.

(** [RDSDatabase(name, region, engine, instance_class, allocated_storage)] *)
Definition RDSDatabase_init (nm rg engine instance_class : string)
    (allocated_storage : Z) (st : State) : addr * State :=
  let '(u, st) := uuid4_hex8 st in
  let '(base, st) := CloudResource_init ("db-" +:+ u) nm rg st in
  new_instance
    (base (RDSDatabase
       {| rds_engine := engine; rds_instance_class := instance_class;
          rds_allocated_storage := allocated_storage;
          rds_endpoint := nm +:+ "." +:+ rg +:+ ".rds.amazonaws.com";
          rds_port := if decide (engine = "mysql") then 3306 else 5432 |}))
    st.

(** [ApplicationLoadBalancer(name, region, vpc_id, scheme)] *)
Definition ApplicationLoadBalancer_init (nm rg vpc_id scheme : string)
    (st : State) : addr * State :=
  let '(u, st) := uuid4_hex8 st in
  let '(base, st) := CloudResource_init ("alb-" +:+ u) nm rg st in
  let '(tg, st) := alloc_cell (ListObj []) st in
  let '(ls, st) := alloc_cell (ListObj []) st in
  new_instance
    (base (ApplicationLoadBalancer
       {| alb_vpc_id := vpc_id; alb_scheme := scheme; alb_targets := tg;
          alb_listeners := ls;
          alb_dns_name :=
            nm +:+ "-" +:+ PyStr.last8 ("alb-" +:+ u) +:+ "." +:+ rg +:+
            ".elb.amazonaws.com" |}))
    st.

(** [S3Storage(name, region, storage_class)] *)
Definition S3Storage_init (nm rg storage_class : string) (st : State)
    : addr * State :=
  let '(u, st) := uuid4_hex8 st in
  let '(base, st) := CloudResource_init ("s3-" +:+ u) nm rg st in
  let '(ob, st) := alloc_cell (DictObj []) st in
  new_instance
    (base (S3Storage
       {| s3_bucket_name := nm; s3_storage_class := storage_class;
          s3_objects := ob; s3_versioning_enabled := false |}))
    st.

(** [EC2NetworkInterface(instance_id, region)] *)
Definition EC2NetworkInterface_init (instance_id rg : string) (st : State)
    : addr * State :=
  let '(u, st) := uuid4_hex8 st in
  let '(base, st) :=
    CloudResource_init ("eni-" +:+ u) ("network-interface-" +:+ instance_id)
      rg st in
  let '(sg, st) := alloc_cell (ListObj []) st in
  new_instance
    (base (EC2NetworkInterface
       {| eni_instance_id := instance_id; eni_security_groups := sg;
          eni_public_ip := "" |}))
    st.

(** ** The life cycle of an EC2 instance ([EC2Instance.start], [stop],
    [restart]) *)

Section Lifecycle.

(** [f"{self.status}"]: how a member of the [str]-mixin enum is formatted
    depends on the version of the interpreter (its value before 3.11, the
    qualified name of the member since). *)
Variable format_status : ResourceStatus → string.

Definition EC2Instance_start (self : addr) (st : State) : outcome State unit :=
  if decide (status (deref st self) = STOPPED)
  then Return tt (modify self (set_status RUNNING) st)
  else Raise (ValueError ("Cannot start instance in state " +:+
                          format_status (status (deref st self)))) st.

Definition EC2Instance_stop (self : addr) (st : State) : outcome State unit :=
  if decide (status (deref st self) = RUNNING)
  then Return tt (modify self (set_status STOPPED) st)
  else Raise (ValueError ("Cannot stop instance in state " +:+
                          format_status (status (deref st self)))) st.

Definition EC2Instance_restart (self : addr) (st : State) : outcome State unit :=
  if decide (status (deref st self) = RUNNING)
  then Return tt (modify self (set_status RUNNING) st)
  else Raise (ValueError ("Cannot restart instance in state " +:+
                          format_status (status (deref st self)))) st.

End Lifecycle.

(** ** Targets of a load balancer ([ApplicationLoadBalancer.add_target],
    [remove_target]) *)

(** [if target_id not in self.targets: self.targets.append(target_id)] *)
Definition ApplicationLoadBalancer_add_target (self : addr)
    (target_id : string) (st : State) : outcome State unit :=
  match get_targets (deref st self) with
  | None => Raise (no_attribute "ApplicationLoadBalancer" "targets") st
  | Some a =>
      match cells st !!! a with
      | ListObj xs =>
          if bool_decide (VStr target_id ∈ xs) then Return tt st
          else Return tt
                 (set_cells (<[a := ListObj (xs ++ [VStr target_id])]> (cells st)) st)
      | DictObj kvs =>
          if PyDict.mem target_id kvs then Return tt st
          else Raise (no_attribute "dict" "append") st
      end
  end.

(** [if target_id in self.targets: self.targets.remove(target_id)] *)
Definition ApplicationLoadBalancer_remove_target (self : addr)
    (target_id : string) (st : State) : outcome State unit :=
  match get_targets (deref st self) with
  | None => Raise (no_attribute "ApplicationLoadBalancer" "targets") st
  | Some a =>
      match cells st !!! a with
      | ListObj xs =>
          if bool_decide (VStr target_id ∈ xs)
          then Return tt
                 (set_cells
                    (<[a := ListObj (PyList.remove (VStr target_id) xs)]> (cells st))
                    st)
          else Return tt st
      | DictObj kvs =>
          if PyDict.mem target_id kvs
          then Raise (no_attribute "dict" "remove") st
          else Return tt st
      end
  end.

(** ** Security groups of a network interface
    ([EC2NetworkInterface.configure_security_group]) *)

(** The [rules] argument is not read. *)
Definition EC2NetworkInterface_configure_security_group (self : addr)
    (st : State) : outcome State unit :=
  let '(u, st) := uuid4_hex8 st in
  let sg_id := "sg-" +:+ u in
  match get_security_groups (deref st self) with
  | None => Raise (no_attribute "EC2NetworkInterface" "security_groups") st
  | Some a =>
      match cells st !!! a with
      | ListObj xs =>
          Return tt (set_cells (<[a := ListObj (xs ++ [VStr sg_id])]> (cells st)) st)
      | DictObj _ => Raise (no_attribute "dict" "append") st
      end
  end.

(** A call of one of the five AWS constructors, with its arguments. *)
Inductive AwsCall :=
| NewEC2Instance (nm rg instance_type ami vpc_id : string)
| NewRDSDatabase (nm rg engine instance_class : string) (allocated_storage : Z)
| NewApplicationLoadBalancer (nm rg vpc_id scheme : string)
| NewS3Storage (nm rg storage_class : string)
| NewEC2NetworkInterface (instance_id rg : string).

Definition construct (k : AwsCall) (st : State) : addr * State :=
  match k with
  | NewEC2Instance nm rg instance_type ami vpc_id =>
      EC2Instance_init nm rg instance_type ami vpc_id st
  | NewRDSDatabase nm rg engine instance_class allocated_storage =>
      RDSDatabase_init nm rg engine instance_class allocated_storage st
  | NewApplicationLoadBalancer nm rg vpc_id scheme =>
      ApplicationLoadBalancer_init nm rg vpc_id scheme st
  | NewS3Storage nm rg storage_class => S3Storage_init nm rg storage_class st
  | NewEC2NetworkInterface instance_id rg =>
      EC2NetworkInterface_init instance_id rg st
  end.

(** The prefix each constructor gives to the resource id. *)
Definition id_prefix (k : AwsCall) : string :=
  match k with
  | NewEC2Instance _ _ _ _ _ => "i"
  | NewRDSDatabase _ _ _ _ _ => "db"
  | NewApplicationLoadBalancer _ _ _ _ => "alb"
  | NewS3Storage _ _ _ => "s3"
  | NewEC2NetworkInterface _ _ => "eni"
  end.

(** ** More scenarios *)

Module Samples.

(** A network interface with one security group. *)
Definition eni : Resource :=
  {| prototype_id := "proto-0badd00d"; is_prototype := false;
     cloned_from := None; clone_count := 0; created_at := 0;
     last_cloned_at := None; resource_id := "eni-0000cccc";
     name := "network-interface-i-abc123"; region := "us-east-1";
     status := RUNNING; tags := 0%nat;
     specific :=
       EC2NetworkInterface
         {| eni_instance_id := "i-abc123"; eni_security_groups := 1%nat;
            eni_public_ip := "54.1.2.3" |} |}.

Definition with_eni : State :=
  {| world := Scenario.world0; objects := <[0%nat := eni]> ∅;
     cells := <[0%nat := DictObj []]> (<[1%nat := ListObj [VStr "sg-0a0a0a0a"]]> ∅);
     manager := empty_manager |}.

(** A database, registered as ["db-template"]. *)
Definition db : Resource :=
  {| prototype_id := "proto-0baddeed"; is_prototype := false;
     cloned_from := None; clone_count := 0; created_at := 0;
     last_cloned_at := None; resource_id := "db-0000dddd";
     name := "orders"; region := "eu-west-1";
     status := RUNNING; tags := 0%nat;
     specific :=
       RDSDatabase
         {| rds_engine := "mysql"; rds_instance_class := "db.t3.micro";
            rds_allocated_storage := 20;
            rds_endpoint := "orders.eu-west-1.rds.amazonaws.com";
            rds_port := 3306 |} |}.

Definition with_db : State :=
  {| world := Scenario.world0; objects := <[0%nat := db]> ∅;
     cells := <[0%nat := DictObj [("env", VStr "prod")]]> ∅;
     manager := empty_manager |}.

Definition db_registered : string * State :=
  register_prototype 0%nat "db-template" "" "database" None with_db.

End Samples.

(** The dict or list behind [a] holds immutable values only. *)
Definition flat (c : container) : Prop :=
  match c with
  | ListObj xs => Forall (λ v, ∀ b, v ≠ VRef b) xs
  | DictObj kvs => Forall (λ kv, ∀ b, kv.2 ≠ VRef b) kvs
  end.

(** ** Views of a prototype ([get_prototype_info], [to_dict]) *)

(** [get_resource_type()], one string per concrete class. *)
Definition get_resource_type (r : Resource) : string :=
  match specific r with
  | EC2Instance _ => "AWS::EC2::Instance"
  | RDSDatabase _ => "AWS::RDS::DBInstance"
  | ApplicationLoadBalancer _ => "AWS::ElasticLoadBalancingV2::LoadBalancer"
  | S3Storage _ => "AWS::S3::Bucket"
  | EC2NetworkInterface _ => "AWS::EC2::NetworkInterface"
  | ConfigResource ComputeEngineInstance _ => "gcp.compute.instance"
  | ConfigResource CloudSQLDatabase _ => "gcp.cloudsql.instance"
  | ConfigResource CloudLoadBalancer _ => "gcp.loadbalancer"
  | ConfigResource CloudStorage _ => "gcp.storage.bucket"
  | ConfigResource OnPremiseVirtualMachine _ => "onprem.virtual_machine"
  | ConfigResource OnPremiseDatabase _ => "onprem.database"
  | ConfigResource OnPremiseLoadBalancer _ => "onprem.loadbalancer"
  | ConfigResource OnPremiseStorage _ => "onprem.storage"
  end.

(** The dict [get_prototype_info] returns. *)
Record PrototypeInfo := {
  info_prototype_id : string;
  info_resource_id : string;
  info_resource_type : string;
  info_name : string;
  info_is_prototype : bool;
  info_cloned_from : option string;
  info_clone_count : Z;
  info_created_at : string;
  info_last_cloned_at : option string
}.

(** The dict [to_dict] returns; ["tags"] is the tags dict of the metadata
    itself, not a copy. *)
Record MetadataView := {
  view_name : string;
  view_description : string;
  view_category : string;
  view_tags : addr;
  view_created_at : string;
  view_usage_count : Z
}.

(** An entry of a listing: [{"prototype_id", "prototype_info", "metadata"}]. *)
Record PrototypeDetails := {
  details_prototype_id : string;
  details_info : PrototypeInfo;
  details_metadata : MetadataView
}.

(** [sub in s] on strings. *)
Fixpoint str_contains (sub s : string) : bool :=
  String.prefix sub s ||
  match s with
  | EmptyString => false
  | String _ rest => str_contains sub rest
  end.

(** [all(metadata_tags.get(k) == v for k, v in tags.items())], for a
    non-empty [tags]: the first [get] raises when the object is a list. *)
Definition tags_match (tags : list (string * string)) (c : container)
    : exn + bool :=
  match c with
  | DictObj kvs =>
      inr (forallb (λ kv, bool_decide (PyDict.get kv.1 kvs = Some (VStr kv.2))) tags)
  | ListObj _ => inl (no_attribute "list" "get")
  end.

Section Listing.

(** [datetime.isoformat] and [str.lower] are library functions; the
    listings are defined for any two such functions. *)
Variable isoformat : Z → string.
Variable lower : string → string.

(** [CloneableResource.get_prototype_info]; every resource has the
    attributes the defaults of [getattr] stand in for. *)
Definition get_prototype_info (r : Resource) : PrototypeInfo :=
  {| info_prototype_id := prototype_id r;
     info_resource_id := resource_id r;
     info_resource_type := get_resource_type r;
     info_name := name r;
     info_is_prototype := is_prototype r;
     info_cloned_from := cloned_from r;
     info_clone_count := clone_count r;
     info_created_at := isoformat (created_at r);
     info_last_cloned_at := isoformat <$> last_cloned_at r |}.

(** [PrototypeMetadata.to_dict] *)
Definition to_dict (md : PrototypeMetadata.t) : MetadataView :=
  {| view_name := PrototypeMetadata.name md;
     view_description := PrototypeMetadata.description md;
     view_category := PrototypeMetadata.category md;
     view_tags := PrototypeMetadata.tags md;
     view_created_at := isoformat (PrototypeMetadata.created_at md);
     view_usage_count := PrototypeMetadata.usage_count md |}.

(** The [info] dict both listings build. *)
Definition details (pid : string) (prototype : addr) (md : PrototypeMetadata.t)
    (st : State) : PrototypeDetails :=
  {| details_prototype_id := pid;
     details_info := get_prototype_info (deref st prototype);
     details_metadata := to_dict md |}.

(** [list_prototypes(category)] *)
Definition list_prototypes (category : option string) (st : State)
    : list PrototypeDetails :=
  let m := manager st in
  let all := PyDict.keys (_prototypes m) in
  let prototype_ids :=
    match category with
    | Some c =>
        if PyStr.truthy c then default [] (PyDict.get c (_categories m)) else all
    | None => all
    end in
  omap (λ pid,
          match PyDict.get pid (_prototypes m), PyDict.get pid (_metadata m) with
          | Some prototype, Some md => Some (details pid prototype md st)
          | _, _ => None
          end)
       prototype_ids.

(** The three filters of [search_prototypes] on one entry of the metadata
    dict: [inr false] where the loop says [continue]. *)
Definition search_keeps (query : string) (category : option string)
    (tags : option (list (string * string))) (md : PrototypeMetadata.t)
    (st : State) : exn + bool :=
  if match category with
     | Some c => PyStr.truthy c && bool_decide (PrototypeMetadata.category md ≠ c)
     | None => false
     end
  then inr false
  else if PyStr.truthy query &&
          negb (str_contains (lower query) (lower (PrototypeMetadata.name md))) &&
          negb (str_contains (lower query) (lower (PrototypeMetadata.description md)))
  then inr false
  else
    match tags with
    | Some (kv :: kvs) =>
        tags_match (kv :: kvs) (cells st !!! PrototypeMetadata.tags md)
    | _ => inr true
    end.

(** The loop over [self._metadata.items()]: an exception ends the call. *)
Fixpoint search_loop (query : string) (category : option string)
    (tags : option (list (string * string))) (st : State)
    (items : list (string * PrototypeMetadata.t)) : exn + list PrototypeDetails :=
  match items with
  | [] => inr []
  | (pid, md) :: rest =>
      match PyDict.get pid (_prototypes (manager st)) with
      | None => search_loop query category tags st rest
      | Some prototype =>
          match search_keeps query category tags md st with
          | inl e => inl e
          | inr false => search_loop query category tags st rest
          | inr true =>
              match search_loop query category tags st rest with
              | inl e => inl e
              | inr results => inr (details pid prototype md st :: results)
              end
          end
      end
  end.

(** [search_prototypes(query, category, tags)] *)
Definition search_prototypes (query : string) (category : option string)
    (tags : option (list (string * string))) (st : State)
    : exn + list PrototypeDetails :=
  search_loop query category tags st (_metadata (manager st)).

End Listing.

(** [get_categories] *)
Definition get_categories (st : State) : list string :=
  PyDict.keys (_categories (manager st)).

(** ** Properties of the listings *)

(** The category under which [pid] is registered. *)
Definition category_of (m : PrototypeManager) (pid : string) : option string :=
  PrototypeMetadata.category <$> PyDict.get pid (_metadata m).

(** [pid] passes the category filter of a listing. *)
Definition in_category (m : PrototypeManager) (category : option string)
    (pid : string) : Prop :=
  match category with
  | Some c => if PyStr.truthy c then category_of m pid = Some c else True
  | None => True
  end.

#[global] Instance in_category_dec m category pid :
  Decision (in_category m category pid).
Proof.
  unfold in_category. destruct category as [c|]; [|apply _].
  destruct (PyStr.truthy c); apply _.
Defined.

(** What the operations of the manager keep besides [registry_inv]: no
    category is listed twice, and the id list of a category is the list of
    registered ids of that category, in the order of registration. *)
Record listing_inv (st : State) : Prop := {
  listing_registry : registry_inv st;
  listing_nodup : NoDup (PyDict.keys (_categories (manager st)));
  listing_order : ∀ c ids,
    PyDict.get c (_categories (manager st)) = Some ids →
    ids = filter (λ pid, category_of (manager st) pid = Some c)
            (PyDict.keys (_prototypes (manager st)))
}.

(** What a listing shows for the id [pid], if it shows it. *)
Definition entry_of (isoformat : Z → string) (st : State) (pid : string)
    : option PrototypeDetails :=
  match PyDict.get pid (_prototypes (manager st)),
        PyDict.get pid (_metadata (manager st)) with
  | Some prototype, Some md => Some (details isoformat pid prototype md st)
  | _, _ => None
  end.

(** No clone count is negative, the two id-keyed dicts hold no key twice,
    and every registered resource is a live object whose clone count is
    not below the usage count of any id it is registered under. *)
Record counted (st : State) : Prop := {
  counted_nonneg : ∀ a r, objects st !! a = Some r → 0 ≤ clone_count r;
  counted_prototypes : NoDup (PyDict.keys (_prototypes (manager st)));
  counted_metadata : NoDup (PyDict.keys (_metadata (manager st)));
  counted_usage : ∀ pid a,
    PyDict.get pid (_prototypes (manager st)) = Some a →
    is_Some (objects st !! a) ∧
    ∀ md, PyDict.get pid (_metadata (manager st)) = Some md →
          PrototypeMetadata.usage_count md ≤ clone_count (deref st a)
}.

(** ** The rest of [VMRepository] ([save], [save_product]) *)

(** Python's [x or y] on two optional strings: [x] when it is truthy. *)
Definition str_or (x y : option string) : option string :=
  match x with
  | Some s => if PyStr.truthy s then x else y
  | None => y
  end.

Section RepositorySave.
Context {Obj : Type}.

(** [getattr(o, 'id', None)] and [getattr(o, 'resource_id', None)]: the
    attribute when the object has it and it is not [None]. *)
Variable attr_id : Obj → option string.
Variable attr_resource_id : Obj → option string.

(** [save] *)
Definition VMRepository_save (vm : Obj) (repo : VMRepository Obj)
    : outcome (VMRepository Obj) unit :=
  match str_or (attr_id vm) (attr_resource_id vm) with
  | Some vm_id =>
      if negb (PyStr.truthy vm_id)
      then Raise (ValueError "El recurso debe tener 'id' o 'resource_id'") repo
      else Return tt {| _store := <[vm_id := vm]> (_store repo);
                        _products_store := _products_store repo |}
  | None => Raise (ValueError "El recurso debe tener 'id' o 'resource_id'") repo
  end.

(** [save_product] *)
Definition save_product (product : Obj) (repo : VMRepository Obj)
    : outcome (VMRepository Obj) unit :=
  match attr_resource_id product with
  | Some product_id =>
      if negb (PyStr.truthy product_id)
      then Raise (ValueError "El producto debe tener 'resource_id'") repo
      else Return tt {| _store := _store repo;
                        _products_store :=
                          <[product_id := product]> (_products_store repo) |}
  | None => Raise (ValueError "El producto debe tener 'resource_id'") repo
  end.

End RepositorySave.

(** ** The other endpoints ([api/prototype_controller.py]) *)

(** [class PrototypeCategory(str, Enum)] and the [value] of a member. *)
Inductive PrototypeCategory :=
| VM | DATABASE | LOADBALANCER | STORAGE | NETWORK | GENERAL.

Definition category_value (c : PrototypeCategory) : string :=
  match c with
  | VM => "vm"
  | DATABASE => "database"
  | LOADBALANCER => "loadbalancer"
  | STORAGE => "storage"
  | NETWORK => "network"
  | GENERAL => "general"
  end.

Record CreatePrototypeRequest := {
  create_resource_id : string;
  create_name : string;
  create_description : string;
  create_category : PrototypeCategory;
  create_tags : option (list (string * string))
}.

(** What the client sees of a [PrototypeResponse] or of an
    [HTTPException]: the status, the [message] or [detail], and on success
    the id and the details the response carries. *)
Record PrototypeResponse := {
  response_status : Z;
  response_message : string;
  response_prototype_id : option string;
  response_details : option PrototypeDetails
}.

Definition http_error (code : Z) (detail : string) : PrototypeResponse :=
  {| response_status := code; response_message := detail;
     response_prototype_id := None; response_details := None |}.

Section Endpoints.
Context {Obj : Type}.
Variable isoformat : Z → string.
(** The truth value of an object of the repository, the resource instance
    an object is when it has a [can_be_cloned] method, and a resource
    instance as an object of the repository. *)
Variable truthy : Obj → bool.
Variable as_resource : Obj → option addr.

(** [create_prototype]: an exception of [repository.get] counts as "not
    found"; any other exception is answered with 500. *)
Definition create_prototype_endpoint (request : CreatePrototypeRequest)
    (app : State * VMRepository Obj)
    : PrototypeResponse * (State * VMRepository Obj) :=
  let '(st, repo) := app in
  let not_found :=
    (http_error 404
       ("Resource with ID " +:+ create_resource_id request +:+ " not found"),
     (st, repo)) in
  let refused :=
    (http_error 400
       ("Resource " +:+ create_resource_id request +:+
        " cannot be used as prototype in its current state"),
     (st, repo)) in
  match VMRepository_get truthy (create_resource_id request) repo with
  | Raise _ _ => not_found
  | Return resource _ =>
      if negb (truthy resource) then not_found
      else
        match as_resource resource with
        | None => refused
        | Some a =>
            if negb (can_be_cloned (deref st a)) then refused
            else
              let '(tg, st) :=                       (* request.tags or {} *)
                match create_tags request with
                | Some (kv :: kvs) =>
                    alloc_cell (DictObj (prod_map id VStr <$> kv :: kvs)) st
                | _ => alloc_cell (DictObj []) st
                end in
              let '(prototype_id, st) :=
                register_prototype a (create_name request)
                  (create_description request)
                  (category_value (create_category request)) (Some tg) st in
              let failed e :=
                (http_error 500 ("Failed to create prototype: " +:+ exn_str e),
                 (st, repo)) in
              match get_prototype prototype_id st with
              | None =>
                  failed (no_attribute "NoneType" "get_prototype_info")
              | Some prototype =>
                  match PyDict.get prototype_id (_metadata (manager st)) with
                  | None => failed (KeyError prototype_id)
                  | Some md =>
                      ({| response_status := 201;
                          response_message :=
                            "Prototype '" +:+ create_name request +:+
                            "' created successfully";
                          response_prototype_id := Some prototype_id;
                          response_details :=
                            Some (details isoformat prototype_id prototype md st) |},
                       (st, repo))
                  end
              end
        end
  end.

(** [get_prototype_details] *)
Definition get_prototype_details (prototype_id : string) (st : State)
    : PrototypeResponse :=
  match get_prototype prototype_id st with
  | None =>
      http_error 404 ("Prototype with ID " +:+ prototype_id +:+ " not found")
  | Some prototype =>
      match PyDict.get prototype_id (_metadata (manager st)) with
      | None =>
          http_error 404
            ("Metadata for prototype " +:+ prototype_id +:+ " not found")
      | Some md =>
          {| response_status := 200;
             response_message := "Prototype details retrieved successfully";
             response_prototype_id := Some prototype_id;
             response_details :=
               Some (details isoformat prototype_id prototype md st) |}
      end
  end.

(** [delete_prototype] *)
Definition delete_prototype (prototype_id : string) (st : State)
    : PrototypeResponse * State :=
  let '(success, st) := remove_prototype prototype_id st in
  if negb success
  then (http_error 404 ("Prototype with ID " +:+ prototype_id +:+ " not found"),
        st)
  else ({| response_status := 200;
           response_message :=
             "Prototype " +:+ prototype_id +:+ " deleted successfully";
           response_prototype_id := Some prototype_id;
           response_details := None |}, st).

End Endpoints.

(** ** A repository for the scenarios *)

Module Examples.

(** What the repository of the examples holds: a DTO, by its id, or a
    product instance. *)
Inductive Stored :=
| DTO (vm_id : string)
| Product (a : addr).

Definition as_resource (o : Stored) : option addr :=
  match o with
  | Product a => Some a
  | DTO _ => None
  end.

Definition dto_id (o : Stored) : option string :=
  match o with
  | DTO vm_id => Some vm_id
  | Product _ => None
  end.

(** [resource_id] of a stored object, in the state [st]. *)
Definition product_id (st : State) (o : Stored) : option string :=
  match o with
  | Product a => Some (resource_id (deref st a))
  | DTO _ => None
  end.

(** The web server of the specification's example, saved as a product. *)
Definition web_repo : VMRepository Stored :=
  {| _store := ∅; _products_store := <["i-abc123" := Product 0%nat]> ∅ |}.

Definition create_web : CreatePrototypeRequest :=
  {| create_resource_id := "i-abc123"; create_name := "web-template";
     create_description := ""; create_category := VM; create_tags := None |}.

End Examples.

(** ** Objects of a bucket ([S3Storage.upload_file], [download_file]) *)

(** The two methods can raise exceptions [exn] has no constructor for. *)
Inductive storage_exn :=
| FileNotFoundError (msg : string)
| TypeError (msg : string)
| OtherError (e : exn).

Inductive storage_outcome (A : Type) :=
| Done (a : A) (st : State)
| Failed (e : storage_exn) (st : State).

Arguments Done {A} a st.
Arguments Failed {A} e st.

(** [self.objects[key] = {"size": 1024, "last_modified": ...,
    "storage_class": self.storage_class}]: the new dict is built first,
    then stored under [key]; the [file_path] argument is not read. *)
Definition S3Storage_upload_file (self : addr) (key : string) (st : State)
    : storage_outcome unit :=
  match specific (deref st self) with
  | S3Storage x =>
      let '(o, st) :=
        alloc_cell
          (DictObj [("size", VInt 1024);
                    ("last_modified", VStr "2024-01-01T00:00:00Z");
                    ("storage_class", VStr (s3_storage_class x))]) st in
      match cells st !!! s3_objects x with
      | DictObj kvs =>
          Done tt
            (set_cells
               (<[s3_objects x := DictObj (PyDict.set key (VRef o) kvs)]> (cells st))
               st)
      | ListObj _ =>
          Failed (TypeError "list indices must be integers or slices, not str") st
      end
  | _ => Failed (OtherError (no_attribute "S3Storage" "storage_class")) st
  end.

(** [if key in self.objects: ... else: raise FileNotFoundError(...)]; the
    [local_path] argument is only printed. *)
Definition S3Storage_download_file (self : addr) (key : string) (st : State)
    : storage_outcome unit :=
  match specific (deref st self) with
  | S3Storage x =>
      if match cells st !!! s3_objects x with
         | DictObj kvs => PyDict.mem key kvs
         | ListObj xs => bool_decide (VStr key ∈ xs)
         end
      then Done tt st
      else Failed (FileNotFoundError
                     ("Object " +:+ key +:+ " not found in bucket " +:+
                      s3_bucket_name x)) st
  | _ => Failed (OtherError (no_attribute "S3Storage" "objects")) st
  end.

Module Buckets.

(** A bucket that holds nothing yet. *)
Definition bucket : Resource :=
  {| prototype_id := "proto-0badbabe"; is_prototype := false;
     cloned_from := None; clone_count := 0; created_at := 0;
     last_cloned_at := None; resource_id := "s3-0000eeee";
     name := "assets"; region := "us-east-1";
     status := RUNNING; tags := 0%nat;
     specific :=
       S3Storage
         {| s3_bucket_name := "assets"; s3_storage_class := "STANDARD";
            s3_objects := 1%nat; s3_versioning_enabled := false |} |}.

Definition with_bucket : State :=
  {| world := Scenario.world0; objects := <[0%nat := bucket]> ∅;
     cells := <[0%nat := DictObj []]> (<[1%nat := DictObj []]> ∅);
     manager := empty_manager |}.

End Buckets.

(** ** Proof automation *)

(** Reduction of the state plumbing on a state given by its four
    components; attribute setters are left for [fields], which fires on
    explicit records only. *)
Ltac plumb :=
  cbv beta iota zeta delta
      [uuid4_hex8 now modify deref alloc_cell shallow_copy
       set_world set_heap_objects set_cells set_manager
       world objects cells manager fst snd
       uuid_src uuid_pos clock_src clock_pos].

Ltac fields :=
  cbn [set_prototype_id set_is_prototype set_cloned_from set_clone_count
       set_created_at set_last_cloned_at set_resource_id set_name set_tags
       set_specific set_private_ip set_public_ip set_security_groups
       set_endpoint set_targets set_listeners set_dns_name set_objects
       set_bucket_name get_security_groups get_listeners
       prototype_id is_prototype cloned_from clone_count created_at
       last_cloned_at resource_id name region status tags specific
       ec2_instance_type ec2_ami ec2_vpc_id ec2_security_groups ec2_key_pair
       ec2_private_ip ec2_public_ip
       rds_engine rds_instance_class rds_allocated_storage rds_endpoint rds_port
       alb_vpc_id alb_scheme alb_targets alb_listeners alb_dns_name
       s3_bucket_name s3_storage_class s3_objects s3_versioning_enabled
       eni_instance_id eni_security_groups eni_public_ip].

(** Normalising chains of attribute assignments on two distinct objects. *)
Ltac heap_simpl c self :=
  repeat first
    [ rewrite lookup_total_insert_eq
    | rewrite (lookup_total_insert_ne _ c self) by done
    | rewrite (lookup_total_insert_ne _ self c) by done
    | rewrite insert_insert_eq
    | rewrite (insert_insert_ne _ c self) by done; rewrite insert_insert_eq ];
  fields.

(** The class of the source, read back after its counters were updated. *)
Ltac source_class Hsp :=
  unfold get_security_groups, get_listeners;
  change (specific (set_last_cloned_at ?a (set_clone_count ?b ?r)))
    with (specific r);
  rewrite Hsp; cbv beta iota.

(** Split a conjunction of closed facts and evaluate each. *)
Ltac evaluate :=
  repeat match goal with |- _ ∧ _ => split end;
  try (vm_compute; reflexivity).

(** * Facts about the building blocks *)

(** ** Ordered dicts *)

Section PyDictFacts.
Context {V : Type}.
Implicit Types (d : list (string * V)) (k : string) (v : V).

Lemma get_None k d : PyDict.get k d = None ↔ k ∉ PyDict.keys d.
Proof.
  unfold PyDict.keys. induction d as [|[k' v'] d IH]; simpl.
  - split; [intros _; apply not_elem_of_nil|done].
  - rewrite not_elem_of_cons. case_decide as Hk.
    + split; [done|]. by intros [? _].
    + rewrite IH. split; [by intros ?|by intros [_ ?]].
Qed.

Lemma get_is_Some k d : is_Some (PyDict.get k d) ↔ k ∈ PyDict.keys d.
Proof.
  rewrite <-not_eq_None_Some, get_None.
  split; [apply dec_stable|by intros ??].
Qed.

Lemma mem_true k d : PyDict.mem k d = true ↔ k ∈ PyDict.keys d.
Proof.
  rewrite <-get_is_Some. unfold PyDict.mem.
  destruct (PyDict.get k d); split; (done || by intros []).
Qed.

Lemma get_set_eq k v d : PyDict.get k (PyDict.set k v d) = Some v.
Proof.
  induction d as [|[k' v'] d IH]; simpl; repeat (case_decide; simpl); done.
Qed.

Lemma get_set_ne k k' v d :
  k ≠ k' → PyDict.get k' (PyDict.set k v d) = PyDict.get k' d.
Proof.
  intros Hne. induction d as [|[k'' v''] d IH]; simpl;
    repeat (case_decide; simpl); congruence.
Qed.

Lemma keys_set_old k v d :
  k ∈ PyDict.keys d → PyDict.keys (PyDict.set k v d) = PyDict.keys d.
Proof.
  unfold PyDict.keys. induction d as [|[k' v'] d IH]; simpl.
  - by intros ?%elem_of_nil.
  - intros [->|Hin]%elem_of_cons; case_decide; simplify_eq; simpl; try done.
    f_equal. by apply IH.
Qed.

Lemma keys_set_new k v d :
  k ∉ PyDict.keys d → PyDict.keys (PyDict.set k v d) = PyDict.keys d ++ [k].
Proof.
  unfold PyDict.keys. induction d as [|[k' v'] d IH]; simpl; [done|].
  intros [? ?]%not_elem_of_cons. case_decide; [done|]. simpl.
  f_equal. by apply IH.
Qed.

Lemma get_del_ne k k' d :
  k ≠ k' → PyDict.get k' (PyDict.del k d) = PyDict.get k' d.
Proof.
  intros Hne. induction d as [|[k'' v''] d IH]; simpl;
    repeat (case_decide; simpl); congruence.
Qed.

Lemma get_del_eq k d :
  NoDup (PyDict.keys d) → PyDict.get k (PyDict.del k d) = None.
Proof.
  unfold PyDict.keys. induction d as [|[k' v'] d IH]; simpl; [done|].
  intros [Hk Hd]%NoDup_cons. case_decide as Heq; simpl.
  - subst k'. by apply get_None.
  - rewrite decide_False by done. auto.
Qed.

Lemma keys_del k d :
  PyDict.keys (PyDict.del k d) = list_remove_first k (PyDict.keys d).
Proof.
  unfold PyDict.keys. induction d as [|[k' v'] d IH]; simpl; [done|].
  case_decide; simpl; [done|]. f_equal. apply IH.
Qed.
End PyDictFacts.

(** ** [deepcopy] returns and leaves the existing objects alone *)

Section DeepcopyFacts.
Import Deepcopy.
Variable h0 : gmap addr container.

Lemma copy_items_well f bound xs :
  copies_well h0 f bound →
  ∀ s, (size (dom h0 ∖ dom s.2) ≤ bound)%nat →
    ∃ ys s', copy_items f xs s = Some (ys, s') ∧ dom s.2 ⊆ dom s'.2 ∧
             ∀ a, a ∈ dom s.1 → s'.1 !! a = s.1 !! a.
Proof.
  intros Hf. induction xs as [|x xs IH]; intros s Hs; simpl.
  - exists [], s. done.
  - destruct (Hf x s Hs) as (y & s1 & -> & Hm1 & Hh1).
    assert (Hs1 : (size (dom h0 ∖ dom s1.2) ≤ bound)%nat).
    { etrans; [|exact Hs]. apply subseteq_size. apply difference_mono_l. done. }
    destruct (IH s1 Hs1) as (ys & s2 & -> & Hm2 & Hh2).
    exists (y :: ys), s2. split; [done|]. split; [set_solver|].
    intros a Ha. rewrite Hh2, Hh1; [done..|].
    apply elem_of_dom. rewrite Hh1 by done. by apply elem_of_dom.
Qed.

Lemma copy_entries_well f bound kvs :
  copies_well h0 f bound →
  ∀ s, (size (dom h0 ∖ dom s.2) ≤ bound)%nat →
    ∃ ys s', copy_entries f kvs s = Some (ys, s') ∧ dom s.2 ⊆ dom s'.2 ∧
             ∀ a, a ∈ dom s.1 → s'.1 !! a = s.1 !! a.
Proof.
  intros Hf. induction kvs as [|[k x] kvs IH]; intros s Hs; simpl.
  - exists [], s. done.
  - destruct (Hf x s Hs) as (y & s1 & -> & Hm1 & Hh1).
    assert (Hs1 : (size (dom h0 ∖ dom s1.2) ≤ bound)%nat).
    { etrans; [|exact Hs]. apply subseteq_size. apply difference_mono_l. done. }
    destruct (IH s1 Hs1) as (ys & s2 & -> & Hm2 & Hh2).
    exists ((k, y) :: ys), s2. split; [done|]. split; [set_solver|].
    intros a Ha. rewrite Hh2, Hh1; [done..|].
    apply elem_of_dom. rewrite Hh1 by done. by apply elem_of_dom.
Qed.

Lemma copy_value_well fuel : copies_well h0 (copy_value (S fuel) h0) fuel.
Proof.
  induction fuel as [fuel IH] using lt_wf_ind.
  intros v s Hs. destruct v as [| | | |a]; try by (eexists _, s).
  cbn [copy_value].
  destruct (s.2 !! a) as [a'|] eqn:Hmemo; [by eexists _, s|].
  destruct (h0 !! a) as [c|] eqn:Hobj; [|by eexists _, s].
  set (a' := fresh (dom s.1)).
  assert (Ha' : a' ∉ dom s.1) by apply is_fresh.
  assert (Hlt : (size (dom h0 ∖ dom (<[a:=a']> s.2)) < size (dom h0 ∖ dom s.2))%nat).
  { apply subset_size. rewrite dom_insert_L.
    apply elem_of_dom_2 in Hobj. apply not_elem_of_dom in Hmemo. split.
    - intros x [Hx Hn]%elem_of_difference. apply elem_of_difference.
      split; [done|]. intros Hin. apply Hn, elem_of_union. by right.
    - intros Hsub.
      assert (Hin : a ∈ dom h0 ∖ dom s.2) by (by apply elem_of_difference).
      apply Hsub, elem_of_difference in Hin as [_ Hn].
      apply Hn, elem_of_union. left. by apply elem_of_singleton. }
  destruct fuel as [|fuel]; [lia|].
  assert (Hrec : copies_well h0 (copy_value (S fuel) h0) fuel) by (apply IH; lia).
  destruct c as [xs|kvs].
  - destruct (copy_items_well _ _ xs Hrec
                (<[a':=ListObj []]> s.1, <[a:=a']> s.2))
      as (ys & s2 & -> & Hm & Hh); [simpl; lia|].
    simpl in Hm, Hh. eexists _, _. split; [done|]. simpl.
    split; [rewrite dom_insert_L in Hm; set_solver|].
    intros b Hb. assert (b ≠ a') by (intros ->; done).
    rewrite lookup_insert_ne by done.
    rewrite Hh by (rewrite dom_insert_L; set_solver).
    by rewrite lookup_insert_ne.
  - destruct (copy_entries_well _ _ kvs Hrec
                (<[a':=DictObj []]> s.1, <[a:=a']> s.2))
      as (ys & s2 & -> & Hm & Hh); [simpl; lia|].
    simpl in Hm, Hh. eexists _, _. split; [done|]. simpl.
    split; [rewrite dom_insert_L in Hm; set_solver|].
    intros b Hb. assert (b ≠ a') by (intros ->; done).
    rewrite lookup_insert_ne by done.
    rewrite Hh by (rewrite dom_insert_L; set_solver).
    by rewrite lookup_insert_ne.
Qed.
End DeepcopyFacts.

Lemma deepcopy_enough_fuel (h0 : gmap addr container) v s :
  ∃ v' s', Deepcopy.copy_value (S (size h0)) h0 v s = Some (v', s') ∧
           ∀ a, a ∈ dom s.1 → s'.1 !! a = s.1 !! a.
Proof.
  destruct (copy_value_well h0 (size h0) v s) as (v' & s' & H & _ & Hh).
  { rewrite <-size_dom. apply subseteq_size, subseteq_difference_l. done. }
  eauto.
Qed.

Lemma deepcopy_run_frame (h0 : gmap addr container) v s a :
  a ∈ dom s.1 → (Deepcopy.run h0 v s).2.1 !! a = s.1 !! a.
Proof.
  intros Ha. unfold Deepcopy.run.
  destruct (deepcopy_enough_fuel h0 v s) as (v' & s' & -> & Hh). simpl. auto.
Qed.

Lemma deepcopy_run_ref_frame (h0 : gmap addr container) r s a :
  a ∈ dom s.1 → (Deepcopy.run_ref h0 r s).2.1 !! a = s.1 !! a.
Proof.
  intros Ha. unfold Deepcopy.run_ref.
  pose proof (deepcopy_run_frame h0 (VRef r) s a Ha) as H.
  destruct (Deepcopy.run h0 (VRef r) s) as [[] s']; exact H.
Qed.

Lemma deepcopy_run_attrs_frame (h0 : gmap addr container) kvs s a :
  a ∈ dom s.1 → (Deepcopy.run_attrs h0 kvs s).2.1 !! a = s.1 !! a.
Proof.
  intros Ha. unfold Deepcopy.run_attrs.
  destruct (copy_entries_well h0 _ (size h0) kvs (copy_value_well h0 (size h0)) s)
    as (ys & s' & -> & _ & Hh).
  { rewrite <-size_dom. apply subseteq_size, subseteq_difference_l. done. }
  simpl. auto.
Qed.

(** A frame fact composes along a chain of copies. *)
Lemma frame_step (h1 h2 h3 : gmap addr container) :
  (∀ a, a ∈ dom h1 → h2 !! a = h1 !! a) →
  (∀ a, a ∈ dom h2 → h3 !! a = h2 !! a) →
  ∀ a, a ∈ dom h1 → h3 !! a = h1 !! a.
Proof.
  intros H12 H23 a Ha. rewrite H23, H12; [done..|].
  apply elem_of_dom. rewrite H12 by done. by apply elem_of_dom.
Qed.

Lemma deepcopy_specific_frame h0 sp s :
  ∀ a, a ∈ dom s.1 → (deepcopy_specific h0 sp s).2.1 !! a = s.1 !! a.
Proof.
  destruct sp as [x|x|x|x|x|cls attrs]; simpl.
  - pose proof (deepcopy_run_ref_frame h0 (ec2_security_groups x) s) as H.
    destruct (Deepcopy.run_ref h0 (ec2_security_groups x) s); exact H.
  - done.
  - pose proof (deepcopy_run_ref_frame h0 (alb_targets x) s) as H1.
    destruct (Deepcopy.run_ref h0 (alb_targets x) s) as [tg s1].
    pose proof (deepcopy_run_ref_frame h0 (alb_listeners x) s1) as H2.
    destruct (Deepcopy.run_ref h0 (alb_listeners x) s1) as [ls s2].
    simpl in *. by apply frame_step with s1.1.
  - pose proof (deepcopy_run_ref_frame h0 (s3_objects x) s) as H.
    destruct (Deepcopy.run_ref h0 (s3_objects x) s); exact H.
  - pose proof (deepcopy_run_ref_frame h0 (eni_security_groups x) s) as H.
    destruct (Deepcopy.run_ref h0 (eni_security_groups x) s); exact H.
  - pose proof (deepcopy_run_attrs_frame h0 attrs s) as H.
    destruct (Deepcopy.run_attrs h0 attrs s); exact H.
Qed.

(** The class of an instance survives [deepcopy]. *)
Lemma deepcopy_specific_class h0 sp s :
  same_class sp (deepcopy_specific h0 sp s).1.
Proof.
  destruct sp as [x|x|x|x|x|cls attrs]; cbn [deepcopy_specific];
    repeat (match goal with
            | |- context [Deepcopy.run_ref ?h ?a ?s] =>
                destruct (Deepcopy.run_ref h a s)
            | |- context [Deepcopy.run_attrs ?h ?a ?s] =>
                destruct (Deepcopy.run_attrs h a s)
            end); simpl; done.
Qed.

Lemma CloneableResource_clone_spec self st :
  is_Some (objects st !! self) →
  let c := fresh (dom (objects st)) in
  let r := deref st self in
  let w := world st in
  ∃ tg sp h',
    CloneableResource_clone self st =
      (c, {| world := {| uuid_src := uuid_src w; uuid_pos := S (S (uuid_pos w));
                         clock_src := clock_src w;
                         clock_pos := S (S (clock_pos w)) |};
             objects :=
               <[self := set_last_cloned_at (Some (clock_src w (S (clock_pos w))))
                           (set_clone_count (clone_count r + 1) r)]>
               (<[c := {| prototype_id := "proto-" +:+ uuid_src w (S (uuid_pos w));
                          is_prototype := false;
                          cloned_from := Some (prototype_id r);
                          clone_count := 0;
                          created_at := clock_src w (clock_pos w);
                          last_cloned_at := None;
                          resource_id :=
                            PyStr.split_head (resource_id r) +:+ "-" +:+
                            uuid_src w (uuid_pos w);
                          name := name r; region := region r;
                          status := status r; tags := tg; specific := sp |}]>
                  (objects st));
             cells := h';
             manager := manager st |}) ∧
    same_class (specific r) sp ∧
    ∀ a, a ∈ dom (cells st) → h' !! a = cells st !! a.
Proof.
  intros Hlive c r w.
  assert (Hc : c ≠ self).
  { intros Heq. apply elem_of_dom in Hlive. rewrite <-Heq in Hlive.
    exact (is_fresh _ Hlive). }
  unfold CloneableResource_clone, deepcopy_instance.
  pose proof (deepcopy_run_ref_frame (cells st) (tags (deref st self)) (cells st, ∅)) as F1.
  destruct (Deepcopy.run_ref (cells st) (tags (deref st self)) (cells st, ∅)) as [tg s1].
  pose proof (deepcopy_specific_frame (cells st) (specific (deref st self)) s1) as F2.
  pose proof (deepcopy_specific_class (cells st) (specific (deref st self)) s1) as F3.
  destruct (deepcopy_specific (cells st) (specific (deref st self)) s1) as [sp s2].
  exists tg, sp, s2.1. split; [|split; [exact F3|]].
  - subst r w. fold c. fold (deref st self). destruct st as [w o cl m].
    set (r := deref _ self). plumb.
    heap_simpl c self. reflexivity.
  - simpl in *. by apply frame_step with s1.1.
Qed.

Lemma clone_spec self st :
  is_Some (objects st !! self) →
  aws_class (deref st self) = true →
  let c := fresh (dom (objects st)) in
  let r := deref st self in
  let w := world st in
  let rid :=
    PyStr.split_head (resource_id r) +:+ "-" +:+ uuid_src w (uuid_pos w) in
  ∃ tg sp h',
    clone self st =
      Return c
         {| world := {| uuid_src := uuid_src w; uuid_pos := S (S (uuid_pos w));
                         clock_src := clock_src w;
                         clock_pos := S (S (clock_pos w)) |};
             objects :=
               <[self := set_last_cloned_at (Some (clock_src w (S (clock_pos w))))
                           (set_clone_count (clone_count r + 1) r)]>
               (<[c := {| prototype_id := "proto-" +:+ uuid_src w (S (uuid_pos w));
                          is_prototype := false;
                          cloned_from := Some (prototype_id r);
                          clone_count := 0;
                          created_at := clock_src w (clock_pos w);
                          last_cloned_at := None;
                          resource_id := rid;
                          name := name r; region := region r;
                          status := status r; tags := tg; specific := sp |}]>
                  (objects st));
             cells := h';
             manager := manager st |} ∧
    reset_policy r (cells st) rid sp h' ∧
    ∀ a, a ∈ dom (cells st) → h' !! a = cells st !! a.
Proof.
  intros Hlive Haws c r w rid.
  assert (Hc : c ≠ self).
  { intros Heq. apply elem_of_dom in Hlive. rewrite <-Heq in Hlive.
    exact (is_fresh _ Hlive). }
  assert (Hc' : self ≠ c) by done.
  destruct (CloneableResource_clone_spec self st Hlive)
    as (tg & sp & h' & Hbase & Hcls & Hfr).
  fold c r w in Hbase, Hcls. fold rid in Hbase.
  assert (Hnew : ∀ a, a ∈ dom (cells st) → a ∈ dom h').
  { intros a Ha. apply elem_of_dom. rewrite Hfr by done. by apply elem_of_dom. }
  assert (Hfresh : ∀ h : gmap addr container,
                     (∀ a, a ∈ dom (cells st) → a ∈ dom h) →
                        fresh (dom h) ∉ dom (cells st)).
  { intros h Hsub Hin. exact (is_fresh _ (Hsub _ Hin)). }
  assert (Hcopy : ∀ a, a ∈ dom (cells st) → Some (h' !!! a) = cells st !! a).
  { intros a Ha. rewrite <-Hfr by done. symmetry. apply lookup_lookup_total.
    apply elem_of_dom. by apply Hnew. }
  unfold clone, aws_class, reset_policy in *. fold r in Haws |- *.
  destruct (specific r) as [x|x|x|x|x|cls attrs] eqn:Hsp; [..|done];
    destruct sp as [y|y|y|y|y|cls' attrs']; try done.
  - unfold EC2Instance_clone. rewrite Hbase. clear Hbase.
    subst rid r w. unfold deref in *. destruct st as [w o cl m].
    cbn [world objects cells manager] in *. plumb. heap_simpl c self.
    source_class Hsp. heap_simpl c self.
    eexists _, _, _. split; [reflexivity|]. cbn [ec2_private_ip ec2_public_ip
      ec2_security_groups]. split.
    + split; [done|]. split; [done|]. split; [by apply Hfresh|].
      intros Hin. rewrite lookup_insert_eq. by apply Hcopy.
    + intros a Ha. rewrite lookup_insert_ne; [by apply Hfr|].
      intros <-. by apply (Hfresh h').
  - unfold RDSDatabase_clone. rewrite Hbase. clear Hbase.
    subst rid r w. unfold deref in *. destruct st as [w o cl m].
    cbn [world objects cells manager] in *. plumb. heap_simpl c self.
    eexists _, _, _. split; [reflexivity|]. split; done.
  - unfold ApplicationLoadBalancer_clone. rewrite Hbase. clear Hbase.
    subst rid r w. unfold deref in *. destruct st as [w o cl m].
    cbn [world objects cells manager] in *. plumb. heap_simpl c self.
    source_class Hsp. heap_simpl c self.
    eexists _, _, _. split; [reflexivity|].
    cbn [alb_targets alb_listeners alb_dns_name].
    set (t := fresh (dom h')).
    set (l := fresh (dom (<[t:=ListObj []]> h'))).
    assert (Ht : t ∉ dom cl) by (by apply Hfresh).
    assert (Hl : l ∉ dom cl).
    { apply Hfresh. intros a Ha. rewrite dom_insert_L. apply elem_of_union.
      right. by apply Hnew. }
    assert (Hlt : l ≠ t).
    { intros Heq. apply (is_fresh (dom (<[t:=ListObj []]> h'))). fold l.
      rewrite Heq, dom_insert_L. apply elem_of_union. left.
      by apply elem_of_singleton. }
    split.
    + split; [done|]. split; [by rewrite lookup_insert_ne, lookup_insert_eq|].
      split; [done|]. split; [|done].
      intros Hin. rewrite lookup_insert_eq.
      assert (alb_listeners x ≠ t) by (intros Heq; by rewrite Heq in Hin).
      rewrite lookup_total_insert_ne by done. by apply Hcopy.
    + intros a Ha. rewrite !lookup_insert_ne; [by apply Hfr|by intros <-..].
  - unfold S3Storage_clone. rewrite Hbase. clear Hbase.
    subst rid r w. unfold deref in *. destruct st as [w o cl m].
    cbn [world objects cells manager] in *. plumb. heap_simpl c self.
    eexists _, _, _. split; [reflexivity|]. cbn [s3_objects s3_bucket_name].
    split.
    + split; [by apply Hfresh|]. split; [by rewrite lookup_insert_eq|done].
    + intros a Ha. rewrite lookup_insert_ne; [by apply Hfr|].
      intros <-. by apply (Hfresh h').
  - unfold EC2NetworkInterface_clone. rewrite Hbase. clear Hbase.
    subst rid r w. unfold deref in *. destruct st as [w o cl m].
    cbn [world objects cells manager] in *. plumb. heap_simpl c self.
    source_class Hsp. heap_simpl c self.
    eexists _, _, _. split; [reflexivity|].
    cbn [eni_public_ip eni_security_groups]. split.
    + split; [done|]. split; [by apply Hfresh|].
      intros Hin. rewrite lookup_insert_eq. by apply Hcopy.
    + intros a Ha. rewrite lookup_insert_ne; [by apply Hfr|].
      intros <-. by apply (Hfresh h').
Qed.

(** ** The registry *)

Lemma untouched_refl st : registry_untouched st st.
Proof. by repeat split. Qed.

Lemma untouched_trans st1 st2 st3 :
  registry_untouched st1 st2 → registry_untouched st2 st3 →
  registry_untouched st1 st3.
Proof.
  intros (Hm & Hs & Hp) (Hm' & Hs' & Hp'). repeat split; try congruence. lia.
Qed.

Lemma CloneableResource_clone_untouched self st :
  registry_untouched st (CloneableResource_clone self st).2.
Proof.
  unfold CloneableResource_clone, deepcopy_instance.
  destruct (Deepcopy.run_ref _ _ _) as [tg s1].
  destruct (deepcopy_specific _ _ _) as [sp s2].
  repeat split; cbn; lia.
Qed.

Lemma clone_untouched self st :
  registry_untouched st (state_of (clone self st)).
Proof.
  unfold clone.
  pose proof (CloneableResource_clone_untouched self st) as Hb.
  destruct (specific (deref st self));
    [unfold EC2Instance_clone | unfold RDSDatabase_clone
    | unfold ApplicationLoadBalancer_clone | unfold S3Storage_clone
    | unfold EC2NetworkInterface_clone | apply untouched_refl];
    destruct (CloneableResource_clone self st) as [c stb]; simpl in Hb;
    cbn; repeat case_match; exact Hb.
Qed.

Lemma occurrences_app pid ids x :
  occurrences pid (ids ++ [x]) =
    (occurrences pid ids + if decide (x = pid) then 1 else 0)%nat.
Proof.
  unfold occurrences. rewrite filter_app, length_app. f_equal.
  rewrite filter_cons, filter_nil. by case_decide.
Qed.

Lemma occurrences_zero pid ids : pid ∉ ids → occurrences pid ids = 0%nat.
Proof.
  unfold occurrences. induction ids as [|x ids IH]; [done|].
  intros [? ?]%not_elem_of_cons. rewrite filter_cons, decide_False by done. auto.
Qed.

Lemma occurrences_elem pid ids : occurrences pid ids = 1%nat → pid ∈ ids.
Proof.
  intros H. destruct (decide (pid ∈ ids)) as [|Hn]; [done|].
  rewrite occurrences_zero in H by done. done.
Qed.

Lemma occurrences_filter_ne pid q ids :
  pid ≠ q → occurrences pid (filter (λ x, x ≠ q) ids) = occurrences pid ids.
Proof.
  intros Hne. unfold occurrences. induction ids as [|x ids IH]; [done|].
  rewrite !filter_cons. destruct (decide (x = pid)) as [->|].
  - rewrite decide_True by done. rewrite filter_cons, decide_True by done.
    simpl. by rewrite IH.
  - case_decide; [|done]. by rewrite filter_cons, decide_False.
Qed.

Lemma minted_mono w w' pid :
  uuid_src w' = uuid_src w → (uuid_pos w ≤ uuid_pos w')%nat →
  minted w pid → minted w' pid.
Proof.
  intros Hs Hp (i & Hi & ->). exists i. rewrite Hs. split; [lia|done].
Qed.

Lemma append_inv_head (p a b : string) : p +:+ a = p +:+ b → a = b.
Proof. induction p; simpl; [done|]. intros [= H]. auto. Qed.

Lemma not_minted_next w :
  uuid_unique w → ¬ minted w ("proto-" +:+ uuid_src w (uuid_pos w)).
Proof.
  intros Hu (i & Hi & Heq). apply append_inv_head, Hu in Heq. lia.
Qed.

Lemma register_prototype_spec prototype name description category tags st :
  let w := world st in
  let m := manager st in
  let pid := "proto-" +:+ uuid_src w (uuid_pos w) in
  let r := register_prototype prototype name description category tags st in
  r.1 = pid ∧
  uuid_src (world r.2) = uuid_src w ∧
  uuid_pos (world r.2) = S (uuid_pos w) ∧
  objects r.2 = objects (mark_as_prototype prototype (Some name) st) ∧
  ∃ md,
    PrototypeMetadata.category md = category ∧ PrototypeMetadata.usage_count md = 0 ∧
    _prototypes (manager r.2) = PyDict.set pid prototype (_prototypes m) ∧
    _metadata (manager r.2) = PyDict.set pid md (_metadata m) ∧
    ∀ c, PyDict.get c (_categories (manager r.2)) =
           if decide (c = category)
           then Some (default [] (PyDict.get category (_categories m)) ++ [pid])
           else PyDict.get c (_categories m).
Proof.
  intros w m pid r. subst r.
  assert (Hcats : ∀ c,
    let cats1 := if PyDict.mem category (_categories m) then _categories m
                 else PyDict.set category [] (_categories m) in
    PyDict.get c
      (PyDict.set category (default [] (PyDict.get category cats1) ++ [pid]) cats1) =
    if decide (c = category)
    then Some (default [] (PyDict.get category (_categories m)) ++ [pid])
    else PyDict.get c (_categories m)).
  { intros c. destruct (PyDict.mem category (_categories m)) eqn:Hmem; cbn.
    - case_decide as Hc; [subst c; by rewrite get_set_eq|by rewrite get_set_ne].
    - rewrite get_set_eq. simpl.
      assert (Hnone : PyDict.get category (_categories m) = None).
      { unfold PyDict.mem in Hmem. by destruct (PyDict.get category _). }
      rewrite Hnone. simpl.
      case_decide as Hc; [subst c; by rewrite get_set_eq|].
      by rewrite !get_set_ne. }
  unfold register_prototype, PrototypeMetadata_init, mark_as_prototype.
  cbn [uuid4_hex8].
  destruct (PyStr.truthy name);
    (destruct tags as [a|]; [destruct (container_truthy _)|]);
    cbn; fold w m pid;
    revert Hcats; destruct (PyDict.mem category (_categories m));
    intros Hcats; cbn in *;
    (do 4 (split; [done|]));
    (eexists; split; [|split; [|split; [reflexivity|split; [reflexivity|]]]];
       [done..|]);
    exact Hcats.
Qed.

Lemma inv_minted_key st pid :
  registry_inv st → pid ∈ PyDict.keys (_prototypes (manager st)) →
  minted (world st) pid.
Proof.
  intros Hinv Hin. rewrite <-(inv_keys _ Hinv) in Hin.
  apply get_is_Some in Hin as [md Hmd].
  destruct (inv_listed _ Hinv pid md Hmd) as (ids & Hids & Hocc).
  eapply inv_minted; [done..|]. by apply occurrences_elem.
Qed.

Lemma inv_initial w o c : uuid_unique w → registry_inv (initial w o c).
Proof.
  intros Hu. split; simpl; try done.
  apply NoDup_nil_2.
Qed.

Lemma inv_register prototype name description category tags st :
  registry_inv st →
  registry_inv (register_prototype prototype name description category tags st).2.
Proof.
  intros Hinv.
  destruct (register_prototype_spec prototype name description category tags st)
    as (_ & Hsrc & Hpos & _ & md & Hcat & _ & Hprotos & Hmeta & Hcats).
  set (st' := (register_prototype prototype name description category tags st).2) in *.
  set (pid := "proto-" +:+ uuid_src (world st) (uuid_pos (world st))) in *.
  pose proof (not_minted_next _ (inv_unique _ Hinv)) as Hfresh. fold pid in Hfresh.
  assert (Hnew : pid ∉ PyDict.keys (_prototypes (manager st))).
  { intros Hin. by apply Hfresh, inv_minted_key. }
  assert (Hold : ∀ q, minted (world st) q → minted (world st') q).
  { intros q. apply minted_mono; [done|lia]. }
  assert (Hpid : minted (world st') pid).
  { exists (uuid_pos (world st)). rewrite Hsrc. split; [lia|done]. }
  assert (Hnot_listed : ∀ c ids,
            PyDict.get c (_categories (manager st)) = Some ids → pid ∉ ids).
  { intros c ids Hget Hin. apply Hfresh. by eapply inv_minted. }
  split.
  - intros i j. rewrite Hsrc. apply (inv_unique _ Hinv).
  - rewrite Hprotos, keys_set_new by done. apply NoDup_app.
    split; [apply (inv_nodup _ Hinv)|]. split; [|apply NoDup_singleton].
    intros x Hx Hx'%list_elem_of_singleton. by subst x.
  - rewrite Hprotos, Hmeta, !keys_set_new; [by rewrite (inv_keys _ Hinv)|done|].
    by rewrite (inv_keys _ Hinv).
  - intros c ids q. rewrite Hcats. case_decide as Hc.
    + intros [= <-] [Hin|Hin%list_elem_of_singleton]%elem_of_app;
        [|by subst q].
      apply Hold. destruct (PyDict.get category _) as [ids0|] eqn:Hget;
        [|by apply elem_of_nil in Hin].
      by eapply inv_minted.
    + intros Hget Hin. apply Hold. by eapply inv_minted.
  - intros q mdq. rewrite Hmeta. destruct (decide (pid = q)) as [<-|Hne].
    + rewrite get_set_eq. intros [= <-]. rewrite Hcats, Hcat, decide_True by done.
      eexists. split; [done|]. rewrite occurrences_app, decide_True by done.
      rewrite occurrences_zero; [done|].
      destruct (PyDict.get category _) as [ids0|] eqn:Hget;
        [by eapply Hnot_listed|apply not_elem_of_nil].
    + rewrite get_set_ne by done. intros Hq.
      destruct (inv_listed _ Hinv q mdq Hq) as (ids & Hids & Hocc).
      rewrite Hcats. case_decide as Hc.
      * rewrite <-Hc, Hids. eexists. split; [done|].
        rewrite occurrences_app, decide_False by done. simpl. lia.
      * eauto.
  - intros q mdq c ids. rewrite Hmeta, Hcats.
    destruct (decide (pid = q)) as [<-|Hne].
    + rewrite get_set_eq. intros [= <-]. rewrite Hcat. case_decide as Hc; [done|].
      intros Hget Hin. by eapply Hnot_listed in Hin.
    + rewrite get_set_ne by done. intros Hq. case_decide as Hc.
      * intros [= <-] [Hin|Hin%list_elem_of_singleton]%elem_of_app; [|done].
        destruct (PyDict.get category _) as [ids0|] eqn:Hget;
          [|by apply elem_of_nil in Hin].
        subst c. by eapply inv_single.
      * intros Hget Hin. by eapply inv_single.
Qed.

Lemma clone_prototype_manager pid new_name st :
  let st' := state_of (clone_prototype pid new_name st) in
  uuid_src (world st') = uuid_src (world st) ∧
  (uuid_pos (world st) ≤ uuid_pos (world st'))%nat ∧
  (manager st' = manager st ∨
   ∃ md, PyDict.get pid (_metadata (manager st)) = Some md ∧
         manager st' =
           set_metadata
             (PyDict.set pid (PrototypeMetadata.set_usage_count (PrototypeMetadata.usage_count md + 1) md)
                (_metadata (manager st))) (manager st)).
Proof.
  unfold clone_prototype.
  destruct (get_prototype pid st) as [p|]; [|by repeat split; auto].
  destruct (negb (can_be_cloned (deref st p))); [by repeat split; auto|].
  pose proof (clone_untouched p st) as (Hm & Hs & Hp).
  destruct (clone p st) as [c st1|e st1]; cbn [state_of] in *;
    [|by repeat split; auto].
  destruct new_name as [n|]; [destruct (PyStr.truthy n)|]; cbn;
    rewrite ?Hm;
    (destruct (PyDict.get pid (_metadata (manager st))) as [md|] eqn:Hmd;
     cbn; rewrite ?Hm; repeat split; eauto).
Qed.

Lemma inv_clone pid new_name st :
  registry_inv st → registry_inv (state_of (clone_prototype pid new_name st)).
Proof.
  intros Hinv.
  destruct (clone_prototype_manager pid new_name st) as (Hsrc & Hpos & Hman).
  set (st' := state_of (clone_prototype pid new_name st)) in *.
  assert (Hold : ∀ q, minted (world st) q → minted (world st') q).
  { intros q. by apply minted_mono. }
  destruct Hman as [Hman|(md & Hmd & Hman)].
  - destruct Hinv. split; rewrite ?Hman; try done.
    + intros i j. rewrite Hsrc. auto.
    + intros c ids q ??. apply Hold. eauto.
  - assert (Hkey : pid ∈ PyDict.keys (_metadata (manager st))).
    { apply get_is_Some. eauto. }
    destruct Hinv. split; rewrite ?Hman; simpl.
    + intros i j. rewrite Hsrc. auto.
    + done.
    + by rewrite keys_set_old.
    + intros c ids q ??. apply Hold. eauto.
    + intros q mdq. destruct (decide (pid = q)) as [<-|Hne].
      * rewrite get_set_eq. intros [= <-]. simpl. eauto.
      * rewrite get_set_ne by done. eauto.
    + intros q mdq c ids. destruct (decide (pid = q)) as [<-|Hne].
      * rewrite get_set_eq. intros [= <-]. simpl. eauto.
      * rewrite get_set_ne by done. eauto.
Qed.

Lemma list_remove_first_subset k l x :
  x ∈ list_remove_first k l → x ∈ l.
Proof.
  induction l as [|y l IH]; simpl; [done|].
  case_decide; [by right|]. intros [->|?]%elem_of_cons; [left|right; auto].
Qed.

Lemma list_remove_first_NoDup k l :
  NoDup l → NoDup (list_remove_first k l).
Proof.
  induction 1 as [|y l Hy Hl IH]; simpl; [apply NoDup_nil_2|].
  case_decide; [done|]. apply NoDup_cons. split; [|done].
  intros Hin. by apply Hy, (list_remove_first_subset k).
Qed.

Lemma remove_prototype_spec pid st :
  registry_inv st →
  PyDict.mem pid (_prototypes (manager st)) = true →
  ∃ md ids,
    PyDict.get pid (_metadata (manager st)) = Some md ∧
    PyDict.get (PrototypeMetadata.category md) (_categories (manager st)) = Some ids ∧
    remove_prototype pid st =
      (true,
       set_manager
         {| _prototypes := PyDict.del pid (_prototypes (manager st));
            _metadata := PyDict.del pid (_metadata (manager st));
            _categories :=
              PyDict.set (PrototypeMetadata.category md) (filter (λ x, x ≠ pid) ids)
                (_categories (manager st)) |} st).
Proof.
  intros Hinv Hmem. pose proof Hmem as Hkey.
  apply mem_true in Hkey. rewrite <-(inv_keys _ Hinv) in Hkey.
  pose proof Hkey as Hmem'. apply mem_true in Hmem'.
  apply get_is_Some in Hkey as [md Hmd].
  destruct (inv_listed _ Hinv pid md Hmd) as (ids & Hids & _).
  exists md, ids. split; [done|]. split; [done|].
  unfold remove_prototype. rewrite Hmem, Hmd, Hids. cbn. by rewrite Hmem'.
Qed.

Lemma inv_remove pid st :
  registry_inv st → registry_inv (remove_prototype pid st).2.
Proof.
  intros Hinv.
  destruct (PyDict.mem pid (_prototypes (manager st))) eqn:Hmem.
  2:{ unfold remove_prototype. by rewrite Hmem. }
  destruct (remove_prototype_spec pid st Hinv Hmem) as (md & ids & Hmd & Hids & ->).
  assert (Hnd : NoDup (PyDict.keys (_metadata (manager st)))).
  { rewrite (inv_keys _ Hinv). apply (inv_nodup _ Hinv). }
  assert (Hgone : ∀ q mdq,
            PyDict.get q (PyDict.del pid (_metadata (manager st))) = Some mdq →
            q ≠ pid ∧ PyDict.get q (_metadata (manager st)) = Some mdq).
  { intros q mdq Hq. destruct (decide (pid = q)) as [<-|Hne].
    - by rewrite get_del_eq in Hq.
    - by rewrite get_del_ne in Hq. }
  split; simpl.
  - apply (inv_unique _ Hinv).
  - rewrite keys_del. apply list_remove_first_NoDup, (inv_nodup _ Hinv).
  - by rewrite !keys_del, (inv_keys _ Hinv).
  - intros c ids' q. destruct (decide (PrototypeMetadata.category md = c)) as [<-|Hne].
    + rewrite get_set_eq. intros [= <-] [_ Hin]%list_elem_of_filter.
      by eapply inv_minted.
    + rewrite get_set_ne by done. apply (inv_minted _ Hinv).
  - intros q mdq [Hq Hget]%Hgone.
    destruct (inv_listed _ Hinv q mdq Hget) as (idsq & Hidsq & Hocc).
    destruct (decide (PrototypeMetadata.category md = PrototypeMetadata.category mdq)) as [Heq|Hne].
    + rewrite <-Heq, get_set_eq. eexists. split; [done|].
      rewrite occurrences_filter_ne by done. congruence.
    + rewrite get_set_ne by done. eauto.
  - intros q mdq c ids' [Hq Hget]%Hgone.
    destruct (decide (PrototypeMetadata.category md = c)) as [<-|Hne].
    + rewrite get_set_eq. intros [= <-] [_ Hin]%list_elem_of_filter.
      by eapply inv_single.
    + rewrite get_set_ne by done. by apply (inv_single _ Hinv).
Qed.

Lemma inv_step st o : registry_inv st → registry_inv (step st o).
Proof.
  destruct o; simpl; [apply inv_register|apply inv_clone|apply inv_remove].
Qed.

Lemma inv_run ops st : registry_inv st → registry_inv (run ops st).
Proof.
  unfold run. revert st. induction ops as [|o ops IH]; intros st Hinv; simpl;
    [done|]. by apply IH, inv_step.
Qed.

Lemma inv_consistent st : registry_inv st → registry_consistent (manager st).
Proof.
  intros Hinv pid Hkey. rewrite <-(inv_keys _ Hinv) in Hkey.
  apply get_is_Some in Hkey as [md Hmd]. split; [by eexists|].
  destruct (inv_listed _ Hinv pid md Hmd) as (ids & Hids & Hocc).
  exists (PrototypeMetadata.category md), ids. repeat split; [done..|].
  intros c' ids'. by apply (inv_single _ Hinv).
Qed.


(** ** Statistics *)

Lemma py_sum_from a xs : foldl Z.add a xs = a + sum_list xs.
Proof.
  revert a. induction xs as [|x xs IH]; intros a; simpl; [lia|].
  rewrite IH. lia.
Qed.

Lemma py_sum_sum_list xs : py_sum xs = sum_list xs.
Proof. unfold py_sum. by rewrite py_sum_from. Qed.

Lemma most_used_loop items :
  most_used_inv items (foldl most_used_step (None, 0) items).
Proof.
  induction items as [|[pid md] items IH] using rev_ind.
  - simpl. repeat split; [done|]. intros j item Hj. by rewrite lookup_nil in Hj.
  - rewrite foldl_app. cbn [foldl].
    destruct (foldl most_used_step (None, 0) items) as [mu mx].
    destruct IH as (Hpos & Hbound & Hmu). unfold most_used_step.
    cbn [fst snd] in *.
    assert (Hlook : ∀ j item,
              (items ++ [(pid, md)]) !! j = Some item →
              items !! j = Some item ∨ (j = length items ∧ item = (pid, md))).
    { intros j item Hj. apply lookup_app_Some in Hj as [?|[? Hj]]; [by left|].
      right. apply list_lookup_singleton_Some in Hj as [? ?]. split; [lia|done]. }
    destruct (Z.gtb_spec (PrototypeMetadata.usage_count md) mx) as [Hgt|Hle];
      unfold most_used_inv; cbn [fst snd mu_prototype_id mu_name mu_usage_count].
    + split; [lia|]. split.
      * intros j item [Hj|[_ ->]]%Hlook; [|done].
        apply Hbound in Hj. lia.
      * split; [lia|]. exists (length items), md. repeat split.
        -- by rewrite lookup_app_r, Nat.sub_diag.
        -- intros j item [Hj|[_ ->]]%Hlook; [|done]. apply Hbound in Hj. lia.
        -- intros j item Hlt [Hj|[-> _]]%Hlook; [|lia]. apply Hbound in Hj. lia.
    + split; [done|]. split.
      * intros j item [Hj|[_ ->]]%Hlook; [by eapply Hbound|done].
      * destruct mu as [mu|]; [|done].
        destruct Hmu as (Hmx & i & mdi & (Hi & Hall & Hbefore) & Hname & Husage & Heq).
        split; [done|]. exists i, mdi. repeat split; try done.
        -- by apply lookup_app_l_Some.
        -- intros j item [Hj|[_ ->]]%Hlook; [by eapply Hall|simpl; lia].
        -- intros j item Hlt [Hj|[-> _]]%Hlook; [by eapply Hbefore|].
           apply lookup_lt_Some in Hi. lia.
Qed.


(** ** Cloning *)

Lemma append_assoc (a b c : string) : (a +:+ b) +:+ c = a +:+ b +:+ c.
Proof.
  induction a as [|x a IH]; [done|].
  change (String x ((a +:+ b) +:+ c) = String x (a +:+ b +:+ c)).
  by rewrite IH.
Qed.

Lemma clone_Return_aws self st c st' :
  clone self st = Return c st' → aws_class (deref st self) = true.
Proof.
  unfold clone, aws_class. by destruct (specific (deref st self)).
Qed.


Lemma mark_as_prototype_deref prototype n st :
  let st1 := mark_as_prototype prototype (Some n) st in
  let r := deref st prototype in
  let r1 := deref st1 prototype in
  dom (objects st) ⊆ dom (objects st1) ∧
  is_Some (objects st1 !! prototype) ∧
  status r1 = status r ∧ specific r1 = specific r ∧
  prototype_id r1 = prototype_id r ∧ resource_id r1 = resource_id r.
Proof.
  unfold mark_as_prototype, modify, deref.
  destruct (PyStr.truthy n); cbn [objects set_heap_objects];
    rewrite ?lookup_total_insert_eq, ?dom_insert_L, ?lookup_insert_eq;
    (split; [set_solver|]); (split; [by eexists|]); done.
Qed.


(** Every GCP and on-premise [clone] raises before it reads or writes. *)
Lemma config_clone_raises (st : State) (self : addr) cls attrs :
  specific (deref st self) = ConfigResource cls attrs →
  clone self st =
    Raise (no_attribute (class_name cls) "_prepare_for_cloning") st.
Proof. intros H. unfold clone. by rewrite H. Qed.

(** ** Every AWS clone returns, and applies its resets *)

Lemma aws_clone_returns (st : State) (self : addr) :
  is_Some (objects st !! self) →
  aws_class (deref st self) = true →
  ∃ c st', clone self st = Return c st'.
Proof.
  intros Hlive Haws.
  destruct (clone_spec self st Hlive Haws) as (tg & sp & h' & Heq & _).
  eauto.
Qed.

(** Whenever [clone] returns, the class attributes of the clone and the
    containers they point to are related to the source's by the reset
    policy of its class: addresses are cleared or recomputed, targets and
    stored objects start empty in a new container, and security groups are
    a new list with the source's elements.  For a load balancer the new
    listener list holds the very slots of the source's list, that is,
    references to the same dicts. *)
Lemma aws_clone_applies_reset_policy (st : State) (self c : addr)
    (st' : State) :
  is_Some (objects st !! self) →
  clone self st = Return c st' →
  reset_policy (deref st self) (cells st) (resource_id (deref st' c))
    (specific (deref st' c)) (cells st').
Proof.
  intros Hlive Hclone.
  destruct (clone_spec self st Hlive (clone_Return_aws _ _ _ _ Hclone))
    as (tg & sp & h' & Heq & Hpolicy & _).
  rewrite Heq in Hclone. injection Hclone as <- <-.
  assert (Hc : fresh (dom (objects st)) ≠ self).
  { intros Hx. apply elem_of_dom in Hlive. rewrite <-Hx in Hlive.
    exact (is_fresh _ Hlive). }
  unfold deref in *. cbn [objects cells].
  rewrite !(lookup_total_insert_ne _ self) by done.
  rewrite !lookup_total_insert_eq. exact Hpolicy.
Qed.

(** ** Evaluating the generator of the scenarios *)

Lemma length_append (p t : string) :
  String.length (p +:+ t) = (String.length p + String.length t)%nat.
Proof.
  induction p as [|x p IH]; [done|].
  change (S (String.length (p +:+ t)) = S (String.length p + String.length t)).
  by rewrite IH.
Qed.

Lemma drop_append (p t : string) : PyStr.drop (String.length p) (p +:+ t) = t.
Proof. induction p as [|x p IH]; [done|]. exact IH. Qed.

(** An identifier no suffix of which is a token yet to come is unused. *)
Lemma unused_by_suffix (w : World) (id : string) :
  (∀ k, (uuid_pos w ≤ k)%nat →
        PyStr.drop (String.length id - String.length (uuid_src w k)) id ≠
        uuid_src w k) →
  uuid_unused w id.
Proof.
  intros H k p Hk Heq. apply (H k Hk). rewrite Heq at 1 2.
  rewrite length_append, Nat.add_sub. apply drop_append.
Qed.

Lemma scenario_unused_resource_id :
  uuid_unused Scenario.world0 "i-abc123".
Proof.
  apply unused_by_suffix. intros k _.
  do 4 (destruct k as [|k]; [vm_compute; discriminate|]).
  vm_compute; discriminate.
Qed.

Lemma scenario_unused_prototype_id :
  uuid_unused Scenario.world0 "proto-0badf00d".
Proof.
  apply unused_by_suffix. intros k _.
  do 4 (destruct k as [|k]; [vm_compute; discriminate|]).
  vm_compute; discriminate.
Qed.

Lemma scenario_clock_monotone (w : World) :
  clock_src w = Scenario.clock → clock_monotone w.
Proof. intros H i j Hij. rewrite H. unfold Scenario.clock. lia. Qed.

(** * The claims *)

(** ** C1: registering a resource and cloning it through the registry *)




(** ** C2: cloning a resource that is being deleted or is in error *)

(** C2, as the code has it.  For a registered prototype whose status is
    [deleting] or [error], [clone_prototype] returns [None] and the state it
    leaves is the state it found: in particular the source's [clone_count]
    and [last_cloned_at] are unchanged. *)
Theorem clone_prototype_refuses_unstable (st : State) (prototype_id : string)
    (new_name : option string) (prototype : addr) :
  get_prototype prototype_id st = Some prototype →
  status (deref st prototype) = DELETING ∨ status (deref st prototype) = ERROR →
  let out := clone_prototype prototype_id new_name st in
  out = Return None st ∧
  clone_count (deref (state_of out) prototype) =
    clone_count (deref st prototype) ∧
  last_cloned_at (deref (state_of out) prototype) =
    last_cloned_at (deref st prototype).
Proof.
  intros Hget Hstatus out.
  assert (Hout : out = Return None st).
  { subst out. unfold clone_prototype, can_be_cloned. rewrite Hget.
    by destruct Hstatus as [-> | ->]. }
  by rewrite Hout.
Qed.

Lemma clone_prototype_refuses_unstable_witness :
  get_prototype "proto-1a2b3c4d" (Scenario.registered DELETING).2 = Some 0%nat ∧
  (status (deref (Scenario.registered DELETING).2 0%nat) = DELETING ∨
   status (deref (Scenario.registered DELETING).2 0%nat) = ERROR) ∧
  clone_prototype "proto-1a2b3c4d" (Some "web-prod-01")
    (Scenario.registered DELETING).2 =
    Return None (Scenario.registered DELETING).2.
Proof.
  assert (Hget : get_prototype "proto-1a2b3c4d"
                   (Scenario.registered DELETING).2 = Some 0%nat)
    by (vm_compute; reflexivity).
  assert (Hst : status (deref (Scenario.registered DELETING).2 0%nat) = DELETING
              ∨ status (deref (Scenario.registered DELETING).2 0%nat) = ERROR)
    by (left; vm_compute; reflexivity).
  exact (conj Hget (conj Hst
           (proj1 (clone_prototype_refuses_unstable
                     (Scenario.registered DELETING).2 "proto-1a2b3c4d"
                     (Some "web-prod-01") 0%nat Hget Hst)))).
Defined.

(** C2, as stated, fails on [clone] itself, which has no status check: the
    instance [i-abc123] in state [deleting] is cloned without an error, and
    the source's [clone_count] and [last_cloned_at] change. *)
Lemma clone_of_deleting_resource_succeeds :
  status (deref (Scenario.with_web DELETING) 0%nat) = DELETING ∧
  Scenario.deleting_clone =
    Return 1%nat (state_of Scenario.deleting_clone) ∧
  clone_count (deref (Scenario.with_web DELETING) 0%nat) = 0 ∧
  clone_count (deref (state_of Scenario.deleting_clone) 0%nat) = 1 ∧
  last_cloned_at (deref (Scenario.with_web DELETING) 0%nat) = None ∧
  last_cloned_at (deref (state_of Scenario.deleting_clone) 0%nat) = Some 6.
Proof. evaluate. Qed.

(** ** C3: telling an unknown id from a prototype that cannot be cloned *)

(** C3, as the code has it.  When the id is unknown, and when it is known
    but the prototype cannot be cloned, [clone_prototype] returns the same
    value, [None], and leaves the state as it was; the clone endpoint then
    answers with status 404 and the same detail in both cases. *)
Theorem clone_failures_share_one_signal (st : State) (prototype_id : string)
    (new_name : option string) :
  get_prototype prototype_id st = None ∨
  (∃ prototype, get_prototype prototype_id st = Some prototype ∧
                can_be_cloned (deref st prototype) = false) →
  clone_prototype prototype_id new_name st = Return None st ∧
  ∀ (Obj : Type) (of_resource : addr → Obj) (repo : VMRepository Obj)
    (custom_tags : option (list (string * string))),
    clone_prototype_endpoint of_resource prototype_id
      {| req_prototype_id := prototype_id; req_new_name := new_name;
         req_custom_tags := custom_tags |} (st, repo) =
    ({| status_code := 404;
        detail := "Prototype with ID " +:+ prototype_id +:+
                  " not found or cannot be cloned";
        cloned_resource := None |}, (st, repo)).
Proof.
  intros Hfail.
  assert (Hnone : clone_prototype prototype_id new_name st = Return None st).
  { unfold clone_prototype.
    destruct Hfail as [-> | (prototype & -> & ->)]; done. }
  split; [done|]. intros Obj of_resource repo custom_tags.
  unfold clone_prototype_endpoint. cbn [req_prototype_id req_new_name].
  rewrite bool_decide_eq_false_2 by (by intros ?). by rewrite Hnone.
Qed.

Lemma clone_failures_share_one_signal_witness :
  (get_prototype "proto-1a2b3c4d" (Scenario.registered ERROR).2 = None ∨
   ∃ prototype,
     get_prototype "proto-1a2b3c4d" (Scenario.registered ERROR).2 =
       Some prototype ∧
     can_be_cloned (deref (Scenario.registered ERROR).2 prototype) = false) ∧
  clone_prototype "proto-1a2b3c4d" None (Scenario.registered ERROR).2 =
    Return None (Scenario.registered ERROR).2.
Proof.
  assert (Hfail :
    get_prototype "proto-1a2b3c4d" (Scenario.registered ERROR).2 = None ∨
    ∃ prototype,
      get_prototype "proto-1a2b3c4d" (Scenario.registered ERROR).2 =
        Some prototype ∧
      can_be_cloned (deref (Scenario.registered ERROR).2 prototype) = false).
  { right. exists 0%nat. split; vm_compute; reflexivity. }
  exact (conj Hfail
           (proj1 (clone_failures_share_one_signal
                     (Scenario.registered ERROR).2 "proto-1a2b3c4d" None Hfail))).
Defined.

(** C3, as stated, fails: with [proto-1a2b3c4d] registered and in state
    [error] and [proto-ffffffff] unknown, the manager returns the same
    outcome for both ids and the endpoint the same status. *)
Lemma absent_and_unstable_are_indistinguishable :
  get_prototype "proto-1a2b3c4d" (Scenario.registered ERROR).2 = Some 0%nat ∧
  can_be_cloned (deref (Scenario.registered ERROR).2 0%nat) = false ∧
  get_prototype "proto-ffffffff" (Scenario.registered ERROR).2 = None ∧
  clone_prototype "proto-1a2b3c4d" None (Scenario.registered ERROR).2 =
    clone_prototype "proto-ffffffff" None (Scenario.registered ERROR).2 ∧
  Scenario.ask "proto-1a2b3c4d" =
    {| status_code := 404;
       detail := "Prototype with ID proto-1a2b3c4d not found or cannot be cloned";
       cloned_resource := None |} ∧
  Scenario.ask "proto-ffffffff" =
    {| status_code := 404;
       detail := "Prototype with ID proto-ffffffff not found or cannot be cloned";
       cloned_resource := None |}.
Proof. evaluate. Qed.

(** ** C4: what the clone operation resets on the copy *)

(** C4, as the code has it.  The clone operation on a live resource of an
    AWS class returns, whatever the state of the resource.  The clone is a
    new object; its resource id is the source's prefix, a dash and the
    token [uuid4] hands out, its prototype id is ["proto-"] and the next
    token; [is_prototype] is false, [cloned_from] is the source's own
    [prototype_id], [clone_count] is 0, [created_at] is the reading of the
    clock at the call and [last_cloned_at] is unset.  Each of the two ids
    differs from the source's unless the token drawn for it is the end of
    the source's id: the code does not look for a collision. *)
Theorem clone_resets_identity_and_lineage (st : State) (self : addr) :
  is_Some (objects st !! self) →
  aws_class (deref st self) = true →
  let r := deref st self in
  let w := world st in
  ∃ c st',
    clone self st = Return c st' ∧
    (c ∉ dom (objects st)) ∧
    resource_id (deref st' c) =
      PyStr.split_head (resource_id r) +:+ "-" +:+ uuid_src w (uuid_pos w) ∧
    prototype_id (deref st' c) = "proto-" +:+ uuid_src w (S (uuid_pos w)) ∧
    ((∀ p, resource_id r ≠ p +:+ uuid_src w (uuid_pos w)) →
     resource_id (deref st' c) ≠ resource_id r) ∧
    ((∀ p, prototype_id r ≠ p +:+ uuid_src w (S (uuid_pos w))) →
     prototype_id (deref st' c) ≠ prototype_id r) ∧
    is_prototype (deref st' c) = false ∧
    cloned_from (deref st' c) = Some (prototype_id r) ∧
    clone_count (deref st' c) = 0 ∧
    created_at (deref st' c) = clock_src w (clock_pos w) ∧
    last_cloned_at (deref st' c) = None.
Proof.
  intros Hlive Haws r w.
  destruct (clone_spec self st Hlive Haws) as (tg & sp & h' & Heq & _ & _).
  eexists _, _. split; [exact Heq|].
  assert (Hc : fresh (dom (objects st)) ≠ self).
  { intros Hx. apply elem_of_dom in Hlive. rewrite <-Hx in Hlive.
    exact (is_fresh _ Hlive). }
  unfold deref. cbn [objects].
  rewrite !(lookup_total_insert_ne _ self) by done.
  rewrite !lookup_total_insert_eq.
  cbn [prototype_id is_prototype cloned_from clone_count created_at
       last_cloned_at resource_id].
  change (objects st !!! self) with r. fold w.
  split; [apply is_fresh|]. split; [done|]. split; [done|].
  split.
  { intros Hrid Heq'.
    apply (Hrid (PyStr.split_head (resource_id r) +:+ "-")).
    by rewrite append_assoc. }
  split; [|done].
  intros Hpid Heq'. by apply (Hpid "proto-").
Qed.

Lemma clone_resets_identity_and_lineage_witness :
  is_Some (objects (Scenario.with_web RUNNING) !! 0%nat) ∧
  aws_class (deref (Scenario.with_web RUNNING) 0%nat) = true ∧
  ∃ c st',
    clone 0%nat (Scenario.with_web RUNNING) = Return c st' ∧
    resource_id (deref st' c) = "i" +:+ "-" +:+ "1a2b3c4d" ∧
    prototype_id (deref st' c) = "proto-" +:+ "5e6f7a8b" ∧
    resource_id (deref st' c) ≠ "i-abc123" ∧
    prototype_id (deref st' c) ≠ "proto-0badf00d" ∧
    cloned_from (deref st' c) = Some "proto-0badf00d".
Proof.
  assert (Hlive : is_Some (objects (Scenario.with_web RUNNING) !! 0%nat))
    by (vm_compute; eauto).
  assert (Haws : aws_class (deref (Scenario.with_web RUNNING) 0%nat) = true)
    by (vm_compute; reflexivity).
  destruct (clone_resets_identity_and_lineage (Scenario.with_web RUNNING)
              0%nat Hlive Haws)
    as (c & st' & Hclone & _ & Hrid & Hpid & Hne & Hne' & _ & Hfrom & _).
  split; [exact Hlive|]. split; [exact Haws|].
  exists c, st'. split; [exact Hclone|]. split; [exact Hrid|].
  split; [exact Hpid|]. split; [|split; [|exact Hfrom]].
  - apply Hne. intros p Heq.
    exact (scenario_unused_resource_id 0%nat p (Nat.le_refl _) Heq).
  - apply Hne'. intros p Heq.
    exact (scenario_unused_prototype_id 1%nat p (Nat.le_succ_diag_r _) Heq).
Defined.

(** C4 as the specification words it fails twice.  [uuid4().hex[:8]] is
    32 random bits and [clone] does not compare the result with anything:
    when the two tokens drawn are the ends of the source's ids, the clone
    of a running EC2 instance carries the resource id and the prototype id
    of its source.  And a running Compute Engine instance, which is
    cloneable, has no clone at all. *)
Theorem clone_can_repeat_the_ids_of_its_source :
  can_be_cloned (deref Unlucky.with_twin 0%nat) = true ∧
  clone 0%nat Unlucky.with_twin = Return 1%nat Unlucky.twin_cloned ∧
  resource_id (deref Unlucky.twin_cloned 1%nat) =
    resource_id (deref Unlucky.with_twin 0%nat) ∧
  prototype_id (deref Unlucky.twin_cloned 1%nat) =
    prototype_id (deref Unlucky.with_twin 0%nat) ∧
  can_be_cloned (deref Scenario.with_gce 0%nat) = true ∧
  clone 0%nat Scenario.with_gce =
    Raise (AttributeError
             "'ComputeEngineInstance' object has no attribute '_prepare_for_cloning'")
      Scenario.with_gce.
Proof. evaluate. Qed.

(** ** C5: what the clone operation updates on the source *)

(** C5, as the code has it.  The clone operation on a live resource of an
    AWS class returns.  Whenever it returns, the source's [clone_count] has
    grown by exactly 1 and its [last_cloned_at] is the reading the clock
    gives during the call; the clone is another object, with [clone_count]
    0 and [last_cloned_at] unset, and no third object has changed.  The new
    [last_cloned_at] is not before the previous one when the previous one
    was read from the clock and the clock does not run backwards: the code
    stores [datetime.now()] and compares nothing. *)
Theorem clone_counts_on_the_source_only (st : State) (self : addr) :
  is_Some (objects st !! self) →
  let w := world st in
  let t' := clock_src w (S (clock_pos w)) in
  (aws_class (deref st self) = true → ∃ c st', clone self st = Return c st') ∧
  ∀ c st', clone self st = Return c st' →
    clone_count (deref st' self) = clone_count (deref st self) + 1 ∧
    last_cloned_at (deref st' self) = Some t' ∧
    (clock_monotone w →
     ∀ t, last_cloned_at (deref st self) = Some t → read_earlier w t → t ≤ t') ∧
    c ≠ self ∧
    clone_count (deref st' c) = 0 ∧
    last_cloned_at (deref st' c) = None ∧
    ∀ a, a ≠ self → a ≠ c → objects st' !! a = objects st !! a.
Proof.
  intros Hlive w t'. split; [by apply aws_clone_returns|].
  intros c st' Hclone.
  destruct (clone_spec self st Hlive (clone_Return_aws _ _ _ _ Hclone))
    as (tg & sp & h' & Heq & _ & _).
  rewrite Heq in Hclone. injection Hclone as <- <-.
  assert (Hc : fresh (dom (objects st)) ≠ self).
  { intros Hx. apply elem_of_dom in Hlive. rewrite <-Hx in Hlive.
    exact (is_fresh _ Hlive). }
  unfold deref. cbn [objects].
  rewrite !lookup_total_insert_eq.
  rewrite !(lookup_total_insert_ne _ self) by done.
  rewrite !lookup_total_insert_eq.
  cbn [clone_count last_cloned_at set_last_cloned_at set_clone_count].
  split; [done|]. split; [done|].
  split; [|split; [done|split; [done|split; [done|]]]].
  - intros Hmono t _ (i & Hi & ->). apply Hmono. lia.
  - intros a ? ?. by rewrite !lookup_insert_ne.
Qed.

Lemma clone_counts_on_the_source_only_witness :
  is_Some (objects Scenario.cloned_once !! 0%nat) ∧
  clone 0%nat Scenario.cloned_once = Return 2%nat Scenario.cloned_twice ∧
  clone_count (deref Scenario.cloned_once 0%nat) = 1 ∧
  clone_count (deref Scenario.cloned_twice 0%nat) = 1 + 1 ∧
  last_cloned_at (deref Scenario.cloned_once 0%nat) = Some 6 ∧
  last_cloned_at (deref Scenario.cloned_twice 0%nat) = Some 8 ∧
  clone_count (deref Scenario.cloned_twice 2%nat) = 0 ∧
  last_cloned_at (deref Scenario.cloned_twice 2%nat) = None.
Proof.
  assert (Hlive : is_Some (objects Scenario.cloned_once !! 0%nat))
    by (vm_compute; eauto).
  assert (Hrun : clone 0%nat Scenario.cloned_once =
                 Return 2%nat Scenario.cloned_twice)
    by (vm_compute; reflexivity).
  assert (Hcount : clone_count (deref Scenario.cloned_once 0%nat) = 1)
    by (vm_compute; reflexivity).
  assert (Hlast : last_cloned_at (deref Scenario.cloned_once 0%nat) = Some 6)
    by (vm_compute; reflexivity).
  destruct (clone_counts_on_the_source_only Scenario.cloned_once 0%nat Hlive)
    as [_ H].
  destruct (H 2%nat Scenario.cloned_twice Hrun)
    as (H1 & H2 & _ & _ & H5 & H6 & _).
  rewrite Hcount in H1.
  exact (conj Hlive (conj Hrun (conj Hcount (conj H1 (conj Hlast
          (conj H2 (conj H5 H6))))))).
Defined.

(** C5 as the specification words it fails when the clock is set back
    between two clones ([datetime.now()] is local time without a zone):
    the first clone leaves [last_cloned_at] at 3601, the second one sets
    it to 3. *)
Theorem last_cloned_at_can_go_back :
  clone 0%nat Unlucky.set_back = Return 1%nat Unlucky.set_back_once ∧
  last_cloned_at (deref Unlucky.set_back_once 0%nat) = Some 3601 ∧
  clone 0%nat Unlucky.set_back_once = Return 2%nat Unlucky.set_back_twice ∧
  last_cloned_at (deref Unlucky.set_back_twice 0%nat) = Some 3 ∧
  clone_count (deref Unlucky.set_back_twice 0%nat) = 2.
Proof. evaluate. Qed.

(** ** C6: the clone shares no mutable structure with its source *)

(** C6 fails for a load balancer with a listener.  [copy.deepcopy] does
    copy the listener dicts, but [ApplicationLoadBalancer.clone] then
    replaces the copied list by [self.listeners.copy()], whose slots are
    the source's dicts: after [clone.listeners[0]["port"] = 8080] the
    source reads 8080 where it read 80. *)
Theorem alb_clone_shares_listener_dicts :
  clone 0%nat Scenario.with_alb = Return 1%nat Scenario.alb_cloned ∧
  get_listeners (deref Scenario.alb_cloned 0%nat) = Some 2%nat ∧
  get_listeners (deref Scenario.alb_cloned 1%nat) = Some 9%nat ∧
  Scenario.list_getitem 2%nat 0 Scenario.alb_cloned = Some (VRef 3%nat) ∧
  Scenario.list_getitem 9%nat 0 Scenario.alb_cloned = Some (VRef 3%nat) ∧
  Scenario.listener_port 0%nat Scenario.alb_cloned = Some (VInt 80) ∧
  Scenario.listener_port 0%nat
    (Scenario.set_listener_port 1%nat (VInt 8080) Scenario.alb_cloned) =
    Some (VInt 8080).
Proof. evaluate. Qed.

(** ** C7: the per-class reset policy *)

(** C7 fails for every GCP and on-premise class: the [clone] of a running
    Compute Engine instance raises [AttributeError] and no clone exists,
    called directly or through the registry. *)
Theorem compute_engine_clone_raises :
  can_be_cloned (deref Scenario.with_gce 0%nat) = true ∧
  clone 0%nat Scenario.with_gce =
    Raise (AttributeError
             "'ComputeEngineInstance' object has no attribute '_prepare_for_cloning'")
      Scenario.with_gce ∧
  clone_prototype Scenario.gce_registered.1 None Scenario.gce_registered.2 =
    Raise (AttributeError
             "'ComputeEngineInstance' object has no attribute '_prepare_for_cloning'")
      Scenario.gce_registered.2.
Proof. evaluate. Qed.

(** ** C8: the registry stays consistent *)

(** C8, as the code has it.  Start from an empty registry over any heap
    and run any sequence of [register_prototype], [clone_prototype] and
    [remove_prototype] calls, with a generator [uuid4] that never repeats
    itself.  In the state reached, every key of the id→resource dict has
    metadata and occurs in the id list of exactly one category, exactly
    once. *)
Theorem registry_consistent_in_every_reachable_state
    (w : World) (o : gmap addr Resource) (c : gmap addr container)
    (ops : list op) :
  uuid_unique w →
  registry_consistent (manager (run ops (initial w o c))).
Proof.
  intros Hu. by apply inv_consistent, inv_run, inv_initial.
Qed.

Lemma registry_consistent_in_every_reachable_state_witness :
  uuid_unique Scenario.counting_world ∧
  registry_consistent
    (manager (run Scenario.history
                (initial Scenario.counting_world
                   (objects (Scenario.with_web RUNNING))
                   (cells (Scenario.with_web RUNNING))))).
Proof.
  assert (Hu : uuid_unique Scenario.counting_world).
  { intros i j H. exact (pretty_nat_inj i j H). }
  exact (conj Hu (registry_consistent_in_every_reachable_state
                    Scenario.counting_world
                    (objects (Scenario.with_web RUNNING))
                    (cells (Scenario.with_web RUNNING))
                    Scenario.history Hu)).
Defined.

(** C8 as the specification words it fails when [uuid4] repeats a token:
    [register_prototype] does not look whether the id is taken.  Two
    registrations under the same token, in the categories "vm" and
    "general", leave one key in the id→resource dict that sits in the id
    lists of both categories. *)
Theorem repeated_token_breaks_the_registry :
  PyDict.keys (_prototypes (manager Unlucky.registered_twice)) =
    ["proto-1a2b3c4d"] ∧
  PyDict.get "vm" (_categories (manager Unlucky.registered_twice)) =
    Some ["proto-1a2b3c4d"] ∧
  PyDict.get "general" (_categories (manager Unlucky.registered_twice)) =
    Some ["proto-1a2b3c4d"] ∧
  ¬ registry_consistent (manager Unlucky.registered_twice).
Proof.
  assert (Hkeys : PyDict.keys (_prototypes (manager Unlucky.registered_twice)) =
                  ["proto-1a2b3c4d"]) by (vm_compute; reflexivity).
  assert (Hvm : PyDict.get "vm" (_categories (manager Unlucky.registered_twice)) =
                Some ["proto-1a2b3c4d"]) by (vm_compute; reflexivity).
  assert (Hgen : PyDict.get "general" (_categories (manager Unlucky.registered_twice)) =
                 Some ["proto-1a2b3c4d"]) by (vm_compute; reflexivity).
  split; [exact Hkeys|]. split; [exact Hvm|]. split; [exact Hgen|].
  intros Hcons.
  destruct (Hcons "proto-1a2b3c4d") as (_ & c & ids & _ & _ & Hone).
  { rewrite Hkeys. by apply list_elem_of_singleton. }
  assert (Hin : "proto-1a2b3c4d" ∈ ["proto-1a2b3c4d"])
    by (by apply list_elem_of_singleton).
  pose proof (Hone "vm" _ Hvm Hin) as H1.
  pose proof (Hone "general" _ Hgen Hin) as H2.
  rewrite <-H2 in H1. discriminate H1.
Qed.

(** ** C9: statistics *)

(** C9.  In every state, [total_clones_created] is the sum of the
    [clone_count] of the stored prototypes (the resources' own counters),
    [most_used_prototype] is [None] when every usage count is zero, and
    otherwise it names the first entry, in iteration order, whose usage
    count is the highest: no entry has a higher count and every earlier
    entry has a lower one. *)
Theorem statistics_totals_and_most_used (st : State) :
  let s := get_statistics st in
  let m := manager st in
  total_clones_created s =
    sum_list ((λ kv, clone_count (deref st kv.2)) <$> _prototypes m) ∧
  ((∀ j item, _metadata m !! j = Some item → PrototypeMetadata.usage_count item.2 = 0) →
   most_used_prototype s = None) ∧
  (∀ mu, most_used_prototype s = Some mu →
     ∃ i md, first_highest (_metadata m) i (mu_prototype_id mu) md ∧
             mu_name mu = PrototypeMetadata.name md ∧
             mu_usage_count mu = PrototypeMetadata.usage_count md ∧
             0 < PrototypeMetadata.usage_count md) ∧
  ((∃ j item, _metadata m !! j = Some item ∧ 0 < PrototypeMetadata.usage_count item.2) →
   is_Some (most_used_prototype s)).
Proof.
  intros s m. subst s. unfold get_statistics. fold m. cbn.
  pose proof (most_used_loop (_metadata m)) as Hloop.
  destruct (foldl most_used_step (None, 0) (_metadata m)) as [mu mx].
  destruct Hloop as (Hpos & Hbound & Hmu). simpl in *.
  split; [|split; [|split]].
  - rewrite py_sum_sum_list. unfold PyDict.values. f_equal.
    induction (_prototypes m) as [|[k p] d IH]; simpl; [done|]. f_equal. apply IH.
  - intros Hzero. destruct mu as [mu|]; [|done].
    destruct Hmu as (Hmx & i & md & (Hi & _) & _ & _ & Heq).
    apply Hzero in Hi. simpl in Hi. lia.
  - intros mu' ->. destruct Hmu as (Hmx & i & md & Hfirst & Hname & Husage & Heq).
    exists i, md. do 3 (split; [done|]). lia.
  - intros (j & item & Hj & Hgt). destruct mu as [mu|]; [by eexists|].
    apply Hbound in Hj. lia.
Qed.

(** ** C10: the resource store looks in the products first *)

(** C10.  For an id whose DTO, if any, is truthy: [get] returns the object
    of the products store when the id is there, whatever the DTO store
    holds; otherwise the DTO; and it raises [KeyError] exactly when the id
    is in neither store.  [delete] removes the id from both stores and
    raises [KeyError], leaving the repository as it was, exactly when the id
    is in neither. *)
Theorem repository_get_prefers_products_and_delete_clears_both
    {Obj : Type} (truthy : Obj → bool) (repo : VMRepository Obj)
    (vm_id : string) :
  (∀ vm, _store repo !! vm_id = Some vm → truthy vm = true) →
  (∀ product, _products_store repo !! vm_id = Some product →
     VMRepository_get truthy vm_id repo = Return product repo) ∧
  (∀ vm, _products_store repo !! vm_id = None →
     _store repo !! vm_id = Some vm →
     VMRepository_get truthy vm_id repo = Return vm repo) ∧
  (_products_store repo !! vm_id = None ∧ _store repo !! vm_id = None →
     VMRepository_get truthy vm_id repo = Raise (KeyError "VM not found") repo) ∧
  (∀ e repo', VMRepository_get truthy vm_id repo = Raise e repo' →
     _products_store repo !! vm_id = None ∧ _store repo !! vm_id = None) ∧
  (is_Some (_store repo !! vm_id) ∨ is_Some (_products_store repo !! vm_id) →
     VMRepository_delete vm_id repo =
       Return tt {| _store := delete vm_id (_store repo);
                    _products_store := delete vm_id (_products_store repo) |}) ∧
  (_products_store repo !! vm_id = None ∧ _store repo !! vm_id = None →
     VMRepository_delete vm_id repo = Raise (KeyError "VM not found") repo) ∧
  (∀ e repo', VMRepository_delete vm_id repo = Raise e repo' →
     _products_store repo !! vm_id = None ∧ _store repo !! vm_id = None).
Proof.
  intros Htruthy. destruct repo as [store products]. simpl in *.
  unfold VMRepository_get, VMRepository_delete. simpl.
  destruct (products !! vm_id) as [p|] eqn:Hp;
    destruct (store !! vm_id) as [vm|] eqn:Hs;
    rewrite ?(Htruthy vm eq_refl); simpl;
    rewrite ?bool_decide_eq_true_2 by eauto;
    rewrite ?bool_decide_eq_false_2 by (by intros [? ?]);
    simpl; rewrite ?Hp, ?Hs; simpl;
    rewrite ?bool_decide_eq_true_2 by eauto;
    rewrite ?bool_decide_eq_false_2 by (by intros [? ?]);
    simpl.
  all: repeat split; try done; try (by intros ? [= <-]); try (by intros [[? ?]|[? ?]]).
  all: try (intros _; f_equal; f_equal; symmetry; by apply delete_id).
  all: try (by intros [? ?]); try (by intros ? _ [= <-]).
Qed.

Lemma repository_get_prefers_products_and_delete_clears_both_witness :
  (∀ vm, _store Scenario.repo !! "i-abc123" = Some vm →
         PyStr.truthy vm = true) ∧
  VMRepository_get PyStr.truthy "i-abc123" Scenario.repo =
    Return "product" Scenario.repo ∧
  VMRepository_delete "i-abc123" Scenario.repo =
    Return tt {| _store := delete "i-abc123" (_store Scenario.repo);
                 _products_store :=
                   delete "i-abc123" (_products_store Scenario.repo) |}.
Proof.
  assert (Htruthy : ∀ vm, _store Scenario.repo !! "i-abc123" = Some vm →
                          PyStr.truthy vm = true).
  { intros vm H. vm_compute in H. by injection H as <-. }
  destruct (repository_get_prefers_products_and_delete_clears_both
              PyStr.truthy Scenario.repo "i-abc123" Htruthy)
    as (Hget & _ & _ & _ & Hdel & _).
  split; [exact Htruthy|]. split.
  - apply Hget. vm_compute; reflexivity.
  - apply Hdel. left. vm_compute; eauto.
Defined.

(** * Further properties *)

(** ** Constructors and life cycle *)

Lemma construct_spec k st :
  let w := world st in
  let a := fresh (dom (objects st)) in
  let st1 := (construct k st).2 in
  (construct k st).1 = a ∧
  is_Some (objects st1 !! a) ∧
  aws_class (deref st1 a) = true ∧
  status (deref st1 a) = CREATING ∧
  resource_id (deref st1 a) = id_prefix k +:+ "-" +:+ uuid_src w (uuid_pos w) ∧
  uuid_src (world st1) = uuid_src w ∧
  uuid_pos (world st1) = S (S (uuid_pos w)) ∧
  manager st1 = manager st.
Proof.
  destruct st as [w o cl m].
  destruct k; cbn; unfold deref; cbn; rewrite lookup_total_insert_eq, lookup_insert_eq;
    repeat split; eauto.
Qed.

Lemma split_head_prefix k u :
  PyStr.split_head (id_prefix k +:+ "-" +:+ u) = id_prefix k.
Proof. by destruct k. Qed.

Lemma fresh_object_ne (o : gmap addr Resource) a :
  is_Some (o !! a) → fresh (dom o) ≠ a.
Proof.
  intros Hlive Heq. apply elem_of_dom in Hlive. rewrite <-Heq in Hlive.
  exact (is_fresh _ Hlive).
Qed.

(** X1.  A resource just built by one of the five AWS constructors is in
    state [creating], which is a cloneable state; [clone] on it returns a
    new object, also in state [creating], whose resource id is the prefix
    of the class, a dash and the token the generator hands out next. *)
Theorem constructed_resource_clones_under_its_prefix (k : AwsCall) (st : State) :
  let w := world st in
  let a := (construct k st).1 in
  let st1 := (construct k st).2 in
  status (deref st1 a) = CREATING ∧
  can_be_cloned (deref st1 a) = true ∧
  resource_id (deref st1 a) = id_prefix k +:+ "-" +:+ uuid_src w (uuid_pos w) ∧
  ∃ c st2,
    clone a st1 = Return c st2 ∧ c ≠ a ∧
    status (deref st2 c) = CREATING ∧
    resource_id (deref st2 c) =
      id_prefix k +:+ "-" +:+ uuid_src w (S (S (uuid_pos w))).
Proof.
  intros w a st1.
  destruct (construct_spec k st)
    as (Ha & Hlive & Haws & Hstatus & Hrid & Hsrc & Hpos & _).
  fold a st1 w in Ha, Hlive, Haws, Hstatus, Hrid, Hsrc, Hpos.
  rewrite <-Ha in Hlive, Haws, Hstatus, Hrid.
  split; [done|].
  split; [unfold can_be_cloned; by rewrite Hstatus|]. split; [done|].
  destruct (clone_spec a st1 Hlive Haws) as (tg & sp & h' & Hclone & _ & _).
  eexists _, _. split; [exact Hclone|].
  pose proof (fresh_object_ne _ _ Hlive) as Hc. split; [done|].
  unfold deref in *. cbn [objects].
  rewrite !(lookup_total_insert_ne _ a) by done.
  rewrite !lookup_total_insert_eq. cbn [status resource_id].
  by rewrite Hstatus, Hrid, split_head_prefix, Hsrc, Hpos.
Qed.

(** X2.  An EC2 instance as its constructor leaves it accepts none of
    [start], [stop] and [restart]: it is in state [creating], and each of
    the three raises [ValueError] and leaves the state as it was. *)
Theorem new_ec2_instance_refuses_start_stop_restart
    (format_status : ResourceStatus → string)
    (nm rg instance_type ami vpc_id : string) (st : State) :
  let a := (EC2Instance_init nm rg instance_type ami vpc_id st).1 in
  let st1 := (EC2Instance_init nm rg instance_type ami vpc_id st).2 in
  EC2Instance_start format_status a st1 =
    Raise (ValueError ("Cannot start instance in state " +:+
                       format_status CREATING)) st1 ∧
  EC2Instance_stop format_status a st1 =
    Raise (ValueError ("Cannot stop instance in state " +:+
                       format_status CREATING)) st1 ∧
  EC2Instance_restart format_status a st1 =
    Raise (ValueError ("Cannot restart instance in state " +:+
                       format_status CREATING)) st1.
Proof.
  intros a st1.
  destruct (construct_spec (NewEC2Instance nm rg instance_type ami vpc_id) st)
    as (Ha & _ & _ & Hstatus & _).
  cbn [construct] in Ha, Hstatus. fold a st1 in Ha, Hstatus.
  rewrite <-Ha in Hstatus.
  unfold EC2Instance_start, EC2Instance_stop, EC2Instance_restart.
  rewrite Hstatus. done.
Qed.

Lemma set_status_same (r : Resource) : set_status (status r) r = r.
Proof. by destruct r. Qed.

Lemma set_status_twice (v v' : ResourceStatus) (r : Resource) :
  set_status v (set_status v' r) = set_status v r.
Proof. done. Qed.

(** X3.  Stopping a running EC2 instance and starting it again is a round
    trip: [stop] returns with the instance [stopped], and [start] then
    returns with the state exactly as it was before the two calls. *)
Theorem stop_then_start_restores_a_running_instance
    (format_status : ResourceStatus → string) (self : addr) (st : State) :
  is_Some (objects st !! self) →
  status (deref st self) = RUNNING →
  ∃ st1,
    EC2Instance_stop format_status self st = Return tt st1 ∧
    status (deref st1 self) = STOPPED ∧
    EC2Instance_start format_status self st1 = Return tt st.
Proof.
  intros [r Hr] Hrun.
  assert (Hd : deref st self = r) by (unfold deref; by apply lookup_total_correct).
  rewrite Hd in Hrun.
  unfold EC2Instance_stop, EC2Instance_start. rewrite Hd, Hrun.
  rewrite decide_True by done. eexists. split; [done|].
  unfold modify, deref. cbn [objects set_heap_objects].
  rewrite lookup_total_insert_eq. cbn [status set_status].
  split; [done|]. rewrite decide_True by done. f_equal.
  destruct st as [w o cl m]. cbn [objects world cells manager] in *.
  unfold deref in Hd. cbn [objects] in Hd.
  rewrite Hd, insert_insert_eq, set_status_twice, <-Hrun, set_status_same.
  unfold set_heap_objects. cbn [objects world cells manager]. f_equal.
  by apply insert_id.
Qed.

Lemma stop_then_start_restores_a_running_instance_witness :
  is_Some (objects (Scenario.with_web RUNNING) !! 0%nat) ∧
  status (deref (Scenario.with_web RUNNING) 0%nat) = RUNNING ∧
  ∃ st1,
    EC2Instance_stop (λ _, "") 0%nat (Scenario.with_web RUNNING) = Return tt st1 ∧
    status (deref st1 0%nat) = STOPPED ∧
    EC2Instance_start (λ _, "") 0%nat st1 = Return tt (Scenario.with_web RUNNING).
Proof.
  assert (H1 : is_Some (objects (Scenario.with_web RUNNING) !! 0%nat))
    by (vm_compute; eauto).
  assert (H2 : status (deref (Scenario.with_web RUNNING) 0%nat) = RUNNING)
    by (vm_compute; reflexivity).
  exact (conj H1 (conj H2
    (stop_then_start_restores_a_running_instance (λ _, "") 0%nat
       (Scenario.with_web RUNNING) H1 H2))).
Defined.

(** X4.  No life-cycle call changes whether an instance can be cloned:
    [start], [stop] and [restart] move it between [running] and [stopped]
    only, and when they raise they leave the state as it was.  So a
    resource in state [deleting] or [error] stays uncloneable, and a
    cloneable one stays cloneable. *)
Theorem lifecycle_calls_keep_cloneability
    (format_status : ResourceStatus → string) (self : addr) (st : State) :
  let after (call : outcome State unit) := can_be_cloned (deref (state_of call) self) in
  after (EC2Instance_start format_status self st) = can_be_cloned (deref st self) ∧
  after (EC2Instance_stop format_status self st) = can_be_cloned (deref st self) ∧
  after (EC2Instance_restart format_status self st) = can_be_cloned (deref st self) ∧
  (∀ e st', EC2Instance_start format_status self st = Raise e st' →
     st' = st ∧ status (deref st self) ≠ STOPPED) ∧
  (∀ e st', EC2Instance_stop format_status self st = Raise e st' →
     st' = st ∧ status (deref st self) ≠ RUNNING) ∧
  (∀ e st', EC2Instance_restart format_status self st = Raise e st' →
     st' = st ∧ status (deref st self) ≠ RUNNING).
Proof.
  unfold EC2Instance_start, EC2Instance_stop, EC2Instance_restart.
  cbv zeta.
  assert (Hc : ∀ v, can_be_cloned (deref (modify self (set_status v) st) self) =
                    bool_decide (v ∈ [RUNNING; STOPPED; CREATING])).
  { intros v. unfold can_be_cloned, modify, deref.
    cbn [objects set_heap_objects]. by rewrite lookup_total_insert_eq. }
  destruct (decide (status (deref st self) = STOPPED)) as [Hs|Hs];
    destruct (decide (status (deref st self) = RUNNING)) as [Hr|Hr];
    cbn [state_of]; rewrite ?Hc; unfold can_be_cloned; rewrite ?Hs, ?Hr;
    repeat split; try done; intros; by simplify_eq.
Qed.

(** ** Targets and security groups *)

Lemma remove_appended (x : value) (l : list value) :
  x ∉ l → PyList.remove x (l ++ [x]) = l.
Proof.
  induction l as [|y l IH]; simpl; intros Hx.
  - by rewrite decide_True.
  - apply not_elem_of_cons in Hx as [Hne Hx].
    rewrite decide_False by done. f_equal. by apply IH.
Qed.

Lemma remove_subset (x y : value) (l : list value) :
  y ∈ PyList.remove x l → y ∈ l.
Proof.
  induction l as [|z l IH]; simpl; [done|].
  case_decide; rewrite !elem_of_cons; [by right|].
  intros [->|Hin]; [by left|right; by apply IH].
Qed.

Lemma remove_NoDup (x : value) (l : list value) :
  NoDup l → NoDup (PyList.remove x l) ∧ x ∉ PyList.remove x l.
Proof.
  induction l as [|z l IH]; simpl; intros Hnd.
  - split; [constructor|apply not_elem_of_nil].
  - apply NoDup_cons in Hnd as [Hz Hl]. case_decide as Heq.
    + subst z. done.
    + destruct (IH Hl) as [IH1 IH2]. split.
      * apply NoDup_cons. split; [|done].
        intros Hin. by apply Hz, (remove_subset x).
      * apply not_elem_of_cons. done.
Qed.

(** X5.  The targets of a load balancer stay free of duplicates:
    [add_target] leaves the list alone when the target is already there and
    appends it otherwise, so calling it twice is the same as calling it
    once; [remove_target] drops the target, and on a list without
    duplicates the target is gone afterwards.  Both always return. *)
Theorem targets_stay_distinct (self : addr) (target_id : string) (st : State)
    (a : addr) (xs : list value) :
  get_targets (deref st self) = Some a →
  cells st !! a = Some (ListObj xs) →
  (∃ st1 xs1,
     ApplicationLoadBalancer_add_target self target_id st = Return tt st1 ∧
     cells st1 !! a = Some (ListObj xs1) ∧
     VStr target_id ∈ xs1 ∧
     (VStr target_id ∈ xs → st1 = st) ∧
     (VStr target_id ∉ xs → xs1 = xs ++ [VStr target_id]) ∧
     (NoDup xs → NoDup xs1) ∧
     ApplicationLoadBalancer_add_target self target_id st1 = Return tt st1) ∧
  (∃ st1 xs1,
     ApplicationLoadBalancer_remove_target self target_id st = Return tt st1 ∧
     cells st1 !! a = Some (ListObj xs1) ∧
     (VStr target_id ∉ xs → st1 = st) ∧
     (NoDup xs → NoDup xs1 ∧ VStr target_id ∉ xs1)).
Proof.
  intros Hget Hcell.
  assert (Htot : cells st !!! a = ListObj xs) by (by apply lookup_total_correct).
  unfold ApplicationLoadBalancer_add_target, ApplicationLoadBalancer_remove_target.
  rewrite Hget, Htot. split.
  - case_bool_decide as Hin.
    + exists st, xs. rewrite Hget, Htot, bool_decide_eq_true_2 by done. done.
    + eexists _, (xs ++ [VStr target_id]). split; [done|].
      unfold deref in *. cbn [cells objects set_cells].
      rewrite lookup_insert_eq, Hget, lookup_total_insert_eq.
      assert (Hnew : VStr target_id ∈ xs ++ [VStr target_id]).
      { apply elem_of_app. right. by apply list_elem_of_singleton. }
      rewrite bool_decide_eq_true_2 by done.
      repeat split; try done.
      intros Hnd. apply NoDup_app. split; [done|]. split; [|apply NoDup_singleton].
      intros x Hx Hx'%list_elem_of_singleton. by subst x.
  - case_bool_decide as Hin.
    + eexists _, _. split; [done|]. cbn [cells set_cells].
      rewrite lookup_insert_eq. split; [done|]. split; [done|].
      apply remove_NoDup.
    + exists st, xs. repeat split; try done.
Qed.

Lemma targets_stay_distinct_witness :
  get_targets (deref Scenario.with_alb 0%nat) = Some 1%nat ∧
  cells Scenario.with_alb !! 1%nat = Some (ListObj [VStr "i-abc123"]) ∧
  ∃ st1 xs1,
    ApplicationLoadBalancer_add_target 0%nat "i-def456" Scenario.with_alb =
      Return tt st1 ∧
    cells st1 !! 1%nat = Some (ListObj xs1) ∧
    xs1 = [VStr "i-abc123"; VStr "i-def456"].
Proof.
  assert (H1 : get_targets (deref Scenario.with_alb 0%nat) = Some 1%nat)
    by (vm_compute; reflexivity).
  assert (H2 : cells Scenario.with_alb !! 1%nat = Some (ListObj [VStr "i-abc123"]))
    by (vm_compute; reflexivity).
  split; [exact H1|]. split; [exact H2|].
  destruct (targets_stay_distinct 0%nat "i-def456" Scenario.with_alb 1%nat
              [VStr "i-abc123"] H1 H2)
    as [(st1 & xs1 & Hadd & Hcell & _ & _ & Happ & _) _].
  exists st1, xs1. split; [exact Hadd|]. split; [exact Hcell|].
  apply Happ. intros Hin. apply list_elem_of_singleton in Hin. discriminate Hin.
Defined.

(** X6.  Adding a target that is not yet there and removing it again is a
    round trip: the state is exactly as it was. *)
Theorem add_then_remove_target_restores_the_state (self : addr)
    (target_id : string) (st : State) (a : addr) (xs : list value) :
  get_targets (deref st self) = Some a →
  cells st !! a = Some (ListObj xs) →
  VStr target_id ∉ xs →
  ∃ st1,
    ApplicationLoadBalancer_add_target self target_id st = Return tt st1 ∧
    st1 ≠ st ∧
    ApplicationLoadBalancer_remove_target self target_id st1 = Return tt st.
Proof.
  intros Hget Hcell Hnew.
  assert (Htot : cells st !!! a = ListObj xs) by (by apply lookup_total_correct).
  unfold ApplicationLoadBalancer_add_target, ApplicationLoadBalancer_remove_target.
  rewrite Hget, Htot, bool_decide_eq_false_2 by done.
  eexists. split; [done|].
  unfold deref in *. cbn [cells objects set_cells].
  rewrite Hget, lookup_total_insert_eq.
  assert (Hin : VStr target_id ∈ xs ++ [VStr target_id]).
  { apply elem_of_app. right. by apply list_elem_of_singleton. }
  rewrite bool_decide_eq_true_2 by done. split.
  - intros Heq. apply (f_equal (λ s, cells s !! a)) in Heq.
    cbv beta in Heq. cbn [cells set_cells] in Heq.
    rewrite lookup_insert_eq, Hcell in Heq.
    injection Heq as Heq. apply (f_equal length) in Heq.
    rewrite length_app in Heq. simpl in Heq. lia.
  - f_equal. destruct st as [w o cl m]. cbn [cells objects world manager] in *.
    rewrite insert_insert_eq, remove_appended by done.
    unfold set_cells. cbn [cells objects world manager]. f_equal.
    by apply insert_id.
Qed.

Lemma add_then_remove_target_restores_the_state_witness :
  get_targets (deref Scenario.with_alb 0%nat) = Some 1%nat ∧
  cells Scenario.with_alb !! 1%nat = Some (ListObj [VStr "i-abc123"]) ∧
  (VStr "i-def456" ∉ [VStr "i-abc123"]) ∧
  ∃ st1,
    ApplicationLoadBalancer_add_target 0%nat "i-def456" Scenario.with_alb =
      Return tt st1 ∧
    st1 ≠ Scenario.with_alb ∧
    ApplicationLoadBalancer_remove_target 0%nat "i-def456" st1 =
      Return tt Scenario.with_alb.
Proof.
  assert (H1 : get_targets (deref Scenario.with_alb 0%nat) = Some 1%nat)
    by (vm_compute; reflexivity).
  assert (H2 : cells Scenario.with_alb !! 1%nat = Some (ListObj [VStr "i-abc123"]))
    by (vm_compute; reflexivity).
  assert (H3 : VStr "i-def456" ∉ [VStr "i-abc123"]).
  { intros Hin. apply list_elem_of_singleton in Hin. discriminate Hin. }
  exact (conj H1 (conj H2 (conj H3
    (add_then_remove_target_restores_the_state 0%nat "i-def456"
       Scenario.with_alb 1%nat [VStr "i-abc123"] H1 H2 H3)))).
Defined.

(** ** What [clone] hands back, in full *)

Lemma copy_items_flat f xs s :
  (∀ v s, (∀ b, v ≠ VRef b) → f v s = Some (v, s)) →
  Forall (λ v, ∀ b, v ≠ VRef b) xs →
  Deepcopy.copy_items f xs s = Some (xs, s).
Proof.
  intros Hf. induction 1 as [|x xs Hx _ IH]; simpl; [done|].
  by rewrite (Hf x s Hx), IH.
Qed.

Lemma copy_entries_flat f kvs s :
  (∀ v s, (∀ b, v ≠ VRef b) → f v s = Some (v, s)) →
  Forall (λ kv : string * value, ∀ b, kv.2 ≠ VRef b) kvs →
  Deepcopy.copy_entries f kvs s = Some (kvs, s).
Proof.
  intros Hf. induction 1 as [|[k x] kvs Hx _ IH]; simpl; [done|].
  simpl in Hx. by rewrite (Hf x s Hx), IH.
Qed.

Lemma copy_value_scalar fuel h0 v s :
  (∀ b, v ≠ VRef b) → Deepcopy.copy_value fuel h0 v s = Some (v, s).
Proof. intros Hv. destruct fuel, v; try done; by destruct (Hv a). Qed.

(** [deepcopy] of a list or dict of immutable values: one new object with
    the same slots. *)
Lemma deepcopy_flat (h0 : gmap addr container) (a : addr) (c : container) :
  h0 !! a = Some c → flat c →
  Deepcopy.run_ref h0 a (h0, ∅) =
    (fresh (dom h0), (<[fresh (dom h0) := c]> h0, {[a := fresh (dom h0)]})).
Proof.
  intros Ha Hflat. unfold Deepcopy.run_ref, Deepcopy.run.
  cbn [Deepcopy.copy_value fst snd]. rewrite lookup_empty, Ha.
  destruct c as [xs|kvs]; cbn [flat] in Hflat.
  - rewrite (copy_items_flat _ xs); [|intros; by apply copy_value_scalar|done].
    cbn. by rewrite insert_insert_eq, insert_empty.
  - rewrite (copy_entries_flat _ kvs); [|intros; by apply copy_value_scalar|done].
    cbn. by rewrite insert_insert_eq, insert_empty.
Qed.

(** [CloneableResource.clone] with the copy of the tags named: the objects
    that exist once the tags are copied are left alone by the rest of the
    call. *)
Lemma CloneableResource_clone_full self st :
  is_Some (objects st !! self) →
  let c := fresh (dom (objects st)) in
  let r := deref st self in
  let w := world st in
  let s1 := Deepcopy.run_ref (cells st) (tags r) (cells st, ∅) in
  ∃ sp h',
    CloneableResource_clone self st =
      (c, {| world := {| uuid_src := uuid_src w; uuid_pos := S (S (uuid_pos w));
                         clock_src := clock_src w;
                         clock_pos := S (S (clock_pos w)) |};
             objects :=
               <[self := set_last_cloned_at (Some (clock_src w (S (clock_pos w))))
                           (set_clone_count (clone_count r + 1) r)]>
               (<[c := {| prototype_id := "proto-" +:+ uuid_src w (S (uuid_pos w));
                          is_prototype := false;
                          cloned_from := Some (prototype_id r);
                          clone_count := 0;
                          created_at := clock_src w (clock_pos w);
                          last_cloned_at := None;
                          resource_id :=
                            PyStr.split_head (resource_id r) +:+ "-" +:+
                            uuid_src w (uuid_pos w);
                          name := name r; region := region r;
                          status := status r; tags := s1.1; specific := sp |}]>
                  (objects st));
             cells := h';
             manager := manager st |}) ∧
    same_class (specific r) sp ∧
    ∀ a, a ∈ dom s1.2.1 → h' !! a = s1.2.1 !! a.
Proof.
  intros Hlive c r w s1. subst s1 r.
  assert (Hc : c ≠ self) by (by apply fresh_object_ne).
  unfold CloneableResource_clone, deepcopy_instance.
  destruct (Deepcopy.run_ref (cells st) (tags (deref st self)) (cells st, ∅)) as [tg s1].
  pose proof (deepcopy_specific_frame (cells st) (specific (deref st self)) s1) as F2.
  pose proof (deepcopy_specific_class (cells st) (specific (deref st self)) s1) as F3.
  destruct (deepcopy_specific (cells st) (specific (deref st self)) s1) as [sp s2].
  exists sp, s2.1. split; [|split; [exact F3|exact F2]].
  subst w. fold c. fold (deref st self). destruct st as [w o cl m].
  set (r := deref _ self). plumb.
  heap_simpl c self. reflexivity.
Qed.

(** The same for [clone] with its overrides. *)
Lemma clone_full self st :
  is_Some (objects st !! self) →
  aws_class (deref st self) = true →
  let c := fresh (dom (objects st)) in
  let r := deref st self in
  let w := world st in
  let s1 := Deepcopy.run_ref (cells st) (tags r) (cells st, ∅) in
  ∃ sp h',
    clone self st =
      Return c
         {| world := {| uuid_src := uuid_src w; uuid_pos := S (S (uuid_pos w));
                         clock_src := clock_src w;
                         clock_pos := S (S (clock_pos w)) |};
             objects :=
               <[self := set_last_cloned_at (Some (clock_src w (S (clock_pos w))))
                           (set_clone_count (clone_count r + 1) r)]>
               (<[c := {| prototype_id := "proto-" +:+ uuid_src w (S (uuid_pos w));
                          is_prototype := false;
                          cloned_from := Some (prototype_id r);
                          clone_count := 0;
                          created_at := clock_src w (clock_pos w);
                          last_cloned_at := None;
                          resource_id :=
                            PyStr.split_head (resource_id r) +:+ "-" +:+
                            uuid_src w (uuid_pos w);
                          name := name r; region := region r;
                          status := status r; tags := s1.1; specific := sp |}]>
                  (objects st));
             cells := h';
             manager := manager st |} ∧
    same_class (specific r) sp ∧
    ∀ a, a ∈ dom s1.2.1 → h' !! a = s1.2.1 !! a.
Proof.
  intros Hlive Haws c r w s1.
  assert (Hc : c ≠ self) by (by apply fresh_object_ne).
  assert (Hc' : self ≠ c) by done.
  destruct (CloneableResource_clone_full self st Hlive)
    as (sp & h' & Hbase & Hcls & Hfr).
  fold c r w in Hbase, Hcls, Hfr. fold s1 in Hbase, Hfr.
  set (tg := s1.1) in *. set (D := s1.2.1) in *. clearbody tg D. clear s1.
  assert (Hnew : ∀ a, a ∈ dom D → a ∈ dom h').
  { intros a Ha. apply elem_of_dom. rewrite Hfr by done. by apply elem_of_dom. }
  assert (Hfresh : ∀ h : gmap addr container,
                     (∀ a, a ∈ dom D → a ∈ dom h) → fresh (dom h) ∉ dom D).
  { intros h Hsub Hin. exact (is_fresh _ (Hsub _ Hin)). }
  unfold clone, aws_class in *. fold r in Haws |- *.
  destruct (specific r) as [x|x|x|x|x|cls attrs] eqn:Hsp; [..|done];
    destruct sp as [y|y|y|y|y|cls' attrs']; try done.
  - unfold EC2Instance_clone. rewrite Hbase. clear Hbase.
    subst r w. unfold deref in *. destruct st as [w o cl m].
    cbn [world objects cells manager] in *. plumb. heap_simpl c self.
    source_class Hsp. heap_simpl c self.
    eexists _, _. split; [reflexivity|]. split; [done|].
    intros a Ha. rewrite lookup_insert_ne; [by apply Hfr|].
    intros <-. by apply (Hfresh h').
  - unfold RDSDatabase_clone. rewrite Hbase. clear Hbase.
    subst r w. unfold deref in *. destruct st as [w o cl m].
    cbn [world objects cells manager] in *. plumb. heap_simpl c self.
    eexists _, _. split; [reflexivity|]. split; done.
  - unfold ApplicationLoadBalancer_clone. rewrite Hbase. clear Hbase.
    subst r w. unfold deref in *. destruct st as [w o cl m].
    cbn [world objects cells manager] in *. plumb. heap_simpl c self.
    source_class Hsp. heap_simpl c self.
    eexists _, _. split; [reflexivity|]. split; [done|].
    set (t := fresh (dom h')).
    set (l := fresh (dom (<[t:=ListObj []]> h'))).
    assert (Ht : t ∉ dom D) by (by apply Hfresh).
    assert (Hl : l ∉ dom D).
    { apply Hfresh. intros a Ha. rewrite dom_insert_L. apply elem_of_union.
      right. by apply Hnew. }
    intros a Ha. rewrite !lookup_insert_ne; [by apply Hfr|by intros <-..].
  - unfold S3Storage_clone. rewrite Hbase. clear Hbase.
    subst r w. unfold deref in *. destruct st as [w o cl m].
    cbn [world objects cells manager] in *. plumb. heap_simpl c self.
    eexists _, _. split; [reflexivity|]. split; [done|].
    intros a Ha. rewrite lookup_insert_ne; [by apply Hfr|].
    intros <-. by apply (Hfresh h').
  - unfold EC2NetworkInterface_clone. rewrite Hbase. clear Hbase.
    subst r w. unfold deref in *. destruct st as [w o cl m].
    cbn [world objects cells manager] in *. plumb. heap_simpl c self.
    source_class Hsp. heap_simpl c self.
    eexists _, _. split; [reflexivity|]. split; [done|].
    intros a Ha. rewrite lookup_insert_ne; [by apply Hfr|].
    intros <-. by apply (Hfresh h').
Qed.

(** Everything known about a returning [clone], in one statement. *)
Lemma clone_returns self st :
  is_Some (objects st !! self) →
  aws_class (deref st self) = true →
  let c := fresh (dom (objects st)) in
  let r := deref st self in
  let w := world st in
  let s1 := Deepcopy.run_ref (cells st) (tags r) (cells st, ∅) in
  let rid :=
    PyStr.split_head (resource_id r) +:+ "-" +:+ uuid_src w (uuid_pos w) in
  ∃ sp h',
    clone self st =
      Return c
         {| world := {| uuid_src := uuid_src w; uuid_pos := S (S (uuid_pos w));
                         clock_src := clock_src w;
                         clock_pos := S (S (clock_pos w)) |};
             objects :=
               <[self := set_last_cloned_at (Some (clock_src w (S (clock_pos w))))
                           (set_clone_count (clone_count r + 1) r)]>
               (<[c := {| prototype_id := "proto-" +:+ uuid_src w (S (uuid_pos w));
                          is_prototype := false;
                          cloned_from := Some (prototype_id r);
                          clone_count := 0;
                          created_at := clock_src w (clock_pos w);
                          last_cloned_at := None;
                          resource_id := rid;
                          name := name r; region := region r;
                          status := status r; tags := s1.1; specific := sp |}]>
                  (objects st));
             cells := h';
             manager := manager st |} ∧
    c ≠ self ∧
    same_class (specific r) sp ∧
    reset_policy r (cells st) rid sp h' ∧
    (∀ a, a ∈ dom s1.2.1 → h' !! a = s1.2.1 !! a) ∧
    (∀ a, a ∈ dom (cells st) → h' !! a = cells st !! a).
Proof.
  intros Hlive Haws c r w s1 rid.
  assert (Hc : c ≠ self) by (by apply fresh_object_ne).
  destruct (clone_full self st Hlive Haws) as (sp & h' & Hclone & Hcls & Hfr).
  destruct (clone_spec self st Hlive Haws) as (tg0 & sp0 & h0 & Hclone0 & Hpol & Hfr0).
  fold c r w s1 in Hclone, Hcls, Hfr. fold c r w in Hclone0, Hpol, Hfr0.
  fold rid in Hclone, Hclone0, Hpol.
  exists sp, h'. split; [exact Hclone|]. split; [done|]. split; [done|].
  rewrite Hclone in Hclone0. injection Hclone0 as Hobj Hcells.
  apply (f_equal (λ o : gmap addr Resource, o !! c)) in Hobj. cbv beta in Hobj.
  rewrite !(lookup_insert_ne _ self) in Hobj by done.
  rewrite !lookup_insert_eq in Hobj. injection Hobj as _ Hsp.
  subst sp0 h0. done.
Qed.

(** ** A clone and its source do not share targets or security groups *)

(** X7.  The clone of a load balancer has a target list of its own, which
    starts empty: a target added to the clone shows in the clone only, and
    a target added to the source after the call does not show in the
    clone. *)
Theorem alb_clone_has_its_own_targets (self : addr) (st : State)
    (x : ApplicationLoadBalancerAttrs) (xs : list value) (target_id : string) :
  is_Some (objects st !! self) →
  specific (deref st self) = ApplicationLoadBalancer x →
  cells st !! alb_targets x = Some (ListObj xs) →
  ∃ c st1 a',
    clone self st = Return c st1 ∧
    get_targets (deref st1 c) = Some a' ∧
    get_targets (deref st1 self) = Some (alb_targets x) ∧
    a' ≠ alb_targets x ∧
    cells st1 !! a' = Some (ListObj []) ∧
    cells st1 !! alb_targets x = Some (ListObj xs) ∧
    (∃ st2,
       ApplicationLoadBalancer_add_target c target_id st1 = Return tt st2 ∧
       cells st2 !! a' = Some (ListObj [VStr target_id]) ∧
       cells st2 !! alb_targets x = Some (ListObj xs)) ∧
    (∃ st2,
       ApplicationLoadBalancer_add_target self target_id st1 = Return tt st2 ∧
       cells st2 !! a' = Some (ListObj [])).
Proof.
  intros Hlive Hsp Hcell.
  assert (Haws : aws_class (deref st self) = true)
    by (unfold aws_class; by rewrite Hsp).
  assert (Hin : alb_targets x ∈ dom (cells st)) by (by apply elem_of_dom).
  destruct (clone_returns self st Hlive Haws)
    as (sp & h' & Hclone & Hc & Hcls & Hpol & _ & Hfr).
  unfold reset_policy in Hpol. rewrite Hsp in Hcls, Hpol.
  destruct sp as [y|y|y|y|y|cls attrs]; try done.
  destruct Hpol as (Hnew & Hempty & _).
  assert (Hne : alb_targets y ≠ alb_targets x) by (intros Heq; by rewrite Heq in Hnew).
  assert (Hold : h' !! alb_targets x = Some (ListObj xs)) by (by rewrite Hfr).
  eexists _, _, (alb_targets y). split; [exact Hclone|].
  unfold ApplicationLoadBalancer_add_target, get_targets, deref.
  cbn [objects cells].
  rewrite !(lookup_total_insert_ne _ self (fresh _)) by done.
  rewrite !lookup_total_insert_eq. cbn [specific set_last_cloned_at set_clone_count].
  unfold deref in Hsp. rewrite Hsp.
  rewrite (lookup_total_correct _ _ _ Hempty), (lookup_total_correct _ _ _ Hold).
  rewrite bool_decide_eq_false_2 by apply not_elem_of_nil.
  repeat split; try done.
  - eexists. split; [done|]. cbn [cells set_cells app].
    by rewrite lookup_insert_eq, lookup_insert_ne.
  - case_bool_decide; eexists; (split; [done|]); [done|].
    cbn [cells set_cells]. by rewrite lookup_insert_ne.
Qed.

Lemma alb_clone_has_its_own_targets_witness :
  is_Some (objects Scenario.with_alb !! 0%nat) ∧
  ∃ c st1 a',
    clone 0%nat Scenario.with_alb = Return c st1 ∧
    get_targets (deref st1 c) = Some a' ∧
    a' ≠ 1%nat ∧
    cells st1 !! 1%nat = Some (ListObj [VStr "i-abc123"]).
Proof.
  assert (H1 : is_Some (objects Scenario.with_alb !! 0%nat))
    by (vm_compute; eauto).
  split; [exact H1|].
  destruct (alb_clone_has_its_own_targets 0%nat Scenario.with_alb
              {| alb_vpc_id := "vpc-1"; alb_scheme := "internet-facing";
                 alb_targets := 1%nat; alb_listeners := 2%nat;
                 alb_dns_name := "front-0000aaaa.us-east-1.elb.amazonaws.com" |}
              [VStr "i-abc123"] "i-def456" H1 eq_refl eq_refl)
    as (c & st1 & a' & Hclone & Hget & _ & Hne & _ & Hold & _).
  exists c, st1, a'. exact (conj Hclone (conj Hget (conj Hne Hold))).
Defined.

(** X8.  The clone of a network interface starts with the security groups
    of its source in a list of its own: a group configured on the clone
    afterwards is appended to the clone's list only, and a group configured
    on the source does not reach the clone. *)
Theorem eni_clone_has_its_own_security_groups (self : addr) (st : State)
    (x : EC2NetworkInterfaceAttrs) (xs : list value) :
  is_Some (objects st !! self) →
  specific (deref st self) = EC2NetworkInterface x →
  cells st !! eni_security_groups x = Some (ListObj xs) →
  let w := world st in
  let sg := VStr ("sg-" +:+ uuid_src w (S (S (uuid_pos w)))) in
  ∃ c st1 a',
    clone self st = Return c st1 ∧
    get_security_groups (deref st1 c) = Some a' ∧
    a' ≠ eni_security_groups x ∧
    cells st1 !! a' = Some (ListObj xs) ∧
    cells st1 !! eni_security_groups x = Some (ListObj xs) ∧
    (∃ st2,
       EC2NetworkInterface_configure_security_group c st1 = Return tt st2 ∧
       cells st2 !! a' = Some (ListObj (xs ++ [sg])) ∧
       cells st2 !! eni_security_groups x = Some (ListObj xs)) ∧
    (∃ st2,
       EC2NetworkInterface_configure_security_group self st1 = Return tt st2 ∧
       cells st2 !! a' = Some (ListObj xs) ∧
       cells st2 !! eni_security_groups x = Some (ListObj (xs ++ [sg]))).
Proof.
  intros Hlive Hsp Hcell w sg.
  assert (Haws : aws_class (deref st self) = true)
    by (unfold aws_class; by rewrite Hsp).
  assert (Hin : eni_security_groups x ∈ dom (cells st)) by (by apply elem_of_dom).
  destruct (clone_returns self st Hlive Haws)
    as (sp & h' & Hclone & Hc & Hcls & Hpol & _ & Hfr).
  unfold reset_policy in Hpol. rewrite Hsp in Hcls, Hpol.
  destruct sp as [y|y|y|y|y|cls attrs]; try done.
  destruct Hpol as (_ & Hnew & Hsame).
  assert (Hne : eni_security_groups y ≠ eni_security_groups x)
    by (intros Heq; by rewrite Heq in Hnew).
  assert (Hold : h' !! eni_security_groups x = Some (ListObj xs)) by (by rewrite Hfr).
  assert (Hcopy : h' !! eni_security_groups y = Some (ListObj xs))
    by (by rewrite Hsame).
  eexists _, _, (eni_security_groups y). split; [exact Hclone|].
  unfold EC2NetworkInterface_configure_security_group, get_security_groups,
    uuid4_hex8, deref.
  cbn [objects cells world set_world uuid_src uuid_pos].
  rewrite !(lookup_total_insert_ne _ self (fresh _)) by done.
  rewrite !lookup_total_insert_eq. cbn [specific set_last_cloned_at set_clone_count].
  unfold deref in Hsp. rewrite Hsp.
  rewrite (lookup_total_correct _ _ _ Hcopy), (lookup_total_correct _ _ _ Hold).
  repeat split; try done.
  - eexists. split; [done|]. cbn [cells set_cells].
    by rewrite lookup_insert_eq, lookup_insert_ne.
  - eexists. split; [done|]. cbn [cells set_cells].
    by rewrite lookup_insert_eq, lookup_insert_ne.
Qed.

Lemma eni_clone_has_its_own_security_groups_witness :
  is_Some (objects Samples.with_eni !! 0%nat) ∧
  ∃ c st1 a',
    clone 0%nat Samples.with_eni = Return c st1 ∧
    get_security_groups (deref st1 c) = Some a' ∧
    a' ≠ 1%nat ∧
    cells st1 !! a' = Some (ListObj [VStr "sg-0a0a0a0a"]) ∧
    ∃ st2,
      EC2NetworkInterface_configure_security_group c st1 = Return tt st2 ∧
      cells st2 !! a' = Some (ListObj [VStr "sg-0a0a0a0a"; VStr "sg-9c0d1e2f"]) ∧
      cells st2 !! 1%nat = Some (ListObj [VStr "sg-0a0a0a0a"]).
Proof.
  assert (H1 : is_Some (objects Samples.with_eni !! 0%nat))
    by (vm_compute; eauto).
  split; [exact H1|].
  destruct (eni_clone_has_its_own_security_groups 0%nat Samples.with_eni
              {| eni_instance_id := "i-abc123"; eni_security_groups := 1%nat;
                 eni_public_ip := "54.1.2.3" |}
              [VStr "sg-0a0a0a0a"] H1 eq_refl eq_refl)
    as (c & st1 & a' & Hclone & Hget & Hne & Hcopy & _ & Hconf & _).
  exists c, st1, a'. exact (conj Hclone (conj Hget (conj Hne (conj Hcopy Hconf)))).
Defined.

(** ** The registry: categories, listings, statistics *)

Section MoreDictFacts.
Context {V : Type}.
Implicit Types (d : list (string * V)) (k : string) (v : V).

Lemma keys_set k v d :
  PyDict.keys (PyDict.set k v d) =
    if PyDict.mem k d then PyDict.keys d else PyDict.keys d ++ [k].
Proof.
  destruct (PyDict.mem k d) eqn:Hmem.
  - apply keys_set_old. by apply mem_true.
  - apply keys_set_new. intros Hin%mem_true. congruence.
Qed.

Lemma get_elem_of k v d : PyDict.get k d = Some v → (k, v) ∈ d.
Proof.
  induction d as [|[k' v'] d IH]; simpl; [done|].
  case_decide as Hk.
  - intros [= ->]. subst k'. apply elem_of_cons. by left.
  - intros H. apply elem_of_cons. right. by apply IH.
Qed.

Lemma elem_of_get k v d : NoDup (PyDict.keys d) → (k, v) ∈ d → PyDict.get k d = Some v.
Proof.
  unfold PyDict.keys. induction d as [|[k' v'] d IH]; simpl.
  - by intros _ ?%elem_of_nil.
  - intros [Hk Hd]%NoDup_cons [[= -> ->]|Hin]%elem_of_cons.
    + by rewrite decide_True.
    + rewrite decide_False; [by apply IH|].
      intros ->. apply Hk. apply list_elem_of_fmap. by exists (k', v).
Qed.

Lemma NoDup_keys_set k v d :
  NoDup (PyDict.keys d) → NoDup (PyDict.keys (PyDict.set k v d)).
Proof.
  intros Hnd. rewrite keys_set. destruct (PyDict.mem k d) eqn:Hmem; [done|].
  apply NoDup_app. split; [done|]. split; [|apply NoDup_singleton].
  intros x Hx Hx'%list_elem_of_singleton. subst x.
  apply mem_true in Hx. congruence.
Qed.

Lemma mem_false k d : PyDict.mem k d = false ↔ PyDict.get k d = None.
Proof. unfold PyDict.mem. by destruct (PyDict.get k d). Qed.

Lemma mem_set_eq k v d : PyDict.mem k (PyDict.set k v d) = true.
Proof. unfold PyDict.mem. by rewrite get_set_eq. Qed.

End MoreDictFacts.

Lemma filter_ext_in {A} (P Q : A → Prop) `{∀ x, Decision (P x)}
    `{∀ x, Decision (Q x)} (l : list A) :
  (∀ x, x ∈ l → (P x ↔ Q x)) → filter P l = filter Q l.
Proof.
  induction l as [|x l IH]; intros Hext; [done|].
  rewrite !filter_cons.
  assert (Hx : P x ↔ Q x) by (apply Hext, elem_of_cons; by left).
  rewrite IH by (intros y Hy; apply Hext, elem_of_cons; by right).
  destruct (decide (P x)), (decide (Q x)); tauto.
Qed.

Lemma filter_none {A} (P : A → Prop) `{∀ x, Decision (P x)} (l : list A) :
  (∀ x, x ∈ l → ¬ P x) → filter P l = [].
Proof.
  induction l as [|x l IH]; intros Hno; [done|].
  rewrite filter_cons, decide_False by (apply Hno, elem_of_cons; by left).
  apply IH. intros y Hy. apply Hno, elem_of_cons. by right.
Qed.

Lemma filter_all {A} (P : A → Prop) `{∀ x, Decision (P x)} (l : list A) :
  (∀ x, x ∈ l → P x) → filter P l = l.
Proof.
  induction l as [|x l IH]; intros Hall; [done|].
  rewrite filter_cons, decide_True by (apply Hall, elem_of_cons; by left).
  f_equal. apply IH. intros y Hy. apply Hall, elem_of_cons. by right.
Qed.

Lemma list_remove_first_filter k (l : list string) :
  NoDup l → list_remove_first k l = filter (λ x, x ≠ k) l.
Proof.
  induction l as [|x l IH]; simpl; [done|].
  intros [Hx Hl]%NoDup_cons. rewrite filter_cons. case_decide as Heq.
  - subst x. rewrite decide_False by (by intros ?).
    symmetry. apply filter_all. by intros y Hy ->.
  - rewrite decide_True by (by intros ->). f_equal. by apply IH.
Qed.

(** The category dict after [register_prototype]. *)
Lemma register_prototype_categories prototype name description category tags st :
  get_categories (register_prototype prototype name description category tags st).2 =
    if PyDict.mem category (_categories (manager st))
    then get_categories st
    else get_categories st ++ [category].
Proof.
  unfold get_categories, register_prototype, PrototypeMetadata_init,
    mark_as_prototype.
  cbn [uuid4_hex8].
  destruct (PyStr.truthy name);
    (destruct tags as [a|]; [destruct (container_truthy _)|]);
    cbn; destruct (PyDict.mem category (_categories (manager st))) eqn:Hmem;
    cbn; change (?d.*1) with (PyDict.keys d);
    rewrite ?keys_set, ?mem_set_eq, ?Hmem; try done;
    by rewrite keys_set, Hmem.
Qed.

Lemma remove_prototype_absent pid st :
  PyDict.mem pid (_prototypes (manager st)) = false →
  remove_prototype pid st = (false, st).
Proof. intros Hmem. unfold remove_prototype. by rewrite Hmem. Qed.

(** *** Categories are never dropped *)

Lemma get_categories_step st o :
  get_categories st `prefix_of` get_categories (step st o).
Proof.
  destruct o as [prototype name description category tags|pid new_name|pid];
    cbn [step].
  - rewrite register_prototype_categories.
    destruct (PyDict.mem category _); [done|]. by apply prefix_app_r.
  - unfold get_categories.
    destruct (clone_prototype_manager pid new_name st) as (_ & _ & [->|Hm]);
      [done|].
    destruct Hm as (md & _ & ->). done.
  - unfold remove_prototype, get_categories.
    destruct (PyDict.mem pid (_prototypes (manager st))); cbn -[PyDict.keys];
      [|done].
    destruct (PyDict.get pid (_metadata (manager st))) as [md|]; cbn -[PyDict.keys].
    + destruct (PyDict.get (PrototypeMetadata.category md) _) as [ids|] eqn:Hids;
        cbn -[PyDict.keys].
      * destruct (PyDict.mem pid (_metadata _)); cbn -[PyDict.keys];
          rewrite keys_set_old; try done; apply get_is_Some; by eexists.
      * by destruct (PyDict.mem pid (_metadata _)).
    + by destruct (PyDict.mem pid (_metadata _)).
Qed.

(** X9.  A category, once used, is never dropped: over any sequence of
    [register_prototype], [clone_prototype] and [remove_prototype] calls
    from any state, [get_categories] only grows at its end, in order of
    first use.  Removing the last prototype of a category leaves the
    category listed. *)
Theorem categories_are_never_dropped (ops : list op) (st : State) :
  get_categories st `prefix_of` get_categories (run ops st).
Proof.
  unfold run. revert st. induction ops as [|o ops IH]; intros st; [done|].
  cbn [foldl]. etrans; [apply get_categories_step|apply IH].
Qed.

(** *** The id list of a category is the registry filtered by category *)

Lemma category_of_unlisted st c :
  registry_inv st →
  PyDict.get c (_categories (manager st)) = None →
  ∀ pid, category_of (manager st) pid ≠ Some c.
Proof.
  intros Hinv Hnone pid Hcat. unfold category_of in Hcat.
  destruct (PyDict.get pid (_metadata (manager st))) as [md|] eqn:Hmd; [|done].
  injection Hcat as <-.
  destruct (inv_listed _ Hinv pid md Hmd) as (ids & Hids & _). congruence.
Qed.

Lemma listing_initial w o c : uuid_unique w → listing_inv (initial w o c).
Proof.
  intros Hu. split; [by apply inv_initial|constructor|done].
Qed.

Lemma listing_register prototype name description category tags st :
  listing_inv st →
  listing_inv (register_prototype prototype name description category tags st).2.
Proof.
  intros [Hinv Hnd Hord].
  destruct (register_prototype_spec prototype name description category tags st)
    as (_ & Hsrc & Hpos & _ & md & Hcat & _ & Hprotos & Hmeta & Hcats).
  pose proof (register_prototype_categories prototype name description category tags st)
    as Hkeys.
  set (st' := (register_prototype prototype name description category tags st).2) in *.
  set (pid := "proto-" +:+ uuid_src (world st) (uuid_pos (world st))) in *.
  pose proof (not_minted_next _ (inv_unique _ Hinv)) as Hfresh. fold pid in Hfresh.
  assert (Hnew : pid ∉ PyDict.keys (_prototypes (manager st))).
  { intros Hin. by apply Hfresh, inv_minted_key. }
  split.
  - by apply inv_register.
  - fold (get_categories st'). rewrite Hkeys.
    destruct (PyDict.mem category (_categories (manager st))) eqn:Hmem; [done|].
    apply NoDup_app. split; [done|]. split; [|apply NoDup_singleton].
    intros x Hx Hx'%list_elem_of_singleton. subst x.
    apply mem_true in Hx. congruence.
  - intros c ids. rewrite Hcats, Hprotos, keys_set_new, filter_app by done.
    assert (Hold : ∀ q, q ∈ PyDict.keys (_prototypes (manager st)) →
                        category_of (manager st') q = category_of (manager st) q).
    { intros q Hq. unfold category_of. rewrite Hmeta, get_set_ne; [done|].
      by intros ->. }
    assert (Hpid : category_of (manager st') pid = Some category).
    { unfold category_of. rewrite Hmeta, get_set_eq. simpl. by rewrite Hcat. }
    rewrite (filter_ext_in _ (λ q, category_of (manager st) q = Some c)
               (PyDict.keys (_prototypes (manager st))))
      by (intros q Hq; by rewrite Hold).
    rewrite filter_cons, filter_nil. case_decide as Hc.
    + subst c. intros [= <-]. rewrite decide_True by done. f_equal.
      destruct (PyDict.get category (_categories (manager st))) as [ids0|] eqn:Hget;
        simpl; [by apply Hord|].
      symmetry. apply filter_none. intros q _.
      by apply (category_of_unlisted st category).
    + intros Hget. rewrite decide_False by (rewrite Hpid; congruence).
      rewrite app_nil_r. by apply Hord.
Qed.

Lemma listing_clone pid new_name st :
  listing_inv st → listing_inv (state_of (clone_prototype pid new_name st)).
Proof.
  intros [Hinv Hnd Hord].
  destruct (clone_prototype_manager pid new_name st) as (_ & _ & Hman).
  split; [by apply inv_clone| |].
  - destruct Hman as [->|(md & Hmd & ->)]; done.
  - intros c ids. destruct Hman as [->|(md & Hmd & ->)]; [apply Hord|].
    cbn [_categories _prototypes set_metadata]. intros Hget.
    rewrite (Hord c ids Hget). apply filter_ext_in. intros q _.
    unfold category_of. cbn [_metadata set_metadata].
    destruct (decide (pid = q)) as [<-|Hne].
    + by rewrite get_set_eq, Hmd.
    + by rewrite get_set_ne.
Qed.

Lemma listing_remove pid st :
  listing_inv st → listing_inv (remove_prototype pid st).2.
Proof.
  intros [Hinv Hnd Hord].
  destruct (PyDict.mem pid (_prototypes (manager st))) eqn:Hmem.
  2:{ by rewrite remove_prototype_absent. }
  pose proof (inv_remove pid st Hinv) as Hinv'.
  destruct (remove_prototype_spec pid st Hinv Hmem) as (md & ids & Hmd & Hids & Heq).
  rewrite Heq in Hinv' |- *. split; [done| |];
    cbn [snd manager set_manager _categories _prototypes].
  - rewrite keys_set_old; [done|]. apply get_is_Some. by eexists.
  - intros c ids'.
    rewrite keys_del, list_remove_first_filter by apply (inv_nodup _ Hinv).
    set (m' := {| _prototypes := _ |}).
    assert (Hcatof : ∀ q, q ≠ pid → category_of m' q = category_of (manager st) q).
    { intros q Hq. unfold category_of. cbn [_metadata m']. by rewrite get_del_ne. }
    assert (Hpid : category_of (manager st) pid = Some (PrototypeMetadata.category md)).
    { unfold category_of. by rewrite Hmd. }
    rewrite (filter_ext_in (λ q, category_of m' q = Some c)
               (λ q, category_of (manager st) q = Some c)
               (filter (λ x, x ≠ pid) (PyDict.keys (_prototypes (manager st)))))
      by (intros q [Hq _]%list_elem_of_filter; by rewrite Hcatof).
    destruct (decide (PrototypeMetadata.category md = c)) as [<-|Hne].
    + rewrite get_set_eq. intros [= <-]. rewrite (Hord _ _ Hids).
      rewrite !list_filter_filter. apply list_filter_iff. intros q. tauto.
    + rewrite get_set_ne by done. intros Hget. rewrite (Hord _ _ Hget).
      rewrite list_filter_filter. apply list_filter_iff. intros q.
      split; [|by intros [? _]]. intros Hq. split; [done|]. intros ->.
      congruence.
Qed.

Lemma listing_step st o : listing_inv st → listing_inv (step st o).
Proof.
  destruct o; simpl; [apply listing_register|apply listing_clone|apply listing_remove].
Qed.

Lemma listing_run ops st : listing_inv st → listing_inv (run ops st).
Proof.
  unfold run. revert st. induction ops as [|o ops IH]; intros st Hinv; simpl;
    [done|]. by apply IH, listing_step.
Qed.

(** *** Listings *)

Lemma omap_total {A B} (f : A → option B) (g : B → A) (l : list A) :
  (∀ x, x ∈ l → ∃ y, f x = Some y ∧ g y = x) → g <$> omap f l = l.
Proof.
  induction l as [|x l IH]; intros Hall; [done|]. cbn [omap list_omap].
  destruct (Hall x) as (y & -> & Hy); [apply elem_of_cons; by left|].
  cbn. rewrite Hy. f_equal. apply IH. intros z Hz. apply Hall, elem_of_cons.
  by right.
Qed.

Lemma omap_filter {A B} (f : A → option B) (P : A → Prop) (Q : B → Prop)
    `{∀ x, Decision (P x)} `{∀ y, Decision (Q y)} (l : list A) :
  (∀ x y, x ∈ l → f x = Some y → (P x ↔ Q y)) →
  omap f (filter P l) = filter Q (omap f l).
Proof.
  induction l as [|x l IH]; intros Hall; [done|].
  assert (IH' : omap f (filter P l) = filter Q (omap f l)).
  { apply IH. intros z y Hz. apply Hall, elem_of_cons. by right. }
  rewrite filter_cons. cbn [omap list_omap].
  destruct (f x) as [y|] eqn:Hfx.
  - assert (Hxy : P x ↔ Q y) by (apply Hall; [apply elem_of_cons; by left|done]).
    rewrite filter_cons.
    destruct (decide (P x)), (decide (Q y)); try tauto;
      cbn [omap list_omap]; rewrite ?Hfx; by rewrite IH'.
  - destruct (decide (P x)); cbn [omap list_omap]; rewrite ?Hfx; exact IH'.
Qed.

Lemma list_prototypes_all iso st :
  list_prototypes iso None st =
    omap (entry_of iso st) (PyDict.keys (_prototypes (manager st))).
Proof. done. Qed.

Lemma entry_of_registered iso st pid :
  registry_inv st →
  pid ∈ PyDict.keys (_prototypes (manager st)) →
  ∃ p md,
    PyDict.get pid (_prototypes (manager st)) = Some p ∧
    PyDict.get pid (_metadata (manager st)) = Some md ∧
    entry_of iso st pid = Some (details iso pid p md st).
Proof.
  intros Hinv Hin. pose proof Hin as Hin'.
  rewrite <-(inv_keys _ Hinv) in Hin'.
  apply get_is_Some in Hin as [p Hp]. apply get_is_Some in Hin' as [md Hmd].
  exists p, md. unfold entry_of. by rewrite Hp, Hmd.
Qed.

(** X10.  In every state the registry can reach, [list_prototypes()] shows
    every registered prototype exactly once, in the order of the
    id→resource dict (the order of registration), each with the current
    info of its resource and its metadata. *)
Theorem list_prototypes_shows_the_registry_in_order
    (isoformat : Z → string) (w : World) (o : gmap addr Resource)
    (c : gmap addr container) (ops : list op) :
  uuid_unique w →
  let st := run ops (initial w o c) in
  details_prototype_id <$> list_prototypes isoformat None st =
    PyDict.keys (_prototypes (manager st)) ∧
  ∀ e, e ∈ list_prototypes isoformat None st →
    ∃ p md,
      PyDict.get (details_prototype_id e) (_prototypes (manager st)) = Some p ∧
      PyDict.get (details_prototype_id e) (_metadata (manager st)) = Some md ∧
      e = details isoformat (details_prototype_id e) p md st.
Proof.
  intros Hu st.
  assert (Hinv : registry_inv st) by (by apply inv_run, inv_initial).
  rewrite list_prototypes_all. split.
  - apply omap_total. intros pid Hin.
    destruct (entry_of_registered isoformat st pid Hinv Hin) as (p & md & _ & _ & ->).
    by eexists.
  - intros e (pid & Hin & He)%list_elem_of_omap.
    destruct (entry_of_registered isoformat st pid Hinv Hin)
      as (p & md & Hp & Hmd & Heq).
    rewrite Heq in He. injection He as <-. cbn [details_prototype_id details].
    by exists p, md.
Qed.

Lemma uuid_unique_counting : uuid_unique Scenario.counting_world.
Proof. intros i j H. exact (pretty_nat_inj i j H). Qed.

Lemma list_prototypes_shows_the_registry_in_order_witness :
  uuid_unique Scenario.counting_world ∧
  details_prototype_id <$>
    list_prototypes (λ _, "") None
      (run Scenario.history
         (initial Scenario.counting_world
            (objects (Scenario.with_web RUNNING))
            (cells (Scenario.with_web RUNNING)))) =
  ["proto-1"; "proto-4"].
Proof.
  split; [exact uuid_unique_counting|].
  destruct (list_prototypes_shows_the_registry_in_order (λ _, "")
              Scenario.counting_world
              (objects (Scenario.with_web RUNNING))
              (cells (Scenario.with_web RUNNING))
              Scenario.history uuid_unique_counting) as [Hids _].
  rewrite Hids. vm_compute. reflexivity.
Defined.

(** X11.  In every state the registry can reach, listing by a (non-empty)
    category gives exactly the entries of the full listing whose metadata
    carries that category, in the same order; a category that was never
    used gives the empty list. *)
Theorem list_prototypes_by_category_filters_the_full_listing
    (isoformat : Z → string) (w : World) (o : gmap addr Resource)
    (c : gmap addr container) (ops : list op) (category : string) :
  uuid_unique w →
  PyStr.truthy category = true →
  let st := run ops (initial w o c) in
  list_prototypes isoformat (Some category) st =
    filter (λ e, view_category (details_metadata e) = category)
      (list_prototypes isoformat None st).
Proof.
  intros Hu Hc st.
  assert (Hinv : listing_inv st) by (by apply listing_run, listing_initial).
  destruct Hinv as [Hinv Hnd Hord].
  rewrite list_prototypes_all. unfold list_prototypes. rewrite Hc.
  fold (entry_of isoformat st).
  assert (Hiff : ∀ pid e, pid ∈ PyDict.keys (_prototypes (manager st)) →
            entry_of isoformat st pid = Some e →
            (category_of (manager st) pid = Some category ↔
             view_category (details_metadata e) = category)).
  { intros pid e Hin He.
    destruct (entry_of_registered isoformat st pid Hinv Hin)
      as (p & md & Hp & Hmd & Heq).
    rewrite Heq in He. injection He as <-. unfold category_of. rewrite Hmd.
    cbn. split; [by intros [= ->]|by intros ->]. }
  assert (Heq :
    omap (entry_of isoformat st)
      (filter (λ pid, category_of (manager st) pid = Some category)
         (PyDict.keys (_prototypes (manager st)))) =
    filter (λ e, view_category (details_metadata e) = category)
      (omap (entry_of isoformat st) (PyDict.keys (_prototypes (manager st)))))
    by (by apply omap_filter).
  rewrite <-Heq.
  destruct (PyDict.get category (_categories (manager st))) as [ids|] eqn:Hids;
    cbn [default].
  - by rewrite (Hord _ _ Hids).
  - rewrite filter_none; [done|]. intros pid _.
    by apply category_of_unlisted.
Qed.

Lemma list_prototypes_by_category_filters_the_full_listing_witness :
  uuid_unique Scenario.counting_world ∧
  PyStr.truthy "vm" = true ∧
  details_prototype_id <$>
    list_prototypes (λ _, "") (Some "vm")
      (run Scenario.history
         (initial Scenario.counting_world
            (objects (Scenario.with_web RUNNING))
            (cells (Scenario.with_web RUNNING)))) =
  ["proto-1"].
Proof.
  split; [exact uuid_unique_counting|]. split; [reflexivity|].
  rewrite (list_prototypes_by_category_filters_the_full_listing (λ _, "")
             Scenario.counting_world
             (objects (Scenario.with_web RUNNING))
             (cells (Scenario.with_web RUNNING))
             Scenario.history "vm" uuid_unique_counting eq_refl).
  vm_compute. reflexivity.
Defined.

(** *** Search *)

Section SearchFacts.
Variable isoformat : Z → string.
Variable lower : string → string.
Variable st : State.
Hypothesis Hinv : registry_inv st.

(** The entries of the metadata dict are the entries of the listing. *)
Lemma metadata_item_entry pid md :
  (pid, md) ∈ _metadata (manager st) →
  PyDict.get pid (_metadata (manager st)) = Some md.
Proof.
  apply elem_of_get. rewrite (inv_keys _ Hinv). apply (inv_nodup _ Hinv).
Qed.

Lemma search_loop_sublist query category tags items results :
  (∀ pid md, (pid, md) ∈ items →
             PyDict.get pid (_metadata (manager st)) = Some md) →
  search_loop isoformat lower query category tags st items = inr results →
  results `sublist_of` omap (entry_of isoformat st) (PyDict.keys items).
Proof.
  revert results. induction items as [|[pid md] items IH]; intros results Hitems.
  - intros [= <-]. done.
  - assert (Hmd : PyDict.get pid (_metadata (manager st)) = Some md)
      by (apply Hitems, elem_of_cons; by left).
    assert (Hrest : ∀ q mdq, (q, mdq) ∈ items →
                      PyDict.get q (_metadata (manager st)) = Some mdq)
      by (intros q mdq Hq; apply Hitems, elem_of_cons; by right).
    cbn [search_loop PyDict.keys fmap list_fmap fst omap list_omap].
    unfold entry_of at 1. rewrite Hmd.
    destruct (PyDict.get pid (_prototypes (manager st))) as [p|]; [|by apply IH].
    destruct (search_keeps _ _ _ _ _ _) as [e|[|]]; [done| |].
    + destruct (search_loop _ _ _ _ _ _ items) as [e|rest] eqn:Hloop; [done|].
      intros [= <-]. apply sublist_skip. by apply IH.
    + intros Hloop. apply sublist_cons. by apply IH.
Qed.

Lemma search_keeps_plain category md :
  search_keeps lower "" category None md st =
    inr (match category with
         | Some c =>
             negb (PyStr.truthy c && bool_decide (PrototypeMetadata.category md ≠ c))
         | None => true
         end).
Proof.
  unfold search_keeps. destruct category as [c|]; [|done].
  by destruct (PyStr.truthy c && bool_decide (PrototypeMetadata.category md ≠ c)).
Qed.

Lemma search_loop_plain category items :
  (∀ pid md, (pid, md) ∈ items →
             PyDict.get pid (_metadata (manager st)) = Some md) →
  search_loop isoformat lower "" category None st items =
    inr (omap (entry_of isoformat st)
           (filter (in_category (manager st) category) (PyDict.keys items))).
Proof.
  induction items as [|[pid md] items IH]; intros Hitems; [done|].
  assert (Hmd : PyDict.get pid (_metadata (manager st)) = Some md)
    by (apply Hitems, elem_of_cons; by left).
  assert (Hrest : ∀ q mdq, (q, mdq) ∈ items →
                    PyDict.get q (_metadata (manager st)) = Some mdq)
    by (intros q mdq Hq; apply Hitems, elem_of_cons; by right).
  cbn [search_loop PyDict.keys fmap list_fmap fst]. rewrite filter_cons.
  rewrite IH, search_keeps_plain by done.
  assert (Hcat : category_of (manager st) pid = Some (PrototypeMetadata.category md))
    by (unfold category_of; by rewrite Hmd).
  assert (Hentry : ∀ rest,
    omap (entry_of isoformat st) (pid :: rest) =
    match PyDict.get pid (_prototypes (manager st)) with
    | Some p => details isoformat pid p md st :: omap (entry_of isoformat st) rest
    | None => omap (entry_of isoformat st) rest
    end).
  { intros rest. cbn [omap list_omap]. unfold entry_of at 1. rewrite Hmd.
    by destruct (PyDict.get pid (_prototypes (manager st))). }
  destruct (decide (in_category (manager st) category pid)) as [Hin|Hin];
    unfold in_category in Hin; rewrite Hcat in Hin; rewrite ?Hentry;
    (destruct category as [c|];
       [destruct (PyStr.truthy c) eqn:Hc; cbn [andb negb];
          [case_bool_decide as Hne; cbn [negb]|]|]);
    try (by destruct (PyDict.get pid (_prototypes (manager st))));
    try done; try congruence.
Qed.

End SearchFacts.

(** X12.  In every state the registry can reach, a search with an empty
    query and no tags returns what [list_prototypes] returns for the same
    category filter: everything when there is none (or the empty string),
    the prototypes of the category otherwise. *)
Theorem plain_search_is_the_listing
    (isoformat : Z → string) (lower : string → string)
    (w : World) (o : gmap addr Resource) (c : gmap addr container)
    (ops : list op) (category : option string) :
  uuid_unique w →
  let st := run ops (initial w o c) in
  search_prototypes isoformat lower "" category None st =
    inr (list_prototypes isoformat category st).
Proof.
  intros Hu st.
  assert (Hlist : listing_inv st) by (by apply listing_run, listing_initial).
  destruct Hlist as [Hinv Hnd Hord].
  unfold search_prototypes.
  rewrite (search_loop_plain isoformat lower st)
    by (intros pid md; by apply metadata_item_entry).
  f_equal. change (PyDict.keys (_metadata (manager st)))
    with (PyDict.keys (_metadata (manager st))).
  rewrite (inv_keys _ Hinv). unfold list_prototypes.
  fold (entry_of isoformat st).
  destruct category as [cat|]; [|by rewrite filter_all].
  destruct (PyStr.truthy cat) eqn:Hc.
  2:{ rewrite filter_all; [done|]. intros pid _. unfold in_category. by rewrite Hc. }
  f_equal.
  rewrite (list_filter_iff _ (λ pid, category_of (manager st) pid = Some cat))
    by (intros pid; unfold in_category; by rewrite Hc).
  destruct (PyDict.get cat (_categories (manager st))) as [ids|] eqn:Hids;
    cbn [default].
  - by rewrite (Hord _ _ Hids).
  - apply filter_none. intros pid _.
    by apply (category_of_unlisted st cat Hinv Hids pid).
Qed.

Lemma plain_search_is_the_listing_witness :
  uuid_unique Scenario.counting_world ∧
  search_prototypes (λ _, "") id "" (Some "general") None
    (run Scenario.history
       (initial Scenario.counting_world
          (objects (Scenario.with_web RUNNING))
          (cells (Scenario.with_web RUNNING)))) =
  inr (list_prototypes (λ _, "") (Some "general")
         (run Scenario.history
            (initial Scenario.counting_world
               (objects (Scenario.with_web RUNNING))
               (cells (Scenario.with_web RUNNING))))).
Proof.
  exact (conj uuid_unique_counting
    (plain_search_is_the_listing (λ _, "") id Scenario.counting_world
       (objects (Scenario.with_web RUNNING))
       (cells (Scenario.with_web RUNNING))
       Scenario.history (Some "general") uuid_unique_counting)).
Defined.

(** X13.  In every state the registry can reach, whatever the query, the
    category and the tags: when [search_prototypes] returns, its results
    are entries of the full listing, in the order of the listing and none
    twice. *)
Theorem search_results_are_listed_in_order
    (isoformat : Z → string) (lower : string → string)
    (w : World) (o : gmap addr Resource) (c : gmap addr container)
    (ops : list op) (query : string) (category : option string)
    (tags : option (list (string * string))) (results : list PrototypeDetails) :
  uuid_unique w →
  let st := run ops (initial w o c) in
  search_prototypes isoformat lower query category tags st = inr results →
  results `sublist_of` list_prototypes isoformat None st ∧
  NoDup (details_prototype_id <$> results).
Proof.
  intros Hu st Hsearch.
  assert (Hinv : registry_inv st) by (by apply inv_run, inv_initial).
  assert (Hsub : results `sublist_of` list_prototypes isoformat None st).
  { rewrite list_prototypes_all, <-(inv_keys _ Hinv).
    apply (search_loop_sublist isoformat lower st query category tags); [|done].
    intros pid md. by apply metadata_item_entry. }
  split; [done|].
  apply (sublist_NoDup _ (details_prototype_id <$> list_prototypes isoformat None st)).
  - rewrite list_prototypes_all, omap_total; [apply (inv_nodup _ Hinv)|].
    intros pid Hin.
    destruct (entry_of_registered isoformat st pid Hinv Hin) as (p & md & _ & _ & ->).
    by eexists.
  - by apply fmap_sublist.
Qed.

Lemma search_results_are_listed_in_order_witness :
  uuid_unique Scenario.counting_world ∧
  ∃ results,
    search_prototypes (λ _, "") id "web" None None
      (run Scenario.history
         (initial Scenario.counting_world
            (objects (Scenario.with_web RUNNING))
            (cells (Scenario.with_web RUNNING)))) = inr results ∧
    details_prototype_id <$> results = ["proto-1"] ∧
    results `sublist_of`
      list_prototypes (λ _, "") None
        (run Scenario.history
           (initial Scenario.counting_world
              (objects (Scenario.with_web RUNNING))
              (cells (Scenario.with_web RUNNING)))).
Proof.
  split; [exact uuid_unique_counting|].
  eexists. split; [vm_compute; reflexivity|]. split; [reflexivity|].
  refine (proj1 (search_results_are_listed_in_order (λ _, "") id
                   Scenario.counting_world
                   (objects (Scenario.with_web RUNNING))
                   (cells (Scenario.with_web RUNNING))
                   Scenario.history "web" None None _ uuid_unique_counting _)).
  vm_compute. reflexivity.
Defined.

(** *** Statistics add up *)

Lemma sum_list_add {A} (f h : A → Z) (l : list A) :
  sum_list ((λ x, f x + h x) <$> l) = sum_list (f <$> l) + sum_list (h <$> l).
Proof.
  induction l as [|x l IH]; [done|].
  cbn [fmap list_fmap sum_list] in *. lia.
Qed.

Lemma sum_list_zero {A} (f : A → Z) (l : list A) :
  (∀ x, x ∈ l → f x = 0) → sum_list (f <$> l) = 0.
Proof.
  induction l as [|x l IH]; intros Hall; [done|]. cbn [fmap list_fmap sum_list].
  rewrite (Hall x), IH; [done| |apply elem_of_cons; by left].
  intros y Hy. apply Hall, elem_of_cons. by right.
Qed.

Lemma sum_list_ext {A} (f h : A → Z) (l : list A) :
  (∀ x, x ∈ l → f x = h x) → sum_list (f <$> l) = sum_list (h <$> l).
Proof.
  induction l as [|x l IH]; intros Hall; [done|]. cbn [fmap list_fmap sum_list].
  rewrite (Hall x), IH; [done| |apply elem_of_cons; by left].
  intros y Hy. apply Hall, elem_of_cons. by right.
Qed.

(** One key of a list without duplicates carries the weight [x]. *)
Lemma sum_list_indicator (c0 : string) (x : Z) (ks : list string) :
  NoDup ks → c0 ∈ ks →
  sum_list ((λ c, if decide (c0 = c) then x else 0) <$> ks) = x.
Proof.
  induction ks as [|k ks IH]; [by intros _ ?%elem_of_nil|].
  intros [Hk Hks]%NoDup_cons Hin. cbn [fmap list_fmap sum_list]. case_decide as Heq.
  - subst k. rewrite sum_list_zero; [lia|]. intros c Hc.
    rewrite decide_False; [done|]. by intros ->.
  - apply elem_of_cons in Hin as [?|Hin]; [done|]. rewrite IH by done. lia.
Qed.

(** Summing a weight over the registry category by category gives the sum
    over the whole registry, when every id has one of the categories. *)
Lemma sum_by_category (cat : string → option string) (g : string → Z)
    (ks K : list string) :
  NoDup ks →
  (∀ pid, pid ∈ K → ∃ c, cat pid = Some c ∧ c ∈ ks) →
  sum_list ((λ c, sum_list (g <$> filter (λ pid, cat pid = Some c) K)) <$> ks) =
  sum_list (g <$> K).
Proof.
  intros Hnd. induction K as [|p K IH]; intros Hall.
  - by apply sum_list_zero.
  - destruct (Hall p) as (c0 & Hc0 & Hin); [apply elem_of_cons; by left|].
    rewrite (sum_list_ext _
      (λ c, (if decide (c0 = c) then g p else 0) +
            sum_list (g <$> filter (λ pid, cat pid = Some c) K))).
    + rewrite sum_list_add, sum_list_indicator by done.
      rewrite IH; [done|]. intros q Hq. apply Hall, elem_of_cons. by right.
    + intros c _. rewrite filter_cons, Hc0.
      destruct (decide (c0 = c)) as [->|Hne].
      * by rewrite decide_True.
      * rewrite decide_False by congruence. lia.
Qed.

Lemma values_by_key {V} (f : V → Z) (d : list (string * V)) :
  NoDup (PyDict.keys d) →
  f <$> PyDict.values d =
    (λ k, default 0 (f <$> PyDict.get k d)) <$> PyDict.keys d.
Proof.
  unfold PyDict.keys, PyDict.values.
  induction d as [|[k v] d IH]; [done|]. intros [Hk Hd]%NoDup_cons.
  cbn [fmap list_fmap fst snd PyDict.get]. rewrite decide_True by done.
  cbn. f_equal. rewrite IH by done. apply list_fmap_ext.
  intros i k' Hk'. rewrite decide_False; [done|].
  intros ->. apply Hk. by eapply list_elem_of_lookup_2.
Qed.

Lemma omap_by_key {V} (f : V → Z) (d : list (string * V)) (ids : list string) :
  (∀ pid, pid ∈ ids → pid ∈ PyDict.keys d) →
  omap (λ pid, f <$> PyDict.get pid d) ids =
    (λ k, default 0 (f <$> PyDict.get k d)) <$> ids.
Proof.
  induction ids as [|pid ids IH]; intros Hall; [done|].
  cbn [omap list_omap fmap list_fmap].
  destruct (proj2 (get_is_Some pid d)) as [v Hv];
    [apply Hall, elem_of_cons; by left|].
  rewrite Hv. cbn. f_equal. apply IH. intros q Hq. apply Hall, elem_of_cons.
  by right.
Qed.

Lemma length_sum_list {A} (l : list A) :
  Z.of_nat (length l) = sum_list ((λ _, 1) <$> l).
Proof.
  induction l as [|x l IH]; [done|].
  cbn [fmap list_fmap sum_list length] in *. lia.
Qed.

(** X14.  In every state the registry can reach, the statistics add up:
    the per-category counts sum to [total_prototypes], and the
    per-category clone totals sum to [total_clones_created]. *)
Theorem statistics_add_up (w : World) (o : gmap addr Resource)
    (c : gmap addr container) (ops : list op) :
  uuid_unique w →
  let s := get_statistics (run ops (initial w o c)) in
  sum_list ((λ x, count x.2) <$> categories s) = total_prototypes s ∧
  sum_list ((λ x, total_clones x.2) <$> categories s) = total_clones_created s.
Proof.
  intros Hu. set (st := run ops (initial w o c)). intros s.
  assert (Hlist : listing_inv st) by (by apply listing_run, listing_initial).
  destruct Hlist as [Hinv Hnd Hord].
  set (K := PyDict.keys (_prototypes (manager st))) in *.
  set (cc := λ p : addr, clone_count (deref st p)).
  assert (Hitem : ∀ x, x ∈ _categories (manager st) →
            x.2 = filter (λ pid, category_of (manager st) pid = Some x.1) K).
  { intros [c0 ids] Hin. apply Hord. by apply elem_of_get. }
  assert (Hcat : ∀ pid, pid ∈ K →
            ∃ c0, category_of (manager st) pid = Some c0 ∧ c0 ∈ PyDict.keys (_categories (manager st))).
  { intros pid Hin. unfold K in Hin. rewrite <-(inv_keys _ Hinv) in Hin.
    apply get_is_Some in Hin as [md Hmd].
    destruct (inv_listed _ Hinv pid md Hmd) as (ids & Hids & _).
    exists (PrototypeMetadata.category md). unfold category_of.
    rewrite Hmd. split; [done|]. apply get_is_Some. by eexists. }
  assert (Hsum : ∀ (g : string → Z) (F : list string → Z),
            (∀ l, (∀ pid, pid ∈ l → pid ∈ K) → F l = sum_list (g <$> l)) →
            sum_list ((λ x : string * list string, F x.2) <$> _categories (manager st)) =
            sum_list (g <$> K)).
  { intros g F HF.
    rewrite <-(sum_by_category (category_of (manager st)) g (PyDict.keys (_categories (manager st))) K)
      by done.
    unfold PyDict.keys. rewrite <-list_fmap_compose. apply sum_list_ext.
    intros x Hx. cbn. rewrite HF, (Hitem x Hx); [done|].
    intros pid Hpid. rewrite (Hitem x Hx) in Hpid.
    by apply list_elem_of_filter in Hpid as [_ ?]. }
  subst s. unfold get_statistics.
  cbn [categories total_prototypes total_clones_created].
  rewrite <-!list_fmap_compose. split.
  - transitivity (sum_list ((λ _, 1) <$> K)).
    + rewrite <-(Hsum (λ _, 1) (λ l, Z.of_nat (length l)))
        by (intros; apply length_sum_list).
      apply sum_list_ext. by intros [??].
    + rewrite <-length_sum_list. unfold K, PyDict.keys. by rewrite length_fmap.
  - set (g := λ k, default 0 (cc <$> PyDict.get k (_prototypes (manager st)))).
    transitivity (sum_list (g <$> K)).
    + rewrite <-(Hsum g
        (λ l, py_sum (omap (λ pid, cc <$> PyDict.get pid (_prototypes (manager st))) l))).
      * apply sum_list_ext. by intros [??].
      * intros l Hl. rewrite py_sum_sum_list. by rewrite omap_by_key.
    + rewrite py_sum_sum_list.
      change (map (λ p, clone_count (deref st p))) with (fmap (M:=list) cc).
      by rewrite (values_by_key cc) by apply (inv_nodup _ Hinv).
Qed.

Lemma statistics_add_up_witness :
  uuid_unique Scenario.counting_world ∧
  total_prototypes
    (get_statistics
       (run Scenario.history
          (initial Scenario.counting_world
             (objects (Scenario.with_web RUNNING))
             (cells (Scenario.with_web RUNNING))))) = 2 ∧
  sum_list
    ((λ x, count x.2) <$>
     categories
       (get_statistics
          (run Scenario.history
             (initial Scenario.counting_world
                (objects (Scenario.with_web RUNNING))
                (cells (Scenario.with_web RUNNING)))))) = 2.
Proof.
  split; [exact uuid_unique_counting|]. split; [vm_compute; reflexivity|].
  rewrite (proj1 (statistics_add_up Scenario.counting_world
                    (objects (Scenario.with_web RUNNING))
                    (cells (Scenario.with_web RUNNING))
                    Scenario.history uuid_unique_counting)).
  vm_compute. reflexivity.
Defined.

(** *** What [clone_prototype] returns *)

(** A registered AWS resource in a cloneable state: the call returns, and
    this is the state it leaves. *)
Lemma clone_prototype_returns pid new_name st self :
  get_prototype pid st = Some self →
  is_Some (objects st !! self) →
  aws_class (deref st self) = true →
  can_be_cloned (deref st self) = true →
  let c := fresh (dom (objects st)) in
  let r := deref st self in
  let w := world st in
  let s1 := Deepcopy.run_ref (cells st) (tags r) (cells st, ∅) in
  let rid :=
    PyStr.split_head (resource_id r) +:+ "-" +:+ uuid_src w (uuid_pos w) in
  let nm :=
    match new_name with
    | Some n => if PyStr.truthy n then n else name r
    | None => name r
    end in
  ∃ sp h',
    clone_prototype pid new_name st =
      Return (Some c)
         {| world := {| uuid_src := uuid_src w; uuid_pos := S (S (uuid_pos w));
                         clock_src := clock_src w;
                         clock_pos := S (S (clock_pos w)) |};
             objects :=
               <[self := set_last_cloned_at (Some (clock_src w (S (clock_pos w))))
                           (set_clone_count (clone_count r + 1) r)]>
               (<[c := {| prototype_id := "proto-" +:+ uuid_src w (S (uuid_pos w));
                          is_prototype := false;
                          cloned_from := Some (prototype_id r);
                          clone_count := 0;
                          created_at := clock_src w (clock_pos w);
                          last_cloned_at := None;
                          resource_id := rid;
                          name := nm; region := region r;
                          status := status r; tags := s1.1; specific := sp |}]>
                  (objects st));
             cells := h';
             manager :=
               match PyDict.get pid (_metadata (manager st)) with
               | Some md =>
                   set_metadata
                     (PyDict.set pid
                        (PrototypeMetadata.set_usage_count
                           (PrototypeMetadata.usage_count md + 1) md)
                        (_metadata (manager st))) (manager st)
               | None => manager st
               end |} ∧
    c ≠ self ∧ (c ∉ dom (objects st)) ∧
    same_class (specific r) sp ∧
    reset_policy r (cells st) rid sp h' ∧
    (∀ a, a ∈ dom s1.2.1 → h' !! a = s1.2.1 !! a) ∧
    (∀ a, a ∈ dom (cells st) → h' !! a = cells st !! a).
Proof.
  intros Hget Hlive Haws Hcan c r w s1 rid nm.
  destruct (clone_returns self st Hlive Haws)
    as (sp & h' & Hclone & Hc & Hcls & Hpol & Hfr & Hfr0).
  fold c r w s1 rid in Hclone, Hcls, Hpol, Hfr, Hfr0.
  exists sp, h'. split; [|repeat split; try done; apply is_fresh].
  unfold clone_prototype. rewrite Hget, Hcan. cbn [negb].
  rewrite Hclone. cbn [manager].
  assert (Hname : ∀ n,
    modify c (set_name n)
      {| world := {| uuid_src := uuid_src w; uuid_pos := S (S (uuid_pos w));
                     clock_src := clock_src w;
                     clock_pos := S (S (clock_pos w)) |};
         objects :=
           <[self := set_last_cloned_at (Some (clock_src w (S (clock_pos w))))
                       (set_clone_count (clone_count r + 1) r)]>
           (<[c := {| prototype_id := "proto-" +:+ uuid_src w (S (uuid_pos w));
                      is_prototype := false;
                      cloned_from := Some (prototype_id r);
                      clone_count := 0;
                      created_at := clock_src w (clock_pos w);
                      last_cloned_at := None;
                      resource_id := rid;
                      name := name r; region := region r;
                      status := status r; tags := s1.1; specific := sp |}]>
              (objects st));
         cells := h'; manager := manager st |} =
      {| world := {| uuid_src := uuid_src w; uuid_pos := S (S (uuid_pos w));
                     clock_src := clock_src w;
                     clock_pos := S (S (clock_pos w)) |};
         objects :=
           <[self := set_last_cloned_at (Some (clock_src w (S (clock_pos w))))
                       (set_clone_count (clone_count r + 1) r)]>
           (<[c := {| prototype_id := "proto-" +:+ uuid_src w (S (uuid_pos w));
                      is_prototype := false;
                      cloned_from := Some (prototype_id r);
                      clone_count := 0;
                      created_at := clock_src w (clock_pos w);
                      last_cloned_at := None;
                      resource_id := rid;
                      name := n; region := region r;
                      status := status r; tags := s1.1; specific := sp |}]>
              (objects st));
         cells := h'; manager := manager st |}).
  { intros n. unfold modify, deref. cbn [objects set_heap_objects world cells manager].
    f_equal. rewrite (lookup_total_insert_ne _ self c) by done.
    rewrite lookup_total_insert_eq. cbn [set_name prototype_id is_prototype
      cloned_from clone_count created_at last_cloned_at resource_id name region
      status tags specific].
    rewrite (insert_insert_ne _ c self) by done. by rewrite insert_insert_eq. }
  subst nm. destruct new_name as [n|]; [destruct (PyStr.truthy n)|];
    rewrite ?Hname; cbn [manager set_manager world objects cells];
    by destruct (PyDict.get pid (_metadata (manager st))).
Qed.

(** *** The two counters *)

Section MoreDictFacts2.
Context {V : Type}.
Implicit Types (d : list (string * V)) (k : string) (v : V).

Lemma del_absent k d : PyDict.get k d = None → PyDict.del k d = d.
Proof.
  induction d as [|[k' v'] d IH]; simpl; [done|].
  case_decide; [done|]. intros Hget. f_equal. by apply IH.
Qed.

Lemma get_del_Some k k' v d :
  NoDup (PyDict.keys d) →
  PyDict.get k' (PyDict.del k d) = Some v → k' ≠ k ∧ PyDict.get k' d = Some v.
Proof.
  intros Hnd Hget. destruct (decide (k = k')) as [<-|Hne].
  - by rewrite get_del_eq in Hget.
  - by rewrite get_del_ne in Hget.
Qed.

Lemma NoDup_keys_del k d :
  NoDup (PyDict.keys d) → NoDup (PyDict.keys (PyDict.del k d)).
Proof. intros Hnd. rewrite keys_del. by apply list_remove_first_NoDup. Qed.

End MoreDictFacts2.

Lemma deref_nonneg st a :
  (∀ b r, objects st !! b = Some r → 0 ≤ clone_count r) →
  0 ≤ clone_count (deref st a).
Proof.
  intros Hall. unfold deref. destruct (objects st !! a) as [r|] eqn:Hr.
  - rewrite (lookup_total_correct _ _ _ Hr). by eapply Hall.
  - by rewrite lookup_total_alt, Hr.
Qed.

Lemma mark_as_prototype_counts prototype n st :
  let st1 := mark_as_prototype prototype n st in
  (∀ a, clone_count (deref st1 a) = clone_count (deref st a)) ∧
  (∀ a, is_Some (objects st !! a) → is_Some (objects st1 !! a)) ∧
  is_Some (objects st1 !! prototype).
Proof.
  assert (Hone : ∀ f s,
    (∀ r, clone_count (f r) = clone_count r) →
    (∀ a, clone_count (deref (modify prototype f s) a) = clone_count (deref s a)) ∧
    (∀ a, is_Some (objects s !! a) → is_Some (objects (modify prototype f s) !! a)) ∧
    is_Some (objects (modify prototype f s) !! prototype)).
  { intros f s Hf. unfold modify, deref. cbn [objects set_heap_objects].
    repeat split.
    - intros a. destruct (decide (a = prototype)) as [->|Hne].
      + by rewrite lookup_total_insert_eq.
      + by rewrite lookup_total_insert_ne.
    - intros a Ha. destruct (decide (a = prototype)) as [->|Hne].
      + rewrite lookup_insert_eq. by eexists.
      + by rewrite lookup_insert_ne.
    - rewrite lookup_insert_eq. by eexists. }
  unfold mark_as_prototype.
  destruct (Hone (set_is_prototype true) st) as (H1 & H2 & H3); [done|].
  destruct n as [n|]; [destruct (PyStr.truthy n)|]; try done.
  destruct (Hone (set_name n) (modify prototype (set_is_prototype true) st))
    as (H1' & H2' & H3'); [done|].
  repeat split; [intros a; by rewrite H1'|by auto|done].
Qed.

Lemma counted_initial w o c :
  (∀ a r, o !! a = Some r → 0 ≤ clone_count r) → counted (initial w o c).
Proof. intros Ho. split; [exact Ho|constructor|constructor|done]. Qed.

Lemma counted_register prototype name description category tags st :
  counted st →
  counted (register_prototype prototype name description category tags st).2.
Proof.
  intros [Hnn Hndp Hndm Huse].
  destruct (register_prototype_spec prototype name description category tags st)
    as (_ & _ & _ & Hobj & md & _ & Husage & Hprotos & Hmeta & _).
  destruct (mark_as_prototype_counts prototype (Some name) st) as (Hcc & Hlive & Hnew).
  set (st' := (register_prototype prototype name description category tags st).2) in *.
  set (pid := "proto-" +:+ uuid_src (world st) (uuid_pos (world st))) in *.
  assert (Hderef : ∀ a, clone_count (deref st' a) = clone_count (deref st a)).
  { intros a. unfold deref at 1. rewrite Hobj. apply Hcc. }
  split.
  - intros a r Hr. rewrite <-(lookup_total_correct _ _ _ Hr).
    change (objects st' !!! a) with (deref st' a). rewrite Hderef.
    by apply deref_nonneg.
  - rewrite Hprotos. by apply NoDup_keys_set.
  - rewrite Hmeta. by apply NoDup_keys_set.
  - intros q a. rewrite Hprotos, Hmeta, Hobj.
    destruct (decide (pid = q)) as [<-|Hne].
    + rewrite !get_set_eq. intros [= <-]. split; [done|].
      intros md' [= <-]. rewrite Husage, Hderef. by apply deref_nonneg.
    + rewrite !get_set_ne by done. intros Hq.
      destruct (Huse q a Hq) as [Ha Hle]. split; [by apply Hlive|].
      intros mdq Hmdq. rewrite Hderef. by apply Hle.
Qed.

Lemma counted_clone pid new_name st :
  counted st → counted (state_of (clone_prototype pid new_name st)).
Proof.
  intros Hcounted. pose proof Hcounted as [Hnn Hndp Hndm Huse].
  destruct (get_prototype pid st) as [self|] eqn:Hget.
  2:{ unfold clone_prototype. by rewrite Hget. }
  destruct (Huse pid self Hget) as [Hlive Hle].
  destruct (can_be_cloned (deref st self)) eqn:Hcan.
  2:{ unfold clone_prototype. by rewrite Hget, Hcan. }
  destruct (aws_class (deref st self)) eqn:Haws.
  2:{ unfold clone_prototype. rewrite Hget, Hcan. cbn [negb].
      unfold aws_class in Haws.
      destruct (specific (deref st self)) as [| | | | |cls attrs] eqn:Hsp; try done.
      by rewrite (config_clone_raises st self cls attrs Hsp). }
  destruct (clone_prototype_returns pid new_name st self Hget Hlive Haws Hcan)
    as (sp & h' & -> & Hc & Hfresh & _).
  cbn [state_of].
  set (c := fresh (dom (objects st))) in *.
  assert (Hother : ∀ a, is_Some (objects st !! a) → a ≠ c).
  { intros a Ha ->. by apply Hfresh, elem_of_dom. }
  split; cbn [objects manager].
  - intros a r. destruct (decide (a = self)) as [->|Hs].
    + rewrite lookup_insert_eq. intros [= <-]. cbn.
      pose proof (deref_nonneg st self Hnn). lia.
    + rewrite lookup_insert_ne by done. destruct (decide (a = c)) as [->|Hac].
      * rewrite lookup_insert_eq. by intros [= <-].
      * rewrite lookup_insert_ne by done. apply Hnn.
  - by destruct (PyDict.get pid (_metadata (manager st))).
  - destruct (PyDict.get pid (_metadata (manager st))) as [md|] eqn:Hmd; [|done].
    cbn [_metadata set_metadata]. rewrite keys_set_old; [done|].
    apply get_is_Some. by eexists.
  - intros q a Hq.
    assert (Hq' : PyDict.get q (_prototypes (manager st)) = Some a)
      by (by destruct (PyDict.get pid (_metadata (manager st)))).
    destruct (Huse q a Hq') as [Ha Hqle]. pose proof (Hother a Ha) as Hac.
    unfold deref. cbn [objects]. split.
    + destruct (decide (a = self)) as [->|Hs].
      * rewrite lookup_insert_eq. by eexists.
      * by rewrite !lookup_insert_ne.
    + intros mdq Hmdq.
      assert (Hgrow : clone_count (deref st a) ≤
                clone_count
                  (<[self:=set_last_cloned_at
                             (Some (clock_src (world st) (S (clock_pos (world st)))))
                             (set_clone_count (clone_count (deref st self) + 1)
                                (deref st self))]>
                     (<[c:={| prototype_id :=
                                "proto-" +:+ uuid_src (world st) (S (uuid_pos (world st)));
                              is_prototype := false;
                              cloned_from := Some (prototype_id (deref st self));
                              clone_count := 0;
                              created_at := clock_src (world st) (clock_pos (world st));
                              last_cloned_at := None;
                              resource_id :=
                                PyStr.split_head (resource_id (deref st self)) +:+
                                "-" +:+ uuid_src (world st) (uuid_pos (world st));
                              name :=
                                match new_name with
                                | Some n =>
                                    if PyStr.truthy n then n else name (deref st self)
                                | None => name (deref st self)
                                end;
                              region := region (deref st self);
                              status := status (deref st self);
                              tags :=
                                (Deepcopy.run_ref (cells st) (tags (deref st self))
                                   (cells st, ∅)).1;
                              specific := sp |}]> (objects st)) !!! a)).
      { destruct (decide (a = self)) as [->|Hs].
        - rewrite lookup_total_insert_eq. cbn. lia.
        - rewrite !lookup_total_insert_ne by done. done. }
      destruct (PyDict.get pid (_metadata (manager st))) as [md|] eqn:Hmd.
      * cbn [_metadata set_metadata] in Hmdq.
        destruct (decide (pid = q)) as [<-|Hne].
        -- rewrite get_set_eq in Hmdq. injection Hmdq as <-.
           assert (a = self) as -> by (unfold get_prototype in Hget; congruence).
           rewrite lookup_total_insert_eq. cbn.
           pose proof (Hle md eq_refl). unfold deref in *. lia.
        -- rewrite get_set_ne in Hmdq by done.
           pose proof (Hqle mdq Hmdq). unfold deref in *. lia.
      * pose proof (Hqle mdq Hmdq). unfold deref in *. lia.
Qed.

Lemma remove_prototype_dicts pid st :
  PyDict.mem pid (_prototypes (manager st)) = true →
  let r := remove_prototype pid st in
  r.1 = true ∧
  world r.2 = world st ∧ objects r.2 = objects st ∧ cells r.2 = cells st ∧
  _prototypes (manager r.2) = PyDict.del pid (_prototypes (manager st)) ∧
  _metadata (manager r.2) = PyDict.del pid (_metadata (manager st)).
Proof.
  intros Hmem. unfold remove_prototype. rewrite Hmem. cbn [negb fst snd].
  cbn [world objects cells manager set_manager]. repeat split.
  - by repeat case_match.
  - repeat case_match; cbn in *; try done.
    all: symmetry; apply del_absent; by apply mem_false.
Qed.

Lemma counted_remove pid st : counted st → counted (remove_prototype pid st).2.
Proof.
  intros [Hnn Hndp Hndm Huse].
  destruct (PyDict.mem pid (_prototypes (manager st))) eqn:Hmem.
  2:{ by rewrite remove_prototype_absent. }
  destruct (remove_prototype_dicts pid st Hmem) as (_ & _ & Hobj & _ & Hp & Hm).
  split.
  - by rewrite Hobj.
  - rewrite Hp. by apply NoDup_keys_del.
  - rewrite Hm. by apply NoDup_keys_del.
  - intros q a. rewrite Hp, Hm, Hobj. intros [Hq Hget]%get_del_Some; [|done].
    destruct (Huse q a Hget) as [Ha Hle]. split; [done|].
    intros md [_ Hmd]%get_del_Some; [|done].
    unfold deref. rewrite Hobj. by apply Hle.
Qed.

Lemma counted_run ops st : counted st → counted (run ops st).
Proof.
  unfold run. revert st. induction ops as [|o ops IH]; intros st Hinv; [done|].
  cbn [foldl]. apply IH. destruct o; cbn [step];
    [by apply counted_register|by apply counted_clone|by apply counted_remove].
Qed.

(** X15.  The usage count the registry keeps for an id never exceeds the
    clone count of the resource registered under it: over any sequence of
    [register_prototype], [clone_prototype] and [remove_prototype] calls
    from an empty registry over a heap without negative clone counts,
    whatever the generator of ids.  (A clone through the registry bumps
    both counters, a direct [clone] only the resource's.) *)
Theorem usage_count_never_exceeds_clone_count (w : World)
    (o : gmap addr Resource) (c : gmap addr container) (ops : list op) :
  (∀ a r, o !! a = Some r → 0 ≤ clone_count r) →
  let st := run ops (initial w o c) in
  ∀ pid prototype md,
    PyDict.get pid (_prototypes (manager st)) = Some prototype →
    PyDict.get pid (_metadata (manager st)) = Some md →
    is_Some (objects st !! prototype) ∧
    PrototypeMetadata.usage_count md ≤ clone_count (deref st prototype).
Proof.
  intros Ho st pid prototype md Hp Hmd.
  assert (Hc : counted st) by (by apply counted_run, counted_initial).
  destruct (counted_usage _ Hc pid prototype Hp) as [Hlive Hle]. auto.
Qed.

Lemma web_counts_nonneg (s : ResourceStatus) :
  ∀ a r, objects (Scenario.with_web s) !! a = Some r → 0 ≤ clone_count r.
Proof.
  intros a r H. cbn [objects Scenario.with_web] in H.
  apply lookup_insert_Some in H as [[_ <-]|[_ H]]; [done|].
  by rewrite lookup_empty in H.
Qed.

Lemma usage_count_never_exceeds_clone_count_witness :
  (∀ a r, objects (Scenario.with_web RUNNING) !! a = Some r → 0 ≤ clone_count r) ∧
  ∃ md,
    PyDict.get "proto-1"
      (_metadata
         (manager
            (run Scenario.history
               (initial Scenario.counting_world
                  (objects (Scenario.with_web RUNNING))
                  (cells (Scenario.with_web RUNNING)))))) = Some md ∧
    PrototypeMetadata.usage_count md ≤
    clone_count
      (deref
         (run Scenario.history
            (initial Scenario.counting_world
               (objects (Scenario.with_web RUNNING))
               (cells (Scenario.with_web RUNNING)))) 0%nat).
Proof.
  split; [exact (web_counts_nonneg RUNNING)|].
  eexists. split; [vm_compute; reflexivity|].
  refine (proj2 (usage_count_never_exceeds_clone_count Scenario.counting_world
                   (objects (Scenario.with_web RUNNING))
                   (cells (Scenario.with_web RUNNING))
                   Scenario.history (web_counts_nonneg RUNNING)
                   "proto-1" 0%nat _ _ _)); vm_compute; reflexivity.
Defined.

(** *** Removal *)

Lemma list_prototypes_ids iso st :
  registry_inv st →
  details_prototype_id <$> list_prototypes iso None st =
    PyDict.keys (_prototypes (manager st)).
Proof.
  intros Hinv. rewrite list_prototypes_all. apply omap_total. intros pid Hin.
  destruct (entry_of_registered iso st pid Hinv Hin) as (p & md & _ & _ & ->).
  by eexists.
Qed.

(** X16.  In every state the registry can reach, [remove_prototype]
    answers whether the id was registered.  An unknown id leaves the state
    as it was.  A registered id disappears from the registry: it can no
    longer be looked up, it is in the id list of no category, and the
    listing loses exactly that entry, the others keeping their order.  The
    resource objects, the prototype and the clones taken from it among
    them, are not touched, and no category is dropped. *)
Theorem remove_prototype_drops_exactly_that_entry
    (isoformat : Z → string) (w : World) (o : gmap addr Resource)
    (c : gmap addr container) (ops : list op) (pid : string) :
  uuid_unique w →
  let st := run ops (initial w o c) in
  let r := remove_prototype pid st in
  r.1 = PyDict.mem pid (_prototypes (manager st)) ∧
  (r.1 = false → r.2 = st) ∧
  world r.2 = world st ∧ objects r.2 = objects st ∧ cells r.2 = cells st ∧
  get_categories r.2 = get_categories st ∧
  get_prototype pid r.2 = None ∧
  (∀ category ids,
     PyDict.get category (_categories (manager r.2)) = Some ids → pid ∉ ids) ∧
  details_prototype_id <$> list_prototypes isoformat None r.2 =
    filter (λ q, q ≠ pid)
      (details_prototype_id <$> list_prototypes isoformat None st).
Proof.
  intros Hu st r.
  assert (Hlist : listing_inv st) by (by apply listing_run, listing_initial).
  assert (Hlist' : listing_inv r.2) by (by apply listing_remove).
  pose proof (listing_registry _ Hlist) as Hinv.
  pose proof (listing_registry _ Hlist') as Hinv'.
  rewrite !list_prototypes_ids by done.
  destruct (PyDict.mem pid (_prototypes (manager st))) eqn:Hmem.
  - destruct (remove_prototype_dicts pid st Hmem) as (Hr & Hw & Ho & Hc & Hp & Hm).
    fold r in Hr, Hw, Ho, Hc, Hp, Hm.
    assert (Hgone : pid ∉ PyDict.keys (_prototypes (manager r.2))).
    { rewrite Hp. apply get_None, get_del_eq, (inv_nodup _ Hinv). }
    repeat split; try done.
    + by rewrite Hr.
    + destruct (remove_prototype_spec pid st Hinv Hmem) as (md & ids & _ & Hids & Heq).
      subst r. rewrite Heq. unfold get_categories. cbn [snd manager set_manager _categories].
      apply keys_set_old, get_is_Some. by eexists.
    + unfold get_prototype. by apply get_None.
    + intros category ids Hids Hin.
      rewrite (listing_order _ Hlist' _ _ Hids) in Hin.
      by apply list_elem_of_filter in Hin as [_ Hin].
    + rewrite Hp, keys_del. apply list_remove_first_filter, (inv_nodup _ Hinv).
  - assert (Hsame : r = (false, st)) by (by apply remove_prototype_absent).
    assert (Hnot : pid ∉ PyDict.keys (_prototypes (manager st))).
    { intros Hin%mem_true. congruence. }
    rewrite Hsame. cbn [fst snd]. repeat split; try done.
    + unfold get_prototype. by apply get_None.
    + intros category ids Hids Hin.
      rewrite (listing_order _ Hlist _ _ Hids) in Hin.
      by apply list_elem_of_filter in Hin as [_ Hin].
    + symmetry. apply filter_all. by intros q Hq ->.
Qed.

Lemma remove_prototype_drops_exactly_that_entry_witness :
  uuid_unique Scenario.counting_world ∧
  (remove_prototype "proto-1"
     (run Scenario.history
        (initial Scenario.counting_world
           (objects (Scenario.with_web RUNNING))
           (cells (Scenario.with_web RUNNING))))).1 = true ∧
  details_prototype_id <$>
    list_prototypes (λ _, "") None
      (remove_prototype "proto-1"
         (run Scenario.history
            (initial Scenario.counting_world
               (objects (Scenario.with_web RUNNING))
               (cells (Scenario.with_web RUNNING))))).2 =
  ["proto-4"].
Proof.
  split; [exact uuid_unique_counting|].
  destruct (remove_prototype_drops_exactly_that_entry (λ _, "")
              Scenario.counting_world
              (objects (Scenario.with_web RUNNING))
              (cells (Scenario.with_web RUNNING))
              Scenario.history "proto-1" uuid_unique_counting)
    as (Hr & _ & _ & _ & _ & _ & _ & _ & Hids).
  split.
  - rewrite Hr. vm_compute. reflexivity.
  - rewrite Hids. vm_compute. reflexivity.
Defined.

(** ** The resource store: saving *)

(** X17.  [save] files an object under its [id], or under its
    [resource_id] when it has no (or an empty) [id], and raises
    [ValueError], leaving the repository as it was, exactly when it has
    neither.  What was saved is what [get] returns for that key, unless a
    product is stored under the same key (or the object is falsy); the
    products and the other keys are not touched. *)
Theorem save_then_get {Obj : Type} (attr_id attr_resource_id : Obj → option string)
    (truthy : Obj → bool) (vm : Obj) (repo : VMRepository Obj) :
  (∀ k, str_or (attr_id vm) (attr_resource_id vm) = Some k →
        PyStr.truthy k = true →
        ∃ repo',
          VMRepository_save attr_id attr_resource_id vm repo = Return tt repo' ∧
          _products_store repo' = _products_store repo ∧
          _store repo' !! k = Some vm ∧
          (∀ k', k' ≠ k → _store repo' !! k' = _store repo !! k') ∧
          (_products_store repo !! k = None → truthy vm = true →
           VMRepository_get truthy k repo' = Return vm repo') ∧
          (∀ p, _products_store repo !! k = Some p →
                VMRepository_get truthy k repo' = Return p repo')) ∧
  ((∀ k, str_or (attr_id vm) (attr_resource_id vm) = Some k →
         PyStr.truthy k = false) →
   VMRepository_save attr_id attr_resource_id vm repo =
     Raise (ValueError "El recurso debe tener 'id' o 'resource_id'") repo) ∧
  (∀ k, attr_id vm = Some k → PyStr.truthy k = true →
        str_or (attr_id vm) (attr_resource_id vm) = Some k).
Proof.
  split; [|split].
  - intros k Hk Htruthy. unfold VMRepository_save. rewrite Hk, Htruthy.
    cbn [negb]. eexists. split; [done|]. cbn [_store _products_store].
    split; [done|]. split; [by rewrite lookup_insert_eq|].
    split; [intros k' Hne; by rewrite lookup_insert_ne|].
    unfold VMRepository_get. cbn [_store _products_store]. split.
    + intros -> Hvm. by rewrite lookup_insert_eq, Hvm.
    + by intros p ->.
  - intros Hnone. unfold VMRepository_save.
    destruct (str_or (attr_id vm) (attr_resource_id vm)) as [k|]; [|done].
    by rewrite (Hnone k eq_refl).
  - intros k Hk Htruthy. unfold str_or. by rewrite Hk, Htruthy.
Qed.

(** X18.  A product saved with [save_product] is what [get] returns for
    its resource id, whatever the DTO store holds under that id; after
    [delete] of the id, [get] raises [KeyError]. *)
Theorem save_product_get_delete {Obj : Type}
    (attr_resource_id : Obj → option string) (truthy : Obj → bool)
    (product : Obj) (repo : VMRepository Obj) (k : string) :
  attr_resource_id product = Some k →
  PyStr.truthy k = true →
  ∃ repo1 repo2,
    save_product attr_resource_id product repo = Return tt repo1 ∧
    _store repo1 = _store repo ∧
    VMRepository_get truthy k repo1 = Return product repo1 ∧
    VMRepository_delete k repo1 = Return tt repo2 ∧
    VMRepository_get truthy k repo2 = Raise (KeyError "VM not found") repo2.
Proof.
  intros Hk Htruthy. unfold save_product. rewrite Hk, Htruthy. cbn [negb].
  eexists _, {| _store := delete k (_store repo);
                _products_store := delete k (<[k:=product]> (_products_store repo)) |}.
  split; [done|]. split; [done|].
  unfold VMRepository_get, VMRepository_delete. cbn [_store _products_store].
  rewrite lookup_insert_eq. split; [done|].
  rewrite !lookup_delete_eq. split; [|done].
  destruct (_store repo !! k) as [vm|] eqn:Hs.
  - rewrite bool_decide_eq_true_2 by eauto. cbn [_store _products_store].
    by rewrite lookup_insert_eq, bool_decide_eq_true_2 by eauto.
  - rewrite bool_decide_eq_false_2 by (by intros [? ?]).
    cbn [_store _products_store].
    rewrite lookup_insert_eq, bool_decide_eq_true_2 by eauto. cbn [negb].
    by rewrite (delete_id (_store repo) k).
Qed.

Lemma save_product_get_delete_witness :
  Examples.product_id (Scenario.with_web RUNNING) (Examples.Product 0%nat) =
    Some "i-abc123" ∧
  PyStr.truthy "i-abc123" = true ∧
  ∃ repo1 repo2,
    save_product (Examples.product_id (Scenario.with_web RUNNING))
      (Examples.Product 0%nat)
      {| _store := <["i-abc123" := Examples.DTO "i-abc123"]> ∅;
         _products_store := ∅ |} = Return tt repo1 ∧
    VMRepository_get (λ _, true) "i-abc123" repo1 =
      Return (Examples.Product 0%nat) repo1 ∧
    VMRepository_delete "i-abc123" repo1 = Return tt repo2 ∧
    VMRepository_get (λ _, true) "i-abc123" repo2 =
      Raise (KeyError "VM not found") repo2.
Proof.
  split; [reflexivity|]. split; [reflexivity|].
  destruct (save_product_get_delete
              (Examples.product_id (Scenario.with_web RUNNING)) (λ _, true)
              (Examples.Product 0%nat)
              {| _store := <["i-abc123" := Examples.DTO "i-abc123"]> ∅;
                 _products_store := ∅ |} "i-abc123" eq_refl eq_refl)
    as (repo1 & repo2 & H1 & _ & H2 & H3 & H4).
  exists repo1, repo2. exact (conj H1 (conj H2 (conj H3 H4))).
Defined.

(** ** The endpoints *)

Lemma truthy_with_dash (p u : string) : PyStr.truthy (p +:+ "-" +:+ u) = true.
Proof. by destruct p. Qed.

Lemma register_prototype_lookup prototype name description category tags st :
  let r := register_prototype prototype name description category tags st in
  r.1 = "proto-" +:+ uuid_src (world st) (uuid_pos (world st)) ∧
  get_prototype r.1 r.2 = Some prototype ∧
  objects r.2 = objects (mark_as_prototype prototype (Some name) st) ∧
  ∃ md,
    PyDict.get r.1 (_metadata (manager r.2)) = Some md ∧
    PrototypeMetadata.category md = category ∧
    PrototypeMetadata.usage_count md = 0.
Proof.
  intros r.
  destruct (register_prototype_spec prototype name description category tags st)
    as (Hpid & _ & _ & Hobj & md & Hcat & Husage & Hprotos & Hmeta & _).
  fold r in Hpid, Hobj, Hprotos, Hmeta.
  split; [done|]. split; [|split; [done|]].
  - unfold get_prototype. by rewrite Hprotos, Hpid, get_set_eq.
  - exists md. by rewrite Hmeta, Hpid, get_set_eq.
Qed.

(** The clone endpoint on a registered AWS resource in a cloneable state
    whose tags are a dict of strings: the answer and the state it leaves. *)
Lemma clone_endpoint_returns {Obj : Type} (of_resource : addr → Obj)
    (pid : string) (request : ClonePrototypeRequest) (st : State)
    (repo : VMRepository Obj) (self : addr) (kvs : list (string * value)) :
  req_prototype_id request = pid →
  get_prototype pid st = Some self →
  is_Some (objects st !! self) →
  aws_class (deref st self) = true →
  can_be_cloned (deref st self) = true →
  cells st !! tags (deref st self) = Some (DictObj kvs) →
  flat (DictObj kvs) →
  let c := fresh (dom (objects st)) in
  let r := deref st self in
  let w := world st in
  let f := fresh (dom (cells st)) in
  let rid :=
    PyStr.split_head (resource_id r) +:+ "-" +:+ uuid_src w (uuid_pos w) in
  let nm :=
    match req_new_name request with
    | Some n => if PyStr.truthy n then n else name r
    | None => name r
    end in
  let custom :=
    match req_custom_tags request with
    | Some l => prod_map id VStr <$> l
    | None => []
    end in
  ∃ sp h',
    clone_prototype_endpoint of_resource pid request (st, repo) =
      ({| status_code := 201;
          detail := "Prototype cloned successfully as '" +:+ nm +:+ "'";
          cloned_resource := Some c |},
       ({| world := {| uuid_src := uuid_src w; uuid_pos := S (S (uuid_pos w));
                       clock_src := clock_src w;
                       clock_pos := S (S (clock_pos w)) |};
           objects :=
             <[self := set_last_cloned_at (Some (clock_src w (S (clock_pos w))))
                         (set_clone_count (clone_count r + 1) r)]>
             (<[c := {| prototype_id := "proto-" +:+ uuid_src w (S (uuid_pos w));
                        is_prototype := false;
                        cloned_from := Some (prototype_id r);
                        clone_count := 0;
                        created_at := clock_src w (clock_pos w);
                        last_cloned_at := None;
                        resource_id := rid;
                        name := nm; region := region r;
                        status := status r; tags := f; specific := sp |}]>
                (objects st));
           cells := h';
           manager :=
             match PyDict.get pid (_metadata (manager st)) with
             | Some md =>
                 set_metadata
                   (PyDict.set pid
                      (PrototypeMetadata.set_usage_count
                         (PrototypeMetadata.usage_count md + 1) md)
                      (_metadata (manager st))) (manager st)
             | None => manager st
             end |},
        {| _store := _store repo;
           _products_store := <[rid := of_resource c]> (_products_store repo) |})) ∧
    c ≠ self ∧ (c ∉ dom (objects st)) ∧ (f ∉ dom (cells st)) ∧
    same_class (specific r) sp ∧
    h' !! f = Some (DictObj (PyDict.update custom kvs)) ∧
    (∀ a, a ∈ dom (cells st) → h' !! a = cells st !! a).
Proof.
  intros Hid Hget Hlive Haws Hcan Htags Hflat c r w f rid nm custom.
  destruct (clone_prototype_returns pid (req_new_name request) st self
              Hget Hlive Haws Hcan)
    as (sp & h' & Hclone & Hc & Hfresh & Hcls & _ & Hfr & Hfr0).
  rewrite (deepcopy_flat (cells st) (tags (deref st self)) (DictObj kvs) Htags Hflat)
    in Hclone, Hfr.
  cbn [fst snd] in Hclone, Hfr.
  fold c r w rid nm f in Hclone, Hcls, Hfr, Hfr0.
  assert (Hf : f ∉ dom (cells st)) by apply is_fresh.
  assert (Hcopy : h' !! f = Some (DictObj kvs)).
  { rewrite Hfr; [by rewrite lookup_insert_eq|].
    rewrite dom_insert_L. apply elem_of_union. left. by apply elem_of_singleton. }
  unfold clone_prototype_endpoint.
  rewrite Hid, bool_decide_eq_false_2 by (by intros ?). rewrite Hclone.
  set (m' := match PyDict.get pid (_metadata (manager st)) with
             | Some md => _ | None => _ end).
  assert (Hrid : PyStr.truthy rid = true) by apply truthy_with_dash.
  subst custom.
  destruct (req_custom_tags request) as [[|kv l]|].
  - unfold deref, store_resource. cbn [objects cells].
    rewrite !(lookup_total_insert_ne _ self c) by done.
    rewrite !lookup_total_insert_eq. cbn [tags resource_id name].
    rewrite Hrid. cbn [negb].
    exists sp, h'. repeat split; try done.
  - unfold tags_update, deref. cbn [objects cells].
    rewrite !(lookup_total_insert_ne _ self c) by done.
    rewrite !lookup_total_insert_eq. cbn [tags].
    rewrite (lookup_total_correct _ _ _ Hcopy).
    unfold store_resource. cbn [objects cells set_cells world manager].
    rewrite !(lookup_total_insert_ne _ self c) by done.
    rewrite !lookup_total_insert_eq. cbn [tags resource_id name].
    rewrite Hrid. cbn [negb].
    eexists sp, _. split; [reflexivity|]. repeat split; try done.
    + by rewrite lookup_insert_eq.
    + intros a Ha. rewrite lookup_insert_ne; [by apply Hfr0|].
      intros <-. done.
  - unfold deref, store_resource. cbn [objects cells].
    rewrite !(lookup_total_insert_ne _ self c) by done.
    rewrite !lookup_total_insert_eq. cbn [tags resource_id name].
    rewrite Hrid. cbn [negb].
    exists sp, h'. repeat split; try done.
Qed.

(** X19.  The custom tags of a clone request land on the clone only.  For
    a registered AWS resource in a cloneable state whose tags are a dict of
    strings, the clone endpoint answers 201; the clone's tags are a new
    dict holding the prototype's tags updated with the custom tags (in the
    order of [dict.update]), and the prototype's own tags dict is as it was
    before the request. *)
Theorem custom_tags_land_on_the_clone_only {Obj : Type}
    (of_resource : addr → Obj) (pid : string) (new_name : option string)
    (custom_tags : option (list (string * string))) (st : State)
    (repo : VMRepository Obj) (self : addr) (kvs : list (string * value)) :
  get_prototype pid st = Some self →
  is_Some (objects st !! self) →
  aws_class (deref st self) = true →
  can_be_cloned (deref st self) = true →
  cells st !! tags (deref st self) = Some (DictObj kvs) →
  flat (DictObj kvs) →
  ∃ res c st' repo',
    clone_prototype_endpoint of_resource pid
      {| req_prototype_id := pid; req_new_name := new_name;
         req_custom_tags := custom_tags |} (st, repo) = (res, (st', repo')) ∧
    status_code res = 201 ∧ cloned_resource res = Some c ∧
    tags (deref st' self) = tags (deref st self) ∧
    tags (deref st' c) ≠ tags (deref st self) ∧
    cells st' !! tags (deref st' self) = Some (DictObj kvs) ∧
    cells st' !! tags (deref st' c) =
      Some (DictObj (PyDict.update
                       (prod_map id VStr <$> default [] custom_tags) kvs)).
Proof.
  intros Hget Hlive Haws Hcan Htags Hflat.
  destruct (clone_endpoint_returns of_resource pid
              {| req_prototype_id := pid; req_new_name := new_name;
                 req_custom_tags := custom_tags |} st repo self kvs
              eq_refl Hget Hlive Haws Hcan Htags Hflat)
    as (sp & h' & Heq & Hc & _ & Hf & _ & Hcopy & Hfr).
  eexists _, _, _, _. split; [exact Heq|]. cbn [status_code cloned_resource].
  split; [done|]. split; [done|].
  assert (Hin : tags (deref st self) ∈ dom (cells st)) by (by apply elem_of_dom).
  unfold deref in *. cbn [objects cells].
  rewrite lookup_total_insert_eq.
  rewrite (lookup_total_insert_ne _ self) by done.
  rewrite lookup_total_insert_eq. cbn [tags set_last_cloned_at set_clone_count].
  split; [done|]. split; [by intros Heq'; rewrite Heq' in Hf|].
  split; [by rewrite Hfr|].
  cbn [req_custom_tags] in Hcopy. by destruct custom_tags.
Qed.

Lemma custom_tags_land_on_the_clone_only_witness :
  get_prototype "proto-1a2b3c4d" (Scenario.registered RUNNING).2 = Some 0%nat ∧
  ∃ res c st' repo',
    clone_prototype_endpoint (λ _ : addr, "product") "proto-1a2b3c4d"
      {| req_prototype_id := "proto-1a2b3c4d"; req_new_name := Some "web-prod-01";
         req_custom_tags := Some [("env", "staging"); ("instance_number", "01")] |}
      ((Scenario.registered RUNNING).2, Scenario.repo) = (res, (st', repo')) ∧
    status_code res = 201 ∧ cloned_resource res = Some c ∧
    cells st' !! tags (deref st' 0%nat) = Some (DictObj [("env", VStr "prod")]) ∧
    cells st' !! tags (deref st' c) =
      Some (DictObj [("env", VStr "staging"); ("instance_number", VStr "01")]).
Proof.
  assert (H1 : get_prototype "proto-1a2b3c4d" (Scenario.registered RUNNING).2 =
               Some 0%nat) by (vm_compute; reflexivity).
  assert (H2 : is_Some (objects (Scenario.registered RUNNING).2 !! 0%nat))
    by (vm_compute; eauto).
  assert (H3 : aws_class (deref (Scenario.registered RUNNING).2 0%nat) = true)
    by (vm_compute; reflexivity).
  assert (H4 : can_be_cloned (deref (Scenario.registered RUNNING).2 0%nat) = true)
    by (vm_compute; reflexivity).
  assert (H5 : cells (Scenario.registered RUNNING).2
                 !! tags (deref (Scenario.registered RUNNING).2 0%nat) =
               Some (DictObj [("env", VStr "prod")]))
    by (vm_compute; reflexivity).
  assert (H6 : flat (DictObj [("env", VStr "prod")])).
  { repeat constructor. intros b. discriminate. }
  split; [exact H1|].
  destruct (custom_tags_land_on_the_clone_only (λ _ : addr, "product")
              "proto-1a2b3c4d" (Some "web-prod-01")
              (Some [("env", "staging"); ("instance_number", "01")])
              (Scenario.registered RUNNING).2 Scenario.repo 0%nat
              [("env", VStr "prod")] H1 H2 H3 H4 H5 H6)
    as (res & c & st' & repo' & Heq & Hs & Hc & _ & _ & Hsrc & Hclone).
  exists res, c, st', repo'.
  exact (conj Heq (conj Hs (conj Hc (conj Hsrc Hclone)))).
Defined.

(** [register_prototype] allocates at most one new dict. *)
Lemma register_prototype_cells prototype name description category tags st b :
  b ∈ dom (cells st) →
  cells (register_prototype prototype name description category tags st).2 !! b =
    cells st !! b.
Proof.
  intros Hb.
  assert (Hne : fresh (dom (cells st)) ≠ b).
  { intros Heq. rewrite <-Heq in Hb. by apply (is_fresh (dom (cells st))). }
  unfold register_prototype, PrototypeMetadata_init, mark_as_prototype.
  cbn [uuid4_hex8].
  destruct (PyStr.truthy name);
    (destruct tags as [a|]; [destruct (container_truthy _)|]);
    cbn; destruct (PyDict.mem category (_categories (manager st)));
    cbn; by rewrite ?lookup_insert_ne.
Qed.

(** What [create_prototype] does once the resource is found and may be
    cloned. *)
Lemma create_prototype_registers {Obj : Type} (isoformat : Z → string)
    (truthy : Obj → bool) (as_resource : Obj → option addr)
    (request : CreatePrototypeRequest) (st : State) (repo : VMRepository Obj)
    (obj : Obj) (a : addr) :
  VMRepository_get truthy (create_resource_id request) repo = Return obj repo →
  truthy obj = true →
  as_resource obj = Some a →
  can_be_cloned (deref st a) = true →
  let pid := "proto-" +:+ uuid_src (world st) (uuid_pos (world st)) in
  ∃ st' md,
    create_prototype_endpoint isoformat truthy as_resource request (st, repo) =
      ({| response_status := 201;
          response_message :=
            "Prototype '" +:+ create_name request +:+ "' created successfully";
          response_prototype_id := Some pid;
          response_details := Some (details isoformat pid a md st') |},
       (st', repo)) ∧
    get_prototype pid st' = Some a ∧
    PyDict.get pid (_metadata (manager st')) = Some md ∧
    PrototypeMetadata.category md = category_value (create_category request) ∧
    PrototypeMetadata.usage_count md = 0 ∧
    objects st' = objects (mark_as_prototype a (Some (create_name request)) st) ∧
    (∀ b, b ∈ dom (cells st) → cells st' !! b = cells st !! b) ∧
    uuid_src (world st') = uuid_src (world st) ∧
    uuid_pos (world st') = S (uuid_pos (world st)).
Proof.
  intros Hget Htruthy Has Hcan pid.
  unfold create_prototype_endpoint. rewrite Hget, Htruthy, Has, Hcan. cbn [negb].
  set (cell := match create_tags request with
               | Some (kv :: kvs) => DictObj (prod_map id VStr <$> kv :: kvs)
               | _ => DictObj []
               end).
  assert (Halloc :
    match create_tags request with
    | Some (kv :: kvs) => alloc_cell (DictObj (prod_map id VStr <$> kv :: kvs)) st
    | _ => alloc_cell (DictObj []) st
    end = alloc_cell cell st).
  { subst cell. by destruct (create_tags request) as [[|??]|]. }
  rewrite Halloc. clear Halloc. unfold alloc_cell.
  set (tg := fresh (dom (cells st))).
  set (st0 := set_cells (<[tg:=cell]> (cells st)) st).
  pose proof (register_prototype_lookup a (create_name request)
                (create_description request)
                (category_value (create_category request)) (Some tg) st0)
    as (Hpid & Hproto & Hobj & md & Hmd & Hcat & Husage).
  destruct (register_prototype_spec a (create_name request)
                (create_description request)
                (category_value (create_category request)) (Some tg) st0)
    as (_ & Hsrc & Hpos & _).
  pose proof (register_prototype_cells a (create_name request)
                (create_description request)
                (category_value (create_category request)) (Some tg) st0) as Hcells.
  destruct (register_prototype a (create_name request)
              (create_description request)
              (category_value (create_category request)) (Some tg) st0)
    as [pid' st'] eqn:Hreg.
  cbn [fst snd] in *. change (world st0) with (world st) in *.
  fold pid in Hpid. subst pid'.
  rewrite Hproto, Hmd. exists st', md. repeat split; try done.
  { rewrite Hobj. subst st0. unfold mark_as_prototype.
    by destruct (PyStr.truthy (create_name request)). }
  intros b Hb. rewrite Hcells.
  - subst st0. cbn [cells set_cells]. rewrite lookup_insert_ne; [done|].
    intros <-. by apply (is_fresh (dom (cells st))).
  - subst st0. cbn [cells set_cells]. rewrite dom_insert_L.
    apply elem_of_union. by right.
Qed.

Lemma VMRepository_get_state {Obj : Type} (truthy : Obj → bool) k
    (repo repo' : VMRepository Obj) obj :
  VMRepository_get truthy k repo = Return obj repo' → repo' = repo.
Proof.
  unfold VMRepository_get.
  destruct (_products_store repo !! k); [by intros [= _ <-]|].
  destruct (_store repo !! k) as [vm|]; [|done].
  destruct (truthy vm); [|done]. by intros [= _ <-].
Qed.

Lemma mark_as_prototype_marks a n st :
  let st1 := mark_as_prototype a (Some n) st in
  is_prototype (deref st1 a) = true ∧
  tags (deref st1 a) = tags (deref st a) ∧
  clone_count (deref st1 a) = clone_count (deref st a) ∧
  (∀ b, b ≠ a → objects st1 !! b = objects st !! b).
Proof.
  unfold mark_as_prototype, modify, deref.
  destruct (PyStr.truthy n); cbn [objects set_heap_objects];
    rewrite ?lookup_total_insert_eq; repeat split; try done;
    intros b Hb; by rewrite ?lookup_insert_ne.
Qed.

(** X20.  What [create_prototype] answers.  404 when the repository has no
    (truthy) object under the id; 400 when the object is no cloneable
    resource (a DTO) or a resource in state [deleting] or [error]; in both
    cases nothing is registered and the state is as it was.  Otherwise 201
    with the registry id [register_prototype] hands out, under which the
    resource can be looked up, the resource now marked as a prototype; the
    repository is not touched. *)
Theorem create_prototype_answers {Obj : Type} (isoformat : Z → string)
    (truthy : Obj → bool) (as_resource : Obj → option addr)
    (request : CreatePrototypeRequest) (st : State) (repo : VMRepository Obj) :
  let res :=
    create_prototype_endpoint isoformat truthy as_resource request (st, repo) in
  let rid := create_resource_id request in
  ((∀ obj, VMRepository_get truthy rid repo = Return obj repo → truthy obj = false) →
   res = (http_error 404 ("Resource with ID " +:+ rid +:+ " not found"),
          (st, repo))) ∧
  (∀ obj, VMRepository_get truthy rid repo = Return obj repo →
     truthy obj = true →
     as_resource obj = None ∨
     (∃ a, as_resource obj = Some a ∧ can_be_cloned (deref st a) = false) →
     res = (http_error 400
              ("Resource " +:+ rid +:+
               " cannot be used as prototype in its current state"),
            (st, repo))) ∧
  (∀ obj a, VMRepository_get truthy rid repo = Return obj repo →
     truthy obj = true → as_resource obj = Some a →
     can_be_cloned (deref st a) = true →
     response_status res.1 = 201 ∧ res.2.2 = repo ∧
     ∃ pid, response_prototype_id res.1 = Some pid ∧
            get_prototype pid res.2.1 = Some a ∧
            is_prototype (deref res.2.1 a) = true) ∧
  (response_status res.1 ≠ 201 → res.2 = (st, repo)).
Proof.
  intros res rid. split; [|split; [|split]].
  - intros Hnone. subst res. unfold create_prototype_endpoint. fold rid.
    destruct (VMRepository_get truthy rid repo) as [obj repo'|e repo'] eqn:Hg;
      [|done].
    pose proof (VMRepository_get_state _ _ _ _ _ Hg) as ->.
    by rewrite (Hnone obj eq_refl).
  - intros obj Hg Htruthy Hno. subst res. unfold create_prototype_endpoint.
    fold rid. rewrite Hg, Htruthy. cbn [negb].
    destruct Hno as [->|(a & -> & ->)]; done.
  - intros obj a Hg Htruthy Has Hcan.
    destruct (create_prototype_registers isoformat truthy as_resource request
                st repo obj a Hg Htruthy Has Hcan)
      as (st' & md & Heq & Hproto & _ & _ & _ & Hobj & _).
    subst res. rewrite Heq. cbn [fst snd response_status response_prototype_id].
    split; [done|]. split; [done|]. eexists. split; [done|]. split; [done|].
    unfold deref. rewrite Hobj.
    apply (mark_as_prototype_marks a (create_name request) st).
  - subst res. unfold create_prototype_endpoint. fold rid.
    destruct (VMRepository_get truthy rid repo) as [obj repo'|e repo'] eqn:Hg;
      [|done].
    pose proof (VMRepository_get_state _ _ _ _ _ Hg) as ->.
    destruct (truthy obj) eqn:Htruthy; [|done]. cbn [negb].
    destruct (as_resource obj) as [a|] eqn:Has; [|done].
    destruct (can_be_cloned (deref st a)) eqn:Hcan; [|done].
    destruct (create_prototype_registers isoformat truthy as_resource request
                st repo obj a Hg Htruthy Has Hcan) as (st' & md & Heq & _).
    unfold create_prototype_endpoint in Heq. fold rid in Heq.
    rewrite Hg, Htruthy, Has, Hcan in Heq. cbn [negb] in Heq. rewrite Heq.
    by intros [].
Qed.

(** X21.  From a stored product to a stored clone, through the two
    endpoints.  A live AWS resource in a cloneable state (its tags a dict
    of strings) that the repository returns for an id: [create_prototype]
    answers 201 with a registry id; the clone endpoint, asked for that id,
    answers 201 with a clone that is a new object, not a prototype itself,
    whose [cloned_from] is the [prototype_id] of the source; the clone is
    stored in the repository under its own resource id, the source is
    marked as a prototype with one more clone counted, and the usage count
    of the registry id is 1. *)
Theorem create_then_clone_through_the_endpoints {Obj : Type}
    (isoformat : Z → string) (truthy : Obj → bool)
    (as_resource : Obj → option addr) (of_resource : addr → Obj)
    (request : CreatePrototypeRequest) (new_name : option string)
    (custom_tags : option (list (string * string)))
    (st : State) (repo : VMRepository Obj) (obj : Obj) (a : addr)
    (kvs : list (string * value)) :
  VMRepository_get truthy (create_resource_id request) repo = Return obj repo →
  truthy obj = true →
  as_resource obj = Some a →
  is_Some (objects st !! a) →
  aws_class (deref st a) = true →
  can_be_cloned (deref st a) = true →
  cells st !! tags (deref st a) = Some (DictObj kvs) →
  flat (DictObj kvs) →
  ∃ res1 st1 pid res2 c st2 repo2,
    create_prototype_endpoint isoformat truthy as_resource request (st, repo) =
      (res1, (st1, repo)) ∧
    response_status res1 = 201 ∧ response_prototype_id res1 = Some pid ∧
    clone_prototype_endpoint of_resource pid
      {| req_prototype_id := pid; req_new_name := new_name;
         req_custom_tags := custom_tags |} (st1, repo) = (res2, (st2, repo2)) ∧
    status_code res2 = 201 ∧ cloned_resource res2 = Some c ∧
    (c ∉ dom (objects st)) ∧
    VMRepository_get truthy (resource_id (deref st2 c)) repo2 =
      Return (of_resource c) repo2 ∧
    cloned_from (deref st2 c) = Some (prototype_id (deref st a)) ∧
    is_prototype (deref st2 c) = false ∧
    is_prototype (deref st2 a) = true ∧
    clone_count (deref st2 a) = clone_count (deref st a) + 1 ∧
    PrototypeMetadata.usage_count <$> PyDict.get pid (_metadata (manager st2)) =
      Some 1.
Proof.
  intros Hg Htruthy Has Hlive Haws Hcan Htags Hflat.
  destruct (create_prototype_registers isoformat truthy as_resource request
              st repo obj a Hg Htruthy Has Hcan)
    as (st1 & md & Hcreate & Hproto & Hmd & _ & Husage & Hobj & Hcells & _).
  set (pid := "proto-" +:+ uuid_src (world st) (uuid_pos (world st))) in *.
  destruct (mark_as_prototype_deref a (create_name request) st)
    as (Hdom & Hlive1 & Hstatus & Hspec & Hproto_id & _).
  destruct (mark_as_prototype_marks a (create_name request) st)
    as (Hmark & Htg & Hcc & _).
  assert (Hderef : deref st1 a =
                   deref (mark_as_prototype a (Some (create_name request)) st) a)
    by (unfold deref; by rewrite Hobj).
  rewrite <-Hderef in Hstatus, Hspec, Hproto_id, Hmark, Htg, Hcc.
  rewrite <-Hobj in Hdom, Hlive1.
  assert (Haws1 : aws_class (deref st1 a) = true)
    by (unfold aws_class in *; by rewrite Hspec).
  assert (Hcan1 : can_be_cloned (deref st1 a) = true)
    by (unfold can_be_cloned in *; by rewrite Hstatus).
  assert (Htags1 : cells st1 !! tags (deref st1 a) = Some (DictObj kvs)).
  { rewrite Htg, Hcells; [done|]. by apply elem_of_dom. }
  destruct (clone_endpoint_returns of_resource pid
              {| req_prototype_id := pid; req_new_name := new_name;
                 req_custom_tags := custom_tags |} st1 repo a kvs
              eq_refl Hproto Hlive1 Haws1 Hcan1 Htags1 Hflat)
    as (sp & h' & Hclone & Hc & Hfresh & _).
  eexists _, st1, pid, _, _, _, _. split; [exact Hcreate|].
  cbn [response_status response_prototype_id]. split; [done|]. split; [done|].
  split; [exact Hclone|]. cbn [status_code cloned_resource].
  split; [done|]. split; [done|].
  split; [intros Hin; by apply Hfresh, Hdom|].
  unfold deref. cbn [objects manager].
  rewrite !(lookup_total_insert_ne _ a (fresh _)) by done.
  rewrite !lookup_total_insert_eq.
  cbn [resource_id cloned_from is_prototype clone_count set_last_cloned_at
       set_clone_count].
  unfold VMRepository_get. cbn [_products_store]. rewrite lookup_insert_eq.
  unfold deref in Hproto_id, Hmark, Hcc. rewrite Hproto_id, Hmark, Hcc, Hmd.
  cbn [_metadata set_metadata]. rewrite get_set_eq. cbn. rewrite Husage.
  repeat split; done.
Qed.

Lemma create_then_clone_through_the_endpoints_witness :
  VMRepository_get (λ _, true) "i-abc123" Examples.web_repo =
    Return (Examples.Product 0%nat) Examples.web_repo ∧
  ∃ res1 st1 pid res2 c st2 repo2,
    create_prototype_endpoint (λ _, "") (λ _, true) Examples.as_resource
      Examples.create_web (Scenario.with_web RUNNING, Examples.web_repo) =
      (res1, (st1, Examples.web_repo)) ∧
    response_prototype_id res1 = Some pid ∧
    clone_prototype_endpoint Examples.Product pid
      {| req_prototype_id := pid; req_new_name := Some "web-prod-01";
         req_custom_tags := None |} (st1, Examples.web_repo) =
      (res2, (st2, repo2)) ∧
    cloned_resource res2 = Some c ∧
    VMRepository_get (λ _, true) (resource_id (deref st2 c)) repo2 =
      Return (Examples.Product c) repo2.
Proof.
  assert (H1 : VMRepository_get (λ _, true) "i-abc123" Examples.web_repo =
               Return (Examples.Product 0%nat) Examples.web_repo)
    by (vm_compute; reflexivity).
  assert (H4 : is_Some (objects (Scenario.with_web RUNNING) !! 0%nat))
    by (vm_compute; eauto).
  assert (H8 : flat (DictObj [("env", VStr "prod")])).
  { repeat constructor. intros b. discriminate. }
  split; [exact H1|].
  destruct (create_then_clone_through_the_endpoints (λ _, "") (λ _, true)
              Examples.as_resource Examples.Product Examples.create_web
              (Some "web-prod-01") None (Scenario.with_web RUNNING)
              Examples.web_repo (Examples.Product 0%nat) 0%nat
              [("env", VStr "prod")] H1 eq_refl eq_refl H4 eq_refl eq_refl
              eq_refl H8)
    as (res1 & st1 & pid & res2 & c & st2 & repo2 & Hcreate & _ & Hpid &
        Hclone & _ & Hc & _ & Hrepo & _).
  exists res1, st1, pid, res2, c, st2, repo2.
  exact (conj Hcreate (conj Hpid (conj Hclone (conj Hc Hrepo)))).
Defined.

(** X22.  In every state the registry can reach, [delete_prototype]
    answers 200 exactly when the id is registered and 404, with the state
    as it was, otherwise.  Either way the resource objects are not touched
    and the id is unknown afterwards: the details endpoint and the clone
    endpoint both answer 404 for it, the latter leaving the state and the
    repository alone. *)
Theorem deleted_prototype_is_unknown_to_the_endpoints {Obj : Type}
    (isoformat : Z → string) (of_resource : addr → Obj)
    (w : World) (o : gmap addr Resource) (c : gmap addr container)
    (ops : list op) (pid : string) (request : ClonePrototypeRequest)
    (repo : VMRepository Obj) :
  uuid_unique w →
  req_prototype_id request = pid →
  let st := run ops (initial w o c) in
  let d := delete_prototype pid st in
  (is_Some (get_prototype pid st) →
   d.1 = {| response_status := 200;
            response_message := "Prototype " +:+ pid +:+ " deleted successfully";
            response_prototype_id := Some pid; response_details := None |}) ∧
  (get_prototype pid st = None →
   d = (http_error 404 ("Prototype with ID " +:+ pid +:+ " not found"), st)) ∧
  objects d.2 = objects st ∧
  get_prototype_details isoformat pid d.2 =
    http_error 404 ("Prototype with ID " +:+ pid +:+ " not found") ∧
  clone_prototype_endpoint of_resource pid request (d.2, repo) =
    ({| status_code := 404;
        detail := "Prototype with ID " +:+ pid +:+ " not found or cannot be cloned";
        cloned_resource := None |}, (d.2, repo)).
Proof.
  intros Hu Hid st d.
  assert (Hinv : registry_inv st) by (by apply inv_run, inv_initial).
  assert (Hafter : ∀ st', get_prototype pid st' = None →
    get_prototype_details isoformat pid st' =
      http_error 404 ("Prototype with ID " +:+ pid +:+ " not found") ∧
    clone_prototype_endpoint of_resource pid request (st', repo) =
      ({| status_code := 404;
          detail := "Prototype with ID " +:+ pid +:+ " not found or cannot be cloned";
          cloned_resource := None |}, (st', repo))).
  { intros st' Hnone.
    unfold get_prototype_details, clone_prototype_endpoint, clone_prototype.
    rewrite Hnone, Hid, bool_decide_eq_false_2 by (by intros ?). done. }
  subst d. unfold delete_prototype.
  destruct (PyDict.mem pid (_prototypes (manager st))) eqn:Hmem.
  - destruct (remove_prototype_dicts pid st Hmem) as (Hr & _ & Ho & _ & Hp & _).
    destruct (remove_prototype pid st) as [ok st'].
    cbn [fst snd] in *. subst ok. cbn [negb fst snd].
    assert (Hnone : get_prototype pid st' = None).
    { unfold get_prototype. rewrite Hp. apply get_del_eq, (inv_nodup _ Hinv). }
    split; [done|]. split.
    { unfold get_prototype. intros Hno. apply mem_false in Hno. congruence. }
    split; [done|]. by apply Hafter.
  - rewrite remove_prototype_absent by done. cbn [negb fst snd].
    apply mem_false in Hmem.
    split; [unfold get_prototype; rewrite Hmem; by intros [? ?]|].
    split; [done|]. split; [done|]. by apply Hafter.
Qed.

Lemma deleted_prototype_is_unknown_to_the_endpoints_witness :
  uuid_unique Scenario.counting_world ∧
  (delete_prototype "proto-1"
     (run Scenario.history
        (initial Scenario.counting_world
           (objects (Scenario.with_web RUNNING))
           (cells (Scenario.with_web RUNNING))))).1 =
    {| response_status := 200;
       response_message := "Prototype proto-1 deleted successfully";
       response_prototype_id := Some "proto-1"; response_details := None |}.
Proof.
  split; [exact uuid_unique_counting|].
  refine (proj1 (deleted_prototype_is_unknown_to_the_endpoints (λ _, "")
                   (λ _ : addr, "product") Scenario.counting_world
                   (objects (Scenario.with_web RUNNING))
                   (cells (Scenario.with_web RUNNING)) Scenario.history
                   "proto-1"
                   {| req_prototype_id := "proto-1"; req_new_name := None;
                      req_custom_tags := None |}
                   Scenario.repo uuid_unique_counting eq_refl) _).
  vm_compute. eauto.
Defined.

(** X23.  In every state the registry can reach, the details endpoint
    answers 200, with the current info of the resource and its metadata,
    exactly for the registered ids, and 404 "not found" for every other
    id: a registered id always has its metadata, so the second 404 of the
    endpoint ("Metadata for prototype ... not found") is never given. *)
Theorem details_are_given_exactly_for_registered_ids
    (isoformat : Z → string) (w : World) (o : gmap addr Resource)
    (c : gmap addr container) (ops : list op) (pid : string) :
  uuid_unique w →
  let st := run ops (initial w o c) in
  (∀ a, get_prototype pid st = Some a →
     ∃ md, PyDict.get pid (_metadata (manager st)) = Some md ∧
           get_prototype_details isoformat pid st =
             {| response_status := 200;
                response_message := "Prototype details retrieved successfully";
                response_prototype_id := Some pid;
                response_details := Some (details isoformat pid a md st) |}) ∧
  (get_prototype pid st = None →
     get_prototype_details isoformat pid st =
       http_error 404 ("Prototype with ID " +:+ pid +:+ " not found")).
Proof.
  intros Hu st.
  assert (Hinv : registry_inv st) by (by apply inv_run, inv_initial).
  unfold get_prototype_details. split.
  - intros a Ha. rewrite Ha.
    assert (Hin : pid ∈ PyDict.keys (_metadata (manager st))).
    { rewrite (inv_keys _ Hinv). apply get_is_Some. by exists a. }
    apply get_is_Some in Hin as [md Hmd]. exists md. by rewrite Hmd.
  - by intros ->.
Qed.

Lemma details_are_given_exactly_for_registered_ids_witness :
  uuid_unique Scenario.counting_world ∧
  response_status
    (get_prototype_details (λ _, "") "proto-4"
       (run Scenario.history
          (initial Scenario.counting_world
             (objects (Scenario.with_web RUNNING))
             (cells (Scenario.with_web RUNNING))))) = 200 ∧
  get_prototype_details (λ _, "") "proto-0"
    (run Scenario.history
       (initial Scenario.counting_world
          (objects (Scenario.with_web RUNNING))
          (cells (Scenario.with_web RUNNING)))) =
    http_error 404 "Prototype with ID proto-0 not found".
Proof.
  split; [exact uuid_unique_counting|].
  destruct (details_are_given_exactly_for_registered_ids (λ _, "")
              Scenario.counting_world
              (objects (Scenario.with_web RUNNING))
              (cells (Scenario.with_web RUNNING)) Scenario.history "proto-4"
              uuid_unique_counting) as [H200 _].
  destruct (details_are_given_exactly_for_registered_ids (λ _, "")
              Scenario.counting_world
              (objects (Scenario.with_web RUNNING))
              (cells (Scenario.with_web RUNNING)) Scenario.history "proto-0"
              uuid_unique_counting) as [_ H404].
  split.
  - destruct (H200 0%nat) as (md & _ & ->); [vm_compute; reflexivity|done].
  - apply H404. vm_compute. reflexivity.
Defined.

(** X24.  A clone taken through the registry under a new name keeps the
    addresses its class derives from the name of the source: [clone]
    computes them before [clone_prototype] renames the clone.  The endpoint
    of a database clone and the DNS name of a load-balancer clone are built
    from the source's name (the latter with the clone's own resource id),
    and the bucket name of a storage clone is the source's name. *)
Theorem renamed_clone_keeps_names_derived_from_the_source
    (pid new_name : string) (st : State) (self : addr) :
  get_prototype pid st = Some self →
  is_Some (objects st !! self) →
  can_be_cloned (deref st self) = true →
  PyStr.truthy new_name = true →
  let r := deref st self in
  (∀ x, specific r = RDSDatabase x →
     ∃ c st' y,
       clone_prototype pid (Some new_name) st = Return (Some c) st' ∧
       name (deref st' c) = new_name ∧
       specific (deref st' c) = RDSDatabase y ∧
       rds_endpoint y = name r +:+ "." +:+ region r +:+ ".rds.amazonaws.com") ∧
  (∀ x, specific r = S3Storage x →
     ∃ c st' y,
       clone_prototype pid (Some new_name) st = Return (Some c) st' ∧
       name (deref st' c) = new_name ∧
       specific (deref st' c) = S3Storage y ∧
       s3_bucket_name y = name r) ∧
  (∀ x, specific r = ApplicationLoadBalancer x →
     ∃ c st' y,
       clone_prototype pid (Some new_name) st = Return (Some c) st' ∧
       name (deref st' c) = new_name ∧
       specific (deref st' c) = ApplicationLoadBalancer y ∧
       alb_dns_name y =
         name r +:+ "-" +:+ PyStr.last8 (resource_id (deref st' c)) +:+ "." +:+
         region r +:+ ".elb.amazonaws.com").
Proof.
  intros Hget Hlive Hcan Hname r.
  assert (Hall : ∀ sp0, specific r = sp0 → aws_class r = true →
    ∃ c st' sp h',
      clone_prototype pid (Some new_name) st = Return (Some c) st' ∧
      name (deref st' c) = new_name ∧
      specific (deref st' c) = sp ∧
      same_class sp0 sp ∧
      reset_policy r (cells st) (resource_id (deref st' c)) sp h').
  { intros sp0 Hsp Haws.
    destruct (clone_prototype_returns pid (Some new_name) st self
                Hget Hlive Haws Hcan)
      as (sp & h' & Hclone & Hc & _ & Hcls & Hpol & _).
    rewrite Hname in Hclone. fold r in Hcls, Hpol. rewrite Hsp in Hcls.
    eexists _, _, sp, h'. split; [exact Hclone|].
    unfold deref. cbn [objects].
    rewrite !(lookup_total_insert_ne _ self (fresh _)) by done.
    rewrite !lookup_total_insert_eq. cbn [name specific resource_id]. done. }
  repeat split; intros x Hsp;
    (destruct (Hall _ Hsp) as (c & st' & sp & h' & Hclone & Hnm & Hspc & Hcls & Hpol);
     [unfold aws_class; fold r; by rewrite Hsp|]);
    unfold reset_policy in Hpol; rewrite Hsp in Hpol;
    destruct sp as [y|y|y|y|y|cls attrs]; try done;
    exists c, st', y; (split; [done|]); (split; [done|]); (split; [done|]).
  - done.
  - by destruct Hpol as (_ & _ & ?).
  - by destruct Hpol as (_ & _ & _ & _ & ?).
Qed.

Lemma renamed_clone_keeps_names_derived_from_the_source_witness :
  get_prototype "proto-1a2b3c4d" Samples.db_registered.2 = Some 0%nat ∧
  ∃ c st' y,
    clone_prototype "proto-1a2b3c4d" (Some "orders-copy")
      Samples.db_registered.2 = Return (Some c) st' ∧
    name (deref st' c) = "orders-copy" ∧
    specific (deref st' c) = RDSDatabase y ∧
    rds_endpoint y = "db-template.eu-west-1.rds.amazonaws.com".
Proof.
  assert (H1 : get_prototype "proto-1a2b3c4d" Samples.db_registered.2 =
               Some 0%nat) by (vm_compute; reflexivity).
  assert (H2 : is_Some (objects Samples.db_registered.2 !! 0%nat))
    by (vm_compute; eauto).
  split; [exact H1|].
  exact (proj1 (renamed_clone_keeps_names_derived_from_the_source
                  "proto-1a2b3c4d" "orders-copy" Samples.db_registered.2 0%nat
                  H1 H2 eq_refl eq_refl)
           {| rds_engine := "mysql"; rds_instance_class := "db.t3.micro";
              rds_allocated_storage := 20;
              rds_endpoint := "orders.eu-west-1.rds.amazonaws.com";
              rds_port := 3306 |} eq_refl).
Defined.

(** ** Buckets *)

(** X25.  Uploading and downloading on a bucket: [upload_file] returns and
    files a new object description under the key, replacing what the key
    held; a [download_file] of that key then returns, leaving the state as
    it is, and a [download_file] of a key the bucket does not hold raises
    [FileNotFoundError] naming the key and the bucket, before and after. *)
Theorem upload_then_download (self : addr) (key other : string) (st : State)
    (x : S3StorageAttrs) (kvs : list (string * value)) :
  specific (deref st self) = S3Storage x →
  cells st !! s3_objects x = Some (DictObj kvs) →
  other ≠ key →
  PyDict.mem other kvs = false →
  ∃ st1 o,
    S3Storage_upload_file self key st = Done tt st1 ∧
    (o ∉ dom (cells st)) ∧
    cells st1 !! s3_objects x = Some (DictObj (PyDict.set key (VRef o) kvs)) ∧
    cells st1 !! o =
      Some (DictObj [("size", VInt 1024);
                     ("last_modified", VStr "2024-01-01T00:00:00Z");
                     ("storage_class", VStr (s3_storage_class x))]) ∧
    objects st1 = objects st ∧
    S3Storage_download_file self key st1 = Done tt st1 ∧
    S3Storage_download_file self other st =
      Failed (FileNotFoundError
                ("Object " +:+ other +:+ " not found in bucket " +:+
                 s3_bucket_name x)) st ∧
    S3Storage_download_file self other st1 =
      Failed (FileNotFoundError
                ("Object " +:+ other +:+ " not found in bucket " +:+
                 s3_bucket_name x)) st1.
Proof.
  intros Hsp Hcell Hne Hother.
  assert (Hin : s3_objects x ∈ dom (cells st)) by (by apply elem_of_dom).
  assert (Hfresh : fresh (dom (cells st)) ≠ s3_objects x).
  { intros Heq. rewrite <-Heq in Hin. by apply (is_fresh (dom (cells st))). }
  unfold S3Storage_upload_file, S3Storage_download_file. rewrite Hsp.
  unfold alloc_cell. cbn [cells set_cells].
  rewrite lookup_total_insert_ne by done.
  rewrite (lookup_total_correct _ _ _ Hcell).
  eexists _, (fresh (dom (cells st))). split; [reflexivity|].
  split; [apply is_fresh|]. unfold deref in *. cbn [cells set_cells objects].
  rewrite Hsp, lookup_insert_eq, lookup_total_insert_eq.
  rewrite lookup_insert_ne by done. rewrite lookup_insert_eq.
  rewrite Hother. unfold PyDict.mem in *.
  rewrite get_set_eq, get_set_ne by done.
  by destruct (PyDict.get other kvs).
Qed.

Lemma upload_then_download_witness :
  specific (deref Buckets.with_bucket 0%nat) =
    S3Storage {| s3_bucket_name := "assets"; s3_storage_class := "STANDARD";
                 s3_objects := 1%nat; s3_versioning_enabled := false |} ∧
  "logo.png" ≠ "index.html" ∧
  ∃ st1,
    S3Storage_upload_file 0%nat "index.html" Buckets.with_bucket = Done tt st1 ∧
    S3Storage_download_file 0%nat "index.html" st1 = Done tt st1 ∧
    S3Storage_download_file 0%nat "logo.png" st1 =
      Failed (FileNotFoundError "Object logo.png not found in bucket assets") st1.
Proof.
  split; [reflexivity|]. split; [discriminate|].
  destruct (upload_then_download 0%nat "index.html" "logo.png"
              Buckets.with_bucket
              {| s3_bucket_name := "assets"; s3_storage_class := "STANDARD";
                 s3_objects := 1%nat; s3_versioning_enabled := false |} []
              eq_refl eq_refl ltac:(discriminate) eq_refl)
    as (st1 & o & Hup & _ & _ & _ & _ & Hdown & _ & Hmiss).
  exists st1. exact (conj Hup (conj Hdown Hmiss)).
Defined.

(** X26.  The clone of a bucket starts empty and stays apart from its
    source.  Whatever the source holds, a [download_file] on the clone
    raises [FileNotFoundError] (naming the source's name as the bucket)
    for every key, while the source's objects are as they were; and an
    upload to the clone afterwards does not reach the source. *)
Theorem bucket_clone_starts_empty (self : addr) (key : string) (st : State)
    (x : S3StorageAttrs) (kvs : list (string * value)) :
  is_Some (objects st !! self) →
  specific (deref st self) = S3Storage x →
  cells st !! s3_objects x = Some (DictObj kvs) →
  ∃ c st1 y,
    clone self st = Return c st1 ∧
    specific (deref st1 c) = S3Storage y ∧
    s3_objects y ≠ s3_objects x ∧
    cells st1 !! s3_objects y = Some (DictObj []) ∧
    cells st1 !! s3_objects x = Some (DictObj kvs) ∧
    S3Storage_download_file c key st1 =
      Failed (FileNotFoundError
                ("Object " +:+ key +:+ " not found in bucket " +:+
                 name (deref st self))) st1 ∧
    ∃ st2 o,
      S3Storage_upload_file c key st1 = Done tt st2 ∧
      cells st2 !! s3_objects y = Some (DictObj [(key, VRef o)]) ∧
      cells st2 !! s3_objects x = Some (DictObj kvs) ∧
      S3Storage_download_file c key st2 = Done tt st2.
Proof.
  intros Hlive Hsp Hcell.
  assert (Haws : aws_class (deref st self) = true)
    by (unfold aws_class; by rewrite Hsp).
  assert (Hin : s3_objects x ∈ dom (cells st)) by (by apply elem_of_dom).
  destruct (clone_returns self st Hlive Haws)
    as (sp & h' & Hclone & Hc & Hcls & Hpol & _ & Hfr).
  unfold reset_policy in Hpol. rewrite Hsp in Hcls, Hpol.
  destruct sp as [y|y|y|y|y|cls attrs]; try done.
  destruct Hpol as (Hnew & Hempty & Hbucket).
  assert (Hne : s3_objects y ≠ s3_objects x) by (intros Heq; by rewrite Heq in Hnew).
  assert (Hold : h' !! s3_objects x = Some (DictObj kvs)) by (by rewrite Hfr).
  assert (Hiny : s3_objects y ∈ dom h') by (by apply elem_of_dom).
  assert (Hfresh : fresh (dom h') ≠ s3_objects y).
  { intros Heq. rewrite <-Heq in Hiny. by apply (is_fresh (dom h')). }
  assert (Hinx : s3_objects x ∈ dom h') by (by apply elem_of_dom).
  assert (Hfresh' : fresh (dom h') ≠ s3_objects x).
  { intros Heq. rewrite <-Heq in Hinx. by apply (is_fresh (dom h')). }
  eexists _, _, y. split; [exact Hclone|].
  unfold S3Storage_download_file, S3Storage_upload_file, alloc_cell, deref.
  cbn [objects cells set_cells].
  rewrite !(lookup_total_insert_ne _ self (fresh _)) by done.
  rewrite !lookup_total_insert_eq. cbn [specific].
  rewrite (lookup_total_correct _ _ _ Hempty), Hbucket.
  rewrite lookup_total_insert_ne by done.
  rewrite (lookup_total_correct _ _ _ Hempty).
  repeat split; try done.
  eexists _, (fresh (dom h')). split; [reflexivity|].
  cbn [objects cells set_cells].
  rewrite !(lookup_total_insert_ne _ self (fresh _)) by done.
  rewrite !lookup_total_insert_eq. cbn [specific].
  rewrite lookup_insert_eq, lookup_total_insert_eq.
  rewrite !lookup_insert_ne by done.
  change [(key, VRef (fresh (dom h')))]
    with (PyDict.set key (VRef (fresh (dom h'))) []).
  unfold PyDict.mem. rewrite get_set_eq. done.
Qed.

Lemma bucket_clone_starts_empty_witness :
  is_Some (objects Buckets.with_bucket !! 0%nat) ∧
  ∃ c st1 y,
    clone 0%nat Buckets.with_bucket = Return c st1 ∧
    specific (deref st1 c) = S3Storage y ∧
    S3Storage_download_file c "index.html" st1 =
      Failed (FileNotFoundError "Object index.html not found in bucket assets") st1.
Proof.
  assert (H1 : is_Some (objects Buckets.with_bucket !! 0%nat))
    by (vm_compute; eauto).
  split; [exact H1|].
  destruct (bucket_clone_starts_empty 0%nat "index.html" Buckets.with_bucket
              {| s3_bucket_name := "assets"; s3_storage_class := "STANDARD";
                 s3_objects := 1%nat; s3_versioning_enabled := false |} []
              H1 eq_refl eq_refl)
    as (c & st1 & y & Hclone & Hsp & _ & _ & _ & Hdown & _).
  exists c, st1, y. exact (conj Hclone (conj Hsp Hdown)).
Defined.
